(** * CollabLab API: a shallow embedding of [main.py]

    The request handlers of [main.py] are embedded as functions over an
    explicit store (the four MongoDB collections and the upload directory).
    Python exceptions are values of [exn]; a handler that writes to the store
    returns its outcome together with the store it leaves behind.

    The libraries the handlers call are embedded at their interface:
    - [bson.ObjectId] is modelled concretely (hexadecimal parsing included);
    - the pymongo collection methods are list functions in natural order;
    - the signing layer of [jose.jwt], [passlib]'s [CryptContext], the
      regular-expression engine behind [$regex] and the [open] of the
      operating system are type classes, so that every statement holds for
      any implementation of them; what a statement needs of them is a named
      law;
    - the clock and the generator of fresh ObjectIds are explicit arguments;
      a [datetime] is a number of microseconds. *)

From Stdlib Require Import ZArith String Ascii List Bool Lia.
From Stdlib Require Import Sorted Relations DecimalString DecimalZ.
From Stdlib.Strings Require Import Byte.
From stdpp Require Import base strings gmap.
Import ListNotations.
Open Scope string_scope.
Open Scope Z_scope.

(** ** Python runtime *)

(** The subclasses of [OSError] that opening a file raises. *)
Inductive os_error : Type :=
| FileNotFoundError
| IsADirectoryError
| NotADirectoryError
| PermissionError
| OtherOSError.

Inductive exn : Type :=
| HTTPException (status_code : Z) (detail : string)
| InvalidId          (* bson.errors.InvalidId, not a ValueError *)
| TypeError
| ValueError
| JWTError           (* jose.JWTError and its subclasses *)
| AttributeError
| OperationFailure   (* pymongo.errors.OperationFailure *)
| OSError (e : os_error).

Inductive result (A : Type) : Type :=
| Ok (a : A)
| Raise (e : exn).
Arguments Ok {A} a.
Arguments Raise {A} e.

Definition rbind {A B} (r : result A) (k : A -> result B) : result B :=
  match r with
  | Ok a => k a
  | Raise e => Raise e
  end.

Notation "'let*' x ':=' r 'in' k" := (rbind r (fun x => k))
  (at level 10, x name, r at level 100, k at level 200).

(** [str.lower] on the ASCII letters. *)
Definition lower_ascii (c : ascii) : ascii :=
  let n := nat_of_ascii c in
  if (Nat.leb 65 n && Nat.leb n 90)%bool then ascii_of_nat (n + 32) else c.

Fixpoint lower (s : string) : string :=
  match s with
  | EmptyString => EmptyString
  | String c s' => String (lower_ascii c) (lower s')
  end.

(** [s.split(sep)] for a one-character separator: every occurrence of the
    separator cuts, so the result is never empty. *)
Fixpoint split (sep : ascii) (s : string) : list string :=
  match s with
  | EmptyString => [EmptyString]
  | String c s' =>
      if Ascii.eqb c sep then EmptyString :: split sep s'
      else match split sep s' with
           | h :: t => String c h :: t
           | [] => [String c EmptyString]
           end
  end.

(** Truth value of a string ([not s] holds of the empty string). *)
Definition truthy_str (s : string) : bool := negb (String.eqb s "").

(** Truth value of an [Optional[str]]. *)
Definition truthy_opt (o : option string) : bool :=
  match o with
  | Some s => truthy_str s
  | None => false
  end.

(** The string held by an [Optional[str]] that is known to be truthy. *)
Definition unwrap (o : option string) : string :=
  match o with
  | Some s => s
  | None => EmptyString
  end.

(** [os.path.join(a, b)] of [posixpath]. *)
Fixpoint ends_with_slash (s : string) : bool :=
  match s with
  | EmptyString => false
  | String c EmptyString => Ascii.eqb c "/"
  | String _ s' => ends_with_slash s'
  end.

Definition starts_with_slash (s : string) : bool :=
  match s with
  | String c _ => Ascii.eqb c "/"
  | EmptyString => false
  end.

Definition path_join (a b : string) : string :=
  if starts_with_slash b then b
  else if (String.eqb a "" || ends_with_slash a)%bool then a ++ b
  else a ++ "/" ++ b.

Fixpoint has_slash (s : string) : bool :=
  match s with
  | EmptyString => false
  | String c s' => (Ascii.eqb c "/" || has_slash s')%bool
  end.

(** [os.path.basename(p)] of [posixpath]: what follows the last slash. *)
Fixpoint basename (s : string) : string :=
  match s with
  | EmptyString => EmptyString
  | String c s' =>
      if has_slash s' then basename s'
      else if Ascii.eqb c "/" then s' else s
  end.

(** ** bson.ObjectId *)

Module Bson.

(** The binary value of an ObjectId. *)
Definition oid : Type := list byte.

Definition hex_digit (n : N) : ascii :=
  match n with
  | 0%N => "0" | 1%N => "1" | 2%N => "2" | 3%N => "3"
  | 4%N => "4" | 5%N => "5" | 6%N => "6" | 7%N => "7"
  | 8%N => "8" | 9%N => "9" | 10%N => "a" | 11%N => "b"
  | 12%N => "c" | 13%N => "d" | 14%N => "e" | _ => "f"
  end%char.

Definition hex_val (c : ascii) : option N :=
  let n := N_of_ascii c in
  if (N.leb 48 n && N.leb n 57)%bool then Some (n - 48)%N
  else if (N.leb 97 n && N.leb n 102)%bool then Some (n - 87)%N
  else if (N.leb 65 n && N.leb n 70)%bool then Some (n - 55)%N
  else None.

(** [binascii.hexlify]. *)
Fixpoint hexlify (bs : list byte) : string :=
  match bs with
  | [] => EmptyString
  | b :: bs' =>
      let n := Byte.to_N b in
      String (hex_digit (N.div n 16))
        (String (hex_digit (N.modulo n 16)) (hexlify bs'))
  end.

(** ASCII white space, which [bytes.fromhex] skips between bytes. *)
Definition is_space (c : ascii) : bool :=
  let n := N_of_ascii c in
  (N.eqb n 32 || (N.leb 9 n && N.leb n 13))%bool.

Definition hex_pair (c d : ascii) : option byte :=
  match hex_val c, hex_val d with
  | Some h, Some l => Byte.of_N (16 * h + l)
  | _, _ => None
  end.

(** [bytes.fromhex]; [None] stands for its ValueError. *)
Fixpoint fromhex (s : string) : option (list byte) :=
  match s with
  | EmptyString => Some []
  | String c s' =>
      if is_space c then fromhex s'
      else match s' with
           | String d s'' =>
               match hex_pair c d with
               | Some b => option_map (cons b) (fromhex s'')
               | None => None
               end
           | EmptyString => None
           end
  end.

(** [ObjectId(s)] for a [str] argument: the string must have 24
    characters and be accepted by [bytes.fromhex]. *)
Definition ObjectId (s : string) : result oid :=
  if Nat.eqb (String.length s) 24 then
    match fromhex s with
    | Some bs => Ok bs
    | None => Raise InvalidId
    end
  else Raise InvalidId.

(** [str(oid)]. *)
Definition str (o : oid) : string := hexlify o.

Fixpoint oid_eqb (a b : oid) : bool :=
  match a, b with
  | [], [] => true
  | x :: a', y :: b' => (Byte.eqb x y && oid_eqb a' b')%bool
  | _, _ => false
  end.

(** A [datetime], a number of microseconds, as BSON keeps it and gives it
    back: to the millisecond. *)
Definition datetime (t : Z) : Z := 1000 * (t / 1000).

(** An ObjectId produced by the generator ([ObjectId()] or the driver on
    insertion) has twelve bytes. *)
Definition generated (o : oid) : Prop := List.length o = 12%nat.

End Bson.

(** ** jose.jwt *)

(** A claim value: a string or an integer, the two kinds [create_token]
    emits. *)
Inductive json : Type :=
| JStr (s : string)
| JInt (z : Z).

Definition truthy (v : option json) : bool :=
  match v with
  | Some (JStr s) => truthy_str s
  | Some (JInt z) => negb (Z.eqb z 0)
  | None => false
  end.

(** The payload dict of a token: the two claims the guard reads and the
    registered claims that [jwt.decode] validates against the clock. A key
    that is absent from the dict is [None] ([payload.get]). *)
Record claims : Type := {
  sub : option json;
  email : option json;
  iat : option Z;
  exp : option Z;
  nbf : option Z
}.

(** The signing layer ([jose.jws] with the JSON encoding of the payload):
    [jws_verify] is [None] when the token is malformed or its signature
    does not verify under the key. *)
Class JwsCodec : Type := {
  jws_sign : string -> claims -> string;
  jws_verify : string -> string -> option claims
}.

(** The claim validation of [jwt.decode] with its default options: an
    expiry in the past, a not-before in the future and a subject that is not
    a string are rejected; no claim is required to be present. *)
Definition validate_claims (now : Z) (c : claims) : bool :=
  (match exp c with Some e => negb (Z.ltb e now) | None => true end)
  && (match nbf c with Some n => negb (Z.ltb now n) | None => true end)
  && (match sub c with Some (JInt _) => false | _ => true end).

Definition jwt_encode `{JwsCodec} (payload : claims) (key : string) : string :=
  jws_sign key payload.

Definition jwt_decode `{JwsCodec} (token key : string) (now : Z) : result claims :=
  match jws_verify key token with
  | Some payload =>
      if validate_claims now payload then Ok payload else Raise JWTError
  | None => Raise JWTError
  end.

(** ** passlib.CryptContext(schemes=["bcrypt"]) *)

(** [pwd_hash salt password] is [pwd_context.hash(password)], the salt being
    the one the call draws; [pwd_verify password hashed] is
    [pwd_context.verify]. Both raise on some arguments (a password with a
    NUL byte, a stored string that is no hash). *)
Class CryptContext : Type := {
  pwd_hash : string -> string -> result string;
  pwd_verify : string -> string -> result bool
}.

(** ** The regular expressions of the store *)

(** [regex_compile pattern options] is the unanchored search for
    [{"$regex": pattern, "$options": options}]; [None] when the pattern is
    not a regular expression, which the store reports as an
    OperationFailure. *)
Class RegexEngine : Type := {
  regex_compile : string -> string -> option (string -> bool)
}.

(** ** The operating system *)

(** What [open(path, "wb")] raises: an [OSError] (a missing directory, a
    name the system refuses) or, for a path with a NUL, a [ValueError]. *)
Inductive open_error : Type :=
| OpenOSError (e : os_error)
| OpenValueError.

Definition open_raises (e : open_error) : exn :=
  match e with
  | OpenOSError e => OSError e
  | OpenValueError => ValueError
  end.

(** [open_wb path files] is the outcome of [open(path, "wb")] when the
    upload store holds [files]: [None] when the file is opened, [Some e]
    when the call raises. *)
Class FileSystem : Type := {
  open_wb : string -> gmap string (list byte) -> option open_error
}.

(** ** pymongo collections

    A collection is the list of its documents in natural (insertion) order. *)

Module Mongo.
Section Collection.
Context {D : Type}.

Definition find_one (f : D -> bool) (c : list D) : option D :=
  List.find f c.

Definition find (f : D -> bool) (c : list D) : list D :=
  List.filter f c.

Definition insert_one (d : D) (c : list D) : list D := c ++ [d].

(** [update_one(filter, {"$set": ...})]: the first match is updated. *)
Fixpoint update_one (f : D -> bool) (set : D -> D) (c : list D) : list D :=
  match c with
  | [] => []
  | d :: c' => if f d then set d :: c' else d :: update_one f set c'
  end.

Fixpoint delete_one (f : D -> bool) (c : list D) : list D :=
  match c with
  | [] => []
  | d :: c' => if f d then c' else d :: delete_one f c'
  end.

Definition delete_many (f : D -> bool) (c : list D) : list D :=
  List.filter (fun d => negb (f d)) c.

(** [cursor.sort(key, -1)]: descending on an integer key. *)
Fixpoint insert_desc (key : D -> Z) (d : D) (c : list D) : list D :=
  match c with
  | [] => [d]
  | e :: c' =>
      if Z.ltb (key d) (key e) then e :: insert_desc key d c'
      else d :: e :: c'
  end.

Fixpoint sort_desc (key : D -> Z) (c : list D) : list D :=
  match c with
  | [] => []
  | d :: c' => insert_desc key d (sort_desc key c')
  end.
End Collection.
End Mongo.

Arguments Mongo.find_one {D} f c : simpl never.
Arguments Mongo.find {D} f c : simpl never.
Arguments Mongo.insert_one {D} d c : simpl never.
Arguments Mongo.delete_many {D} f c : simpl never.

(** ** Documents and request models *)

Module User.
Record doc : Type := {
  _id : Bson.oid;
  name : string;
  email : string;
  password_hash : string;
  provider : string;
  created_at : Z
}.
End User.

Module ProjectIn.
Record t : Type := {
  title : string;
  description : string;
  skills_required : list string;
  expected_contribution : option string;
  duration : option string;
  tags : list string;
  visibility : string
}.
End ProjectIn.

Module Project.
Record doc : Type := {
  _id : Bson.oid;
  title : string;
  description : string;
  skills_required : list string;
  expected_contribution : option string;
  duration : option string;
  tags : list string;
  visibility : string;
  owner_id : string;
  created_at : Z;
  updated_at : option Z
}.
End Project.

Module ProjectOut.
Record t : Type := {
  id : string;
  owner_id : string;
  created_at : Z;
  title : string;
  description : string;
  skills_required : list string;
  expected_contribution : option string;
  duration : option string;
  tags : list string;
  visibility : string
}.
End ProjectOut.

Module SavedProject.
Record doc : Type := {
  _id : Bson.oid;
  user_id : string;
  project_id : string;
  created_at : Z
}.
End SavedProject.

Module CollaborationRequest.
Record doc : Type := {
  _id : Bson.oid;
  project_id : string;
  applicant_id : string;
  message : string;
  portfolio_url : string;
  document_path : string;
  status : string;
  created_at : Z
}.
End CollaborationRequest.

Module AuthUser.
Record t : Type := {
  id : string;
  email : string;
  name : option string
}.
End AuthUser.

Module SignUpRequest.
Record t : Type := {
  name : string;
  email : string;
  password : string
}.
End SignUpRequest.

Module SignInRequest.
Record t : Type := {
  email : string;
  password : string
}.
End SignInRequest.

Module TokenResponse.
Record t : Type := {
  access_token : string;
  token_type : string
}.
End TokenResponse.

Module UploadFile.
Record t : Type := {
  filename : string;
  content : list byte
}.
End UploadFile.

Module ProfileUpdate.
Record t : Type := {
  name : option string
}.
End ProfileUpdate.

Module MeResponse.
Record t : Type := {
  id : string;
  email : option string;
  name : option string
}.
End MeResponse.

Module RequestOut.
Record t : Type := {
  id : string;
  project_id : string;
  applicant_id : string;
  message : string;
  portfolio_url : string;
  status : string;
  created_at : Z
}.
End RequestOut.

(** [FileResponse(path, filename=filename)]: the file at [path] is read
    when the response is sent. *)
Module FileResponse.
Record t : Type := {
  path : string;
  filename : string
}.
End FileResponse.

(** ** The store: [db] and the upload directory *)

Record World : Type := {
  users : list User.doc;
  projects : list Project.doc;
  savedproject : list SavedProject.doc;
  collaborationrequest : list CollaborationRequest.doc;
  files : gmap string (list byte)
}.

Definition empty_world : World :=
  {| users := []; projects := []; savedproject := [];
     collaborationrequest := []; files := ∅ |}.

Definition set_users (f : list User.doc -> list User.doc) (w : World) : World :=
  {| users := f (users w); projects := projects w;
     savedproject := savedproject w;
     collaborationrequest := collaborationrequest w; files := files w |}.

Definition set_projects (f : list Project.doc -> list Project.doc) (w : World) : World :=
  {| users := users w; projects := f (projects w);
     savedproject := savedproject w;
     collaborationrequest := collaborationrequest w; files := files w |}.

Definition set_savedproject
    (f : list SavedProject.doc -> list SavedProject.doc) (w : World) : World :=
  {| users := users w; projects := projects w;
     savedproject := f (savedproject w);
     collaborationrequest := collaborationrequest w; files := files w |}.

Definition set_collaborationrequest
    (f : list CollaborationRequest.doc -> list CollaborationRequest.doc)
    (w : World) : World :=
  {| users := users w; projects := projects w;
     savedproject := savedproject w;
     collaborationrequest := f (collaborationrequest w); files := files w |}.

(** The documents as the driver stores them. *)
Definition stored_user (u : User.doc) : User.doc :=
  {| User._id := User._id u;
     User.name := User.name u;
     User.email := User.email u;
     User.password_hash := User.password_hash u;
     User.provider := User.provider u;
     User.created_at := Bson.datetime (User.created_at u) |}.

Definition stored_project (p : Project.doc) : Project.doc :=
  {| Project._id := Project._id p;
     Project.title := Project.title p;
     Project.description := Project.description p;
     Project.skills_required := Project.skills_required p;
     Project.expected_contribution := Project.expected_contribution p;
     Project.duration := Project.duration p;
     Project.tags := Project.tags p;
     Project.visibility := Project.visibility p;
     Project.owner_id := Project.owner_id p;
     Project.created_at := Bson.datetime (Project.created_at p);
     Project.updated_at := option_map Bson.datetime (Project.updated_at p) |}.

Definition stored_saved (s : SavedProject.doc) : SavedProject.doc :=
  {| SavedProject._id := SavedProject._id s;
     SavedProject.user_id := SavedProject.user_id s;
     SavedProject.project_id := SavedProject.project_id s;
     SavedProject.created_at := Bson.datetime (SavedProject.created_at s) |}.

Definition stored_request (r : CollaborationRequest.doc)
  : CollaborationRequest.doc :=
  {| CollaborationRequest._id := CollaborationRequest._id r;
     CollaborationRequest.project_id := CollaborationRequest.project_id r;
     CollaborationRequest.applicant_id := CollaborationRequest.applicant_id r;
     CollaborationRequest.message := CollaborationRequest.message r;
     CollaborationRequest.portfolio_url := CollaborationRequest.portfolio_url r;
     CollaborationRequest.document_path := CollaborationRequest.document_path r;
     CollaborationRequest.status := CollaborationRequest.status r;
     CollaborationRequest.created_at :=
       Bson.datetime (CollaborationRequest.created_at r) |}.

(** What [f.write(content)] does to the store once [path] is opened. *)
Definition write_file (path : string) (content : list byte) (w : World) : World :=
  {| users := users w; projects := projects w;
     savedproject := savedproject w;
     collaborationrequest := collaborationrequest w;
     files := <[path := content]> (files w) |}.

(** ** Handlers that write: outcome and store left behind *)

Definition M (A : Type) : Type := World -> result A * World.

Definition ret {A} (a : A) : M A := fun w => (Ok a, w).

Definition raise {A} (e : exn) : M A := fun w => (Raise e, w).

Definition bind {A B} (m : M A) (k : A -> M B) : M B :=
  fun w =>
    match m w with
    | (Ok a, w') => k a w'
    | (Raise e, w') => (Raise e, w')
    end.

Definition lift {A} (r : result A) : M A := fun w => (r, w).

Definition gets {A} (f : World -> A) : M A := fun w => (Ok (f w), w).

Definition modify (f : World -> World) : M unit := fun w => (Ok tt, f w).

Notation "'do' x '<-' m 'in' k" := (bind m (fun x => k))
  (at level 10, x name, m at level 100, k at level 200).
Notation "'run' m 'in' k" := (bind m (fun _ => k))
  (at level 10, m at level 100, k at level 200).

(** [[ObjectId(s) for s in l]]: the first string that is not an ObjectId
    raises. *)
Fixpoint ObjectIds (l : list string) : result (list Bson.oid) :=
  match l with
  | [] => Ok []
  | s :: l' =>
      let* o := Bson.ObjectId s in
      let* os := ObjectIds l' in
      Ok (o :: os)
  end.

(** The [ProjectOut(...)] expression that [list_projects], [get_project],
    [update_project] and [my_saved] build from a stored project. *)
Definition project_out (p : Project.doc) : ProjectOut.t :=
  {| ProjectOut.id := Bson.str (Project._id p);
     ProjectOut.owner_id := Project.owner_id p;
     ProjectOut.created_at := Project.created_at p;
     ProjectOut.title := Project.title p;
     ProjectOut.description := Project.description p;
     ProjectOut.skills_required := Project.skills_required p;
     ProjectOut.expected_contribution := Project.expected_contribution p;
     ProjectOut.duration := Project.duration p;
     ProjectOut.tags := Project.tags p;
     ProjectOut.visibility := Project.visibility p |}.

(** [{"$set": {**payload.model_dump(), "updated_at": now}}]. *)
Definition set_project (payload : ProjectIn.t) (now : Z) (p : Project.doc)
  : Project.doc :=
  {| Project._id := Project._id p;
     Project.title := ProjectIn.title payload;
     Project.description := ProjectIn.description payload;
     Project.skills_required := ProjectIn.skills_required payload;
     Project.expected_contribution := ProjectIn.expected_contribution payload;
     Project.duration := ProjectIn.duration payload;
     Project.tags := ProjectIn.tags payload;
     Project.visibility := ProjectIn.visibility payload;
     Project.owner_id := Project.owner_id p;
     Project.created_at := Project.created_at p;
     Project.updated_at := Some (Bson.datetime now) |}.

(** [{"$set": {"status": s}}]. *)
Definition set_status (s : string) (r : CollaborationRequest.doc)
  : CollaborationRequest.doc :=
  {| CollaborationRequest._id := CollaborationRequest._id r;
     CollaborationRequest.project_id := CollaborationRequest.project_id r;
     CollaborationRequest.applicant_id := CollaborationRequest.applicant_id r;
     CollaborationRequest.message := CollaborationRequest.message r;
     CollaborationRequest.portfolio_url := CollaborationRequest.portfolio_url r;
     CollaborationRequest.document_path := CollaborationRequest.document_path r;
     CollaborationRequest.status := s;
     CollaborationRequest.created_at := CollaborationRequest.created_at r |}.

(** [{"$set": {"name": n}}]. *)
Definition set_name (n : string) (u : User.doc) : User.doc :=
  {| User._id := User._id u;
     User.name := n;
     User.email := User.email u;
     User.password_hash := User.password_hash u;
     User.provider := User.provider u;
     User.created_at := User.created_at u |}.

Definition user_by_id (o : Bson.oid) (u : User.doc) : bool :=
  Bson.oid_eqb (User._id u) o.

Definition project_by_id (o : Bson.oid) (p : Project.doc) : bool :=
  Bson.oid_eqb (Project._id p) o.

Definition request_by_id (o : Bson.oid) (r : CollaborationRequest.doc) : bool :=
  Bson.oid_eqb (CollaborationRequest._id r) o.

Definition valid_statuses : list string := ["pending"; "accepted"; "rejected"].

Section Handlers.
Context {codec : JwsCodec} {crypt : CryptContext} {regex : RegexEngine}.
Context {fs : FileSystem}.
Variables (JWT_SECRET UPLOAD_DIR : string).

Definition hash_password (salt password : string) : result string :=
  pwd_hash salt password.

Definition verify_password (password hashed : string) : result bool :=
  pwd_verify password hashed.

(** [with open(path, "wb") as f: f.write(content)]. *)
Definition open_write (path : string) (content : list byte) : M unit :=
  fun w =>
    match open_wb path (files w) with
    | Some e => (Raise (open_raises e), w)
    | None => (Ok tt, write_file path content w)
    end.

(** [now] is the clock read for the [iat] claim. *)
Definition create_token (user_id email : string) (now : Z) : string :=
  jwt_encode
    {| sub := Some (JStr user_id); email := Some (JStr email);
       iat := Some now; exp := None; nbf := None |}
    JWT_SECRET.

(** The body of the [try] block of [get_current_user]. *)
Definition get_current_user_try (authorization : string) (now : Z) (w : World)
  : result AuthUser.t :=
  match split " " authorization with
  | [scheme; token] =>
      if negb (String.eqb (lower scheme) "bearer") then Raise ValueError
      else
        let* payload := jwt_decode token JWT_SECRET now in
        let user_id := sub payload in
        let email := email payload in
        if (negb (truthy user_id) || negb (truthy email))%bool
        then Raise ValueError
        else
          let* o := match user_id with
                    | Some (JStr s) => Bson.ObjectId s
                    | _ => Raise TypeError
                    end in
          match Mongo.find_one (user_by_id o) (users w) with
          | None => Raise (HTTPException 401 "User not found")
          | Some user =>
              Ok {| AuthUser.id := Bson.str (User._id user);
                    AuthUser.email := User.email user;
                    AuthUser.name := Some (User.name user) |}
          end
  | _ => Raise ValueError
  end.

(** [now] is the clock that [jwt.decode] reads. *)
Definition get_current_user (authorization : option string) (now : Z)
    (w : World) : result AuthUser.t :=
  if negb (truthy_opt authorization)
  then Raise (HTTPException 401 "Missing Authorization header")
  else
    match get_current_user_try (unwrap authorization) now w with
    | Raise JWTError | Raise ValueError =>
        Raise (HTTPException 401 "Invalid or expired token")
    | r => r
    end.

(** The [user_doc] of [signup], with the [_id] the driver gives it;
    [hashed] is what [hash_password] returned. *)
Definition signup_doc (payload : SignUpRequest.t) (new_id : Bson.oid)
    (hashed : string) (now : Z) : User.doc :=
  {| User._id := new_id;
     User.name := SignUpRequest.name payload;
     User.email := SignUpRequest.email payload;
     User.password_hash := hashed;
     User.provider := "credentials";
     User.created_at := now |}.

(** [new_id] is the [_id] the driver gives the inserted document, [salt]
    the salt drawn by the hash, [now] and [issued] the two clock readings. *)
Definition signup (payload : SignUpRequest.t) (new_id : Bson.oid)
    (salt : string) (now issued : Z) : M TokenResponse.t :=
  do existing <- gets (fun w =>
      Mongo.find_one
        (fun u => String.eqb (User.email u) (SignUpRequest.email payload))
        (users w)) in
  match existing with
  | Some _ => raise (HTTPException 400 "Email already registered")
  | None =>
      do hashed <- lift (hash_password salt (SignUpRequest.password payload)) in
      let user_doc := signup_doc payload new_id hashed now in
      run modify (set_users (Mongo.insert_one (stored_user user_doc))) in
      let token :=
        create_token (Bson.str new_id) (SignUpRequest.email payload) issued in
      ret {| TokenResponse.access_token := token;
             TokenResponse.token_type := "bearer" |}
  end.

Definition signin (payload : SignInRequest.t) (issued : Z) (w : World)
  : result TokenResponse.t :=
  match Mongo.find_one
          (fun u => String.eqb (User.email u) (SignInRequest.email payload))
          (users w) with
  | Some user =>
      let* verified :=
        verify_password (SignInRequest.password payload)
          (User.password_hash user) in
      if verified
      then
        Ok {| TokenResponse.access_token :=
                create_token (Bson.str (User._id user)) (User.email user) issued;
              TokenResponse.token_type := "bearer" |}
      else Raise (HTTPException 401 "Invalid credentials")
  | None => Raise (HTTPException 401 "Invalid credentials")
  end.

Definition create_project (payload : ProjectIn.t) (user : AuthUser.t)
    (new_id : Bson.oid) (now : Z) : M ProjectOut.t :=
  let doc :=
    {| Project._id := new_id;
       Project.title := ProjectIn.title payload;
       Project.description := ProjectIn.description payload;
       Project.skills_required := ProjectIn.skills_required payload;
       Project.expected_contribution := ProjectIn.expected_contribution payload;
       Project.duration := ProjectIn.duration payload;
       Project.tags := ProjectIn.tags payload;
       Project.visibility := ProjectIn.visibility payload;
       Project.owner_id := AuthUser.id user;
       Project.created_at := now;
       Project.updated_at := None |} in
  run modify (set_projects (Mongo.insert_one (stored_project doc))) in
  ret (project_out doc).

(** The filter of [list_projects]: [{"visibility": "public"}], the [$or]
    of the three [$regex] conditions when [q] is given, and
    [{"tags": {"$in": [tag]}}] when [tag] is given. *)
Definition list_projects_query (q tag : option string)
  : result (Project.doc -> bool) :=
  let* q_cond :=
    if truthy_opt q then
      match regex_compile (unwrap q) "i" with
      | Some m =>
          Ok (fun p : Project.doc =>
                (m (Project.title p) || m (Project.description p)
                 || List.existsb m (Project.tags p))%bool)
      | None => Raise OperationFailure
      end
    else Ok (fun _ => true) in
  let tag_cond :=
    if truthy_opt tag then
      fun p : Project.doc =>
        List.existsb (String.eqb (unwrap tag)) (Project.tags p)
    else fun _ => true in
  Ok (fun p =>
        (String.eqb (Project.visibility p) "public" && q_cond p
         && tag_cond p)%bool).

Definition list_projects (q tag : option string) (w : World)
  : result (list ProjectOut.t) :=
  let* query := list_projects_query q tag in
  let cursor :=
    Mongo.sort_desc Project.created_at (Mongo.find query (projects w)) in
  Ok (List.map project_out cursor).

Definition update_project (project_id : string) (payload : ProjectIn.t)
    (user : AuthUser.t) (now : Z) : M ProjectOut.t :=
  do o <- lift (Bson.ObjectId project_id) in
  do p <- gets (fun w => Mongo.find_one (project_by_id o) (projects w)) in
  match p with
  | None => raise (HTTPException 404 "Project not found")
  | Some p =>
      if negb (String.eqb (Project.owner_id p) (AuthUser.id user))
      then raise (HTTPException 403 "Not authorized")
      else
        run modify (set_projects
              (Mongo.update_one (project_by_id o) (set_project payload now))) in
        do p <- gets (fun w => Mongo.find_one (project_by_id o) (projects w)) in
        match p with
        | Some p => ret (project_out p)
        | None => raise TypeError
        end
  end.

Definition delete_project (project_id : string) (user : AuthUser.t) : M bool :=
  do o <- lift (Bson.ObjectId project_id) in
  do p <- gets (fun w => Mongo.find_one (project_by_id o) (projects w)) in
  match p with
  | None => raise (HTTPException 404 "Project not found")
  | Some p =>
      if negb (String.eqb (Project.owner_id p) (AuthUser.id user))
      then raise (HTTPException 403 "Not authorized")
      else
        run modify (set_projects (Mongo.delete_one (project_by_id o))) in
        run modify (set_savedproject
              (Mongo.delete_many
                 (fun s => String.eqb (SavedProject.project_id s) project_id))) in
        run modify (set_collaborationrequest
              (Mongo.delete_many
                 (fun r =>
                    String.eqb (CollaborationRequest.project_id r) project_id))) in
        ret true
  end.

Definition saved_by (user_id project_id : string) (s : SavedProject.doc)
  : bool :=
  (String.eqb (SavedProject.user_id s) user_id
   && String.eqb (SavedProject.project_id s) project_id)%bool.

Definition save_project (project_id : string) (user : AuthUser.t)
    (new_id : Bson.oid) (now : Z) : M bool :=
  do exists_ <- gets (fun w =>
      Mongo.find_one (saved_by (AuthUser.id user) project_id)
        (savedproject w)) in
  match exists_ with
  | Some _ => ret true
  | None =>
      run modify (set_savedproject
            (Mongo.insert_one
               (stored_saved
                  {| SavedProject._id := new_id;
                     SavedProject.user_id := AuthUser.id user;
                     SavedProject.project_id := project_id;
                     SavedProject.created_at := now |}))) in
      ret true
  end.

Definition my_saved (user : AuthUser.t) (w : World)
  : result (list ProjectOut.t) :=
  let saved :=
    Mongo.find
      (fun s => String.eqb (SavedProject.user_id s) (AuthUser.id user))
      (savedproject w) in
  let* ids := ObjectIds (List.map SavedProject.project_id saved) in
  let projects :=
    Mongo.find
      (fun p => List.existsb (Bson.oid_eqb (Project._id p)) ids)
      (projects w) in
  Ok (List.map project_out projects).

(** [file_id] is the fresh [ObjectId()] of the file name, [new_id] the
    [_id] of the inserted request. *)
Definition apply_to_project (project_id message portfolio_url : string)
    (document : UploadFile.t) (user : AuthUser.t)
    (file_id new_id : Bson.oid) (now : Z) : M bool :=
  do o <- lift (Bson.ObjectId project_id) in
  do project <- gets (fun w => Mongo.find_one (project_by_id o) (projects w)) in
  match project with
  | None => raise (HTTPException 404 "Project not found")
  | Some project =>
      if String.eqb (Project.visibility project) "private"
      then raise (HTTPException 404 "Project not found")
      else
        let safe_name :=
          Bson.str file_id ++ "_" ++ UploadFile.filename document in
        let path := path_join UPLOAD_DIR safe_name in
        run open_write path (UploadFile.content document) in
        let rec :=
          {| CollaborationRequest._id := new_id;
             CollaborationRequest.project_id := project_id;
             CollaborationRequest.applicant_id := AuthUser.id user;
             CollaborationRequest.message := message;
             CollaborationRequest.portfolio_url := portfolio_url;
             CollaborationRequest.document_path := path;
             CollaborationRequest.status := "pending";
             CollaborationRequest.created_at := now |} in
        run modify (set_collaborationrequest
              (Mongo.insert_one (stored_request rec))) in
        ret true
  end.

Definition update_status (request_id status : string) (user : AuthUser.t)
  : M bool :=
  do rid <- lift (Bson.ObjectId request_id) in
  do r <- gets (fun w =>
      Mongo.find_one (request_by_id rid) (collaborationrequest w)) in
  match r with
  | None => raise (HTTPException 404 "Request not found")
  | Some r =>
      do o <- lift (Bson.ObjectId (CollaborationRequest.project_id r)) in
      do p <- gets (fun w => Mongo.find_one (project_by_id o) (projects w)) in
      match p with
      | None => raise (HTTPException 403 "Not authorized")
      | Some p =>
          if negb (String.eqb (Project.owner_id p) (AuthUser.id user))
          then raise (HTTPException 403 "Not authorized")
          else if negb (List.existsb (String.eqb status) valid_statuses)
          then raise (HTTPException 400 "Invalid status")
          else
            run modify (set_collaborationrequest
                  (Mongo.update_one (request_by_id rid) (set_status status))) in
            ret true
      end
  end.

Definition update_me (payload : ProfileUpdate.t) (user : AuthUser.t)
  : M MeResponse.t :=
  (* update = {k: v for k, v in payload.model_dump().items() if v is not None} *)
  run match ProfileUpdate.name payload with
      | Some n =>
          do o <- lift (Bson.ObjectId (AuthUser.id user)) in
          modify (set_users (Mongo.update_one (user_by_id o) (set_name n)))
      | None => ret tt
      end in
  do o <- lift (Bson.ObjectId (AuthUser.id user)) in
  do u <- gets (fun w => Mongo.find_one (user_by_id o) (users w)) in
  match u with
  | Some u =>
      ret {| MeResponse.id := AuthUser.id user;
             MeResponse.email := Some (User.email u);
             MeResponse.name := Some (User.name u) |}
  | None => raise AttributeError
  end.

Definition get_project (project_id : string) (w : World)
  : result ProjectOut.t :=
  let* o := Bson.ObjectId project_id in
  match Mongo.find_one (project_by_id o) (projects w) with
  | None => Raise (HTTPException 404 "Project not found")
  | Some p => Ok (project_out p)
  end.

(** The [RequestOut(...)] expression of [list_requests]. *)
Definition request_out (r : CollaborationRequest.doc) : RequestOut.t :=
  {| RequestOut.id := Bson.str (CollaborationRequest._id r);
     RequestOut.project_id := CollaborationRequest.project_id r;
     RequestOut.applicant_id := CollaborationRequest.applicant_id r;
     RequestOut.message := CollaborationRequest.message r;
     RequestOut.portfolio_url := CollaborationRequest.portfolio_url r;
     RequestOut.status := CollaborationRequest.status r;
     RequestOut.created_at := CollaborationRequest.created_at r |}.

Definition list_requests (project_id : string) (user : AuthUser.t) (w : World)
  : result (list RequestOut.t) :=
  let* o := Bson.ObjectId project_id in
  match Mongo.find_one (project_by_id o) (projects w) with
  | None => Raise (HTTPException 404 "Project not found")
  | Some p =>
      if negb (String.eqb (Project.owner_id p) (AuthUser.id user))
      then Raise (HTTPException 403 "Not authorized")
      else
        let cursor :=
          Mongo.sort_desc CollaborationRequest.created_at
            (Mongo.find
               (fun r =>
                  String.eqb (CollaborationRequest.project_id r) project_id)
               (collaborationrequest w)) in
        Ok (List.map request_out cursor)
  end.

(** [os.path.exists(path)] in the upload store. *)
Definition path_exists (path : string) (w : World) : bool :=
  match files w !! path with
  | Some _ => true
  | None => false
  end.

Definition download_document (request_id : string) (user : AuthUser.t)
    (w : World) : result FileResponse.t :=
  let* rid := Bson.ObjectId request_id in
  match Mongo.find_one (request_by_id rid) (collaborationrequest w) with
  | None => Raise (HTTPException 404 "Request not found")
  | Some r =>
      let* o := Bson.ObjectId (CollaborationRequest.project_id r) in
      match Mongo.find_one (project_by_id o) (projects w) with
      | None => Raise (HTTPException 403 "Not authorized")
      | Some p =>
          if negb (String.eqb (Project.owner_id p) (AuthUser.id user))
          then Raise (HTTPException 403 "Not authorized")
          else
            let path := CollaborationRequest.document_path r in
            if (negb (truthy_str path) || negb (path_exists path w))%bool
            then Raise (HTTPException 404 "File not found")
            else
              Ok {| FileResponse.path := path;
                    FileResponse.filename := basename path |}
      end
  end.

(** The bytes a [FileResponse] streams from the store it is sent from. *)
Definition file_body (response : FileResponse.t) (w : World)
  : option (list byte) :=
  files w !! FileResponse.path response.

Definition me (user : AuthUser.t) : MeResponse.t :=
  {| MeResponse.id := AuthUser.id user;
     MeResponse.email := Some (AuthUser.email user);
     MeResponse.name := AuthUser.name user |}.

End Handlers.

(** ** The store over time *)

Section Reachability.
Context {codec : JwsCodec} {crypt : CryptContext}.
Variables (JWT_SECRET UPLOAD_DIR : string).

(** One call of a handler that writes, with any arguments; the operating
    system may answer each [open] in its own way. *)
Inductive step (w : World) : World -> Prop :=
| step_signup payload new_id salt now issued :
    step w (snd (signup JWT_SECRET payload new_id salt now issued w))
| step_create_project payload user new_id now :
    step w (snd (create_project payload user new_id now w))
| step_update_project project_id payload user now :
    step w (snd (update_project project_id payload user now w))
| step_delete_project project_id user :
    step w (snd (delete_project project_id user w))
| step_save_project project_id user new_id now :
    step w (snd (save_project project_id user new_id now w))
| step_apply_to_project (fs : FileSystem) project_id message portfolio_url
    document user file_id new_id now :
    step w (snd (apply_to_project UPLOAD_DIR project_id message portfolio_url
                   document user file_id new_id now w))
| step_update_status request_id status user :
    step w (snd (update_status request_id status user w))
| step_update_me payload user :
    step w (snd (update_me payload user w)).

(** The stores the service can be in, starting from empty collections. *)
Inductive reachable : World -> Prop :=
| reachable_empty : reachable empty_world
| reachable_step w w' : reachable w -> step w w' -> reachable w'.
End Reachability.

(** ** Words of the specification *)

(** Case-insensitive comparison of two characters. *)
Definition ci_eqb (a b : ascii) : bool :=
  Ascii.eqb (lower_ascii a) (lower_ascii b).

Fixpoint match_here (cmp : ascii -> ascii -> bool) (pat s : string) : bool :=
  match pat, s with
  | EmptyString, _ => true
  | String pc pat', String c s' => (cmp pc c && match_here cmp pat' s')%bool
  | String _ _, EmptyString => false
  end.

Fixpoint search (cmp : ascii -> ascii -> bool) (pat s : string) : bool :=
  (match_here cmp pat s
   || match s with
      | String _ s' => search cmp pat s'
      | EmptyString => false
      end)%bool.

(** [s] contains [q] as a case-insensitive substring. *)
Definition contains_ci (q s : string) : bool := search ci_eqb q s.

(** The header is literally of the form [Bearer <token>]. *)
Definition bearer_form (h : string) : Prop := exists token, h = "Bearer " ++ token.

(** The header has a scheme and a token separated by its only space, and the
    scheme is [bearer] in any letter case. *)
Definition bearer_token (h token : string) : Prop :=
  exists scheme, split " " h = [scheme; token] /\ lower scheme = "bearer".

(** [a] comes before [b] when the newest come first. *)
Definition newest_first {D : Type} (key : D -> Z) (a b : D) : Prop :=
  key b <= key a.

(** The character occurs in the string. *)
Fixpoint occurs (c : ascii) (s : string) : bool :=
  match s with
  | EmptyString => false
  | String d s' => (Ascii.eqb d c || occurs c s')%bool
  end.

(** The hash of a password is never the password. *)
Definition hash_hides_password (crypt : CryptContext) : Prop :=
  forall salt password hashed,
    pwd_hash salt password = Ok hashed -> hashed <> password.

(** The metacharacters of a regular expression. *)
Definition regex_meta (c : ascii) : bool :=
  List.existsb (Ascii.eqb c) (list_ascii_of_string "\^$.|?*+()[]{}").

(** The string is made of ASCII characters. *)
Fixpoint ascii_only (s : string) : bool :=
  match s with
  | EmptyString => true
  | String c s' => (N.ltb (N_of_ascii c) 128 && ascii_only s')%bool
  end.

(** The pattern is made of ASCII characters that are no metacharacters. *)
Definition literal (pattern : string) : bool :=
  (ascii_only pattern
   && negb (List.existsb regex_meta (list_ascii_of_string pattern)))%bool.

(** With the option [i], the search for a literal pattern in an ASCII
    string is the search for it as a case-insensitive substring. *)
Definition regex_literal_law (regex : RegexEngine) : Prop :=
  forall pattern,
    literal pattern = true ->
    exists m,
      regex_compile pattern "i" = Some m
      /\ forall s, ascii_only s = true -> m s = contains_ci pattern s.

(** The title, the description and the tags of the project are ASCII. *)
Definition ascii_fields (p : Project.doc) : bool :=
  (ascii_only (Project.title p) && ascii_only (Project.description p)
   && List.forallb ascii_only (Project.tags p))%bool.

(** The string contains a space. *)
Fixpoint has_space (s : string) : bool :=
  match s with
  | EmptyString => false
  | String c s' => (Ascii.eqb c " " || has_space s')%bool
  end.

(** The signing layer verifies, under the key, every token it made and
    returns its payload; a token has no space (it is made of base64url
    characters and dots). *)
Definition jws_lawful (codec : JwsCodec) : Prop :=
  (forall key payload, jws_verify key (jws_sign key payload) = Some payload)
  /\ (forall key payload, has_space (jws_sign key payload) = false).

(** The records of a saved pair. *)
Definition saved_count (user_id project_id : string) (w : World) : nat :=
  List.length (List.filter (saved_by user_id project_id) (savedproject w)).

(** What [update_me] may not change in a user record. *)
Definition user_frame (u : User.doc)
  : Bson.oid * string * string * string * Z :=
  (User._id u, User.email u, User.password_hash u, User.provider u,
   User.created_at u).

(** What [update_project] may not change in a project record. *)
Definition project_frame (p : Project.doc) : Bson.oid * string * Z :=
  (Project._id p, Project.owner_id p, Project.created_at p).

(** What [update_status] may not change in a request record. *)
Definition request_frame (r : CollaborationRequest.doc)
  : Bson.oid * string * string * string * string * string * Z :=
  (CollaborationRequest._id r, CollaborationRequest.project_id r,
   CollaborationRequest.applicant_id r, CollaborationRequest.message r,
   CollaborationRequest.portfolio_url r,
   CollaborationRequest.document_path r, CollaborationRequest.created_at r).

(** The number of spaces of a string. *)
Fixpoint count_spaces (s : string) : nat :=
  match s with
  | EmptyString => 0%nat
  | String c s' =>
      ((if Ascii.eqb c " " then 1 else 0) + count_spaces s')%nat
  end.

(** ** Reference implementations of the library interfaces

    Small implementations of the four interfaces, used to run the handlers
    on concrete requests. *)

Module Reference.

Definition hex (s : string) : string := Bson.hexlify (list_byte_of_string s).

Definition unhex (s : string) : option string :=
  option_map string_of_list_byte (Bson.fromhex s).

Definition dec (z : Z) : string := NilEmpty.string_of_int (Z.to_int z).

Definition undec (s : string) : option Z :=
  option_map Z.of_int (NilEmpty.int_of_string s).

Definition ser_int (v : option Z) : string :=
  match v with
  | None => "-"
  | Some z => String "i" (hex (dec z))
  end.

Definition ser_json (v : option json) : string :=
  match v with
  | None => "-"
  | Some (JStr s) => String "s" (hex s)
  | Some (JInt z) => String "i" (hex (dec z))
  end.

Definition parse_number (r : string) : option Z :=
  match unhex r with
  | Some d => undec d
  | None => None
  end.

Definition parse_int (s : string) : option (option Z) :=
  match s with
  | String "i" r => option_map Some (parse_number r)
  | "-" => Some None
  | _ => None
  end.

Definition parse_json (s : string) : option (option json) :=
  match s with
  | String "s" r => option_map (fun x => Some (JStr x)) (unhex r)
  | String "i" r => option_map (fun z => Some (JInt z)) (parse_number r)
  | "-" => Some None
  | _ => None
  end.

(** A character that occurs in no part of a token. *)
Definition foreign (c : ascii) : Prop :=
  Bson.hex_val c = None /\ c <> "s"%char /\ c <> "i"%char /\ c <> "-"%char.

(** A token is the key and the five claims, in hexadecimal and joined by
    dots; it verifies under the key it carries. *)
Definition sign (key : string) (c : claims) : string :=
  hex key ++ "." ++ ser_json (sub c) ++ "." ++ ser_json (email c)
  ++ "." ++ ser_int (iat c) ++ "." ++ ser_int (exp c)
  ++ "." ++ ser_int (nbf c).

Definition verify (key token : string) : option claims :=
  match split "." token with
  | [k; a; b; c; d; e] =>
      if String.eqb k (hex key) then
        match parse_json a, parse_json b, parse_int c, parse_int d,
              parse_int e with
        | Some a, Some b, Some c, Some d, Some e =>
            Some {| sub := a; email := b; iat := c; exp := d; nbf := e |}
        | _, _, _, _, _ => None
        end
      else None
  | _ => None
  end.

Definition codec : JwsCodec := {| jws_sign := sign; jws_verify := verify |}.

(** A hash that, like bcrypt in passlib, refuses a password with a NUL
    byte and a stored string that it cannot identify. *)
Definition hashed (salt password : string) : string :=
  "$ref$" ++ salt ++ "$" ++ hex password.

Definition crypt : CryptContext :=
  {| pwd_hash := fun salt password =>
       if occurs "000" password then Raise ValueError
       else Ok (hashed salt password);
     pwd_verify := fun password stored =>
       if occurs "000" password then Raise ValueError
       else
         match split "$" stored with
         | [_; _; _; h] => Ok (String.eqb h (hex password))
         | _ => Raise ValueError
         end |}.

(** Regular expressions made of literal characters and the dot, with the
    options [i] and none. *)
Definition is_meta (c : ascii) : bool :=
  (regex_meta c && negb (Ascii.eqb c "."))%bool.

Definition pat_match (pc c : ascii) : bool :=
  if Ascii.eqb pc "." then negb (Ascii.eqb c "010") else ci_eqb pc c.

Definition pat_exact (pc c : ascii) : bool :=
  if Ascii.eqb pc "." then negb (Ascii.eqb c "010") else Ascii.eqb pc c.

Definition regex : RegexEngine :=
  {| regex_compile := fun pattern options =>
       if List.existsb is_meta (list_ascii_of_string pattern) then None
       else if String.eqb options "i" then
         if occurs "." pattern then Some (search pat_match pattern)
         else Some (contains_ci pattern)
       else if String.eqb options "" then Some (search pat_exact pattern)
       else None |}.

(** A file system whose only directory is [uploads]. *)
Fixpoint strip_prefix (prefix s : string) : option string :=
  match prefix, s with
  | EmptyString, _ => Some s
  | String a prefix', String b s' =>
      if Ascii.eqb a b then strip_prefix prefix' s' else None
  | String _ _, EmptyString => None
  end.

Definition fs : FileSystem :=
  {| open_wb := fun path _ =>
       match strip_prefix "uploads/" path with
       | Some name =>
           if has_slash name then Some (OpenOSError FileNotFoundError)
           else if String.eqb name "" then Some (OpenOSError IsADirectoryError)
           else None
       | None => Some (OpenOSError FileNotFoundError)
       end |}.

End Reference.

(** ** Sample data *)

Module Sample.

Definition alice_id : Bson.oid :=
  [x65; x4f; x1a; x00; x00; x00; x00; x00; x00; x00; x00; x01].
Definition bob_id : Bson.oid :=
  [x65; x4f; x1a; x00; x00; x00; x00; x00; x00; x00; x00; x02].
Definition garden_id : Bson.oid :=
  [x65; x4f; x1b; x00; x00; x00; x00; x00; x00; x00; x00; x0a].
Definition vault_id : Bson.oid :=
  [x65; x4f; x1b; x00; x00; x00; x00; x00; x00; x00; x00; x0b].
Definition request_id : Bson.oid :=
  [x65; x4f; x1c; x00; x00; x00; x00; x00; x00; x00; x00; xc1].
Definition fresh_id : Bson.oid :=
  [x65; x4f; x1d; x00; x00; x00; x00; x00; x00; x00; x00; xf1].
Definition file_id : Bson.oid :=
  [x65; x4f; x1d; x00; x00; x00; x00; x00; x00; x00; x00; xf2].

Definition alice_doc : User.doc :=
  {| User._id := alice_id; User.name := "Alice";
     User.email := "alice@example.com";
     User.password_hash := Reference.hashed "na" "wonderland";
     User.provider := "credentials"; User.created_at := 100000 |}.

Definition bob_doc : User.doc :=
  {| User._id := bob_id; User.name := "Bob";
     User.email := "bob@example.com";
     User.password_hash := Reference.hashed "cl" "builder";
     User.provider := "credentials"; User.created_at := 110000 |}.

Definition alice : AuthUser.t :=
  {| AuthUser.id := Bson.str alice_id; AuthUser.email := "alice@example.com";
     AuthUser.name := Some "Alice" |}.

Definition bob : AuthUser.t :=
  {| AuthUser.id := Bson.str bob_id; AuthUser.email := "bob@example.com";
     AuthUser.name := Some "Bob" |}.

Definition garden : Project.doc :=
  {| Project._id := garden_id; Project.title := "Garden planner";
     Project.description := "abc";
     Project.skills_required := ["python"];
     Project.expected_contribution := None; Project.duration := Some "3 months";
     Project.tags := ["plants"; "web"]; Project.visibility := "public";
     Project.owner_id := Bson.str alice_id; Project.created_at := 200000;
     Project.updated_at := None |}.

Definition vault : Project.doc :=
  {| Project._id := vault_id; Project.title := "Vault";
     Project.description := "def";
     Project.skills_required := [];
     Project.expected_contribution := None; Project.duration := None;
     Project.tags := ["rust"]; Project.visibility := "private";
     Project.owner_id := Bson.str alice_id; Project.created_at := 300000;
     Project.updated_at := None |}.

Definition request : CollaborationRequest.doc :=
  {| CollaborationRequest._id := request_id;
     CollaborationRequest.project_id := Bson.str garden_id;
     CollaborationRequest.applicant_id := Bson.str bob_id;
     CollaborationRequest.message := "I can help";
     CollaborationRequest.portfolio_url := "https://bob.example.com";
     CollaborationRequest.document_path := "uploads/cv.pdf";
     CollaborationRequest.status := "accepted";
     CollaborationRequest.created_at := 400000 |}.

Definition edit : ProjectIn.t :=
  {| ProjectIn.title := "Garden planner 2";
     ProjectIn.description := "abc";
     ProjectIn.skills_required := [];
     ProjectIn.expected_contribution := Some "reviews";
     ProjectIn.duration := None;
     ProjectIn.tags := ["plants"]; ProjectIn.visibility := "public" |}.

Definition cv : UploadFile.t :=
  {| UploadFile.filename := "cv.pdf"; UploadFile.content := [x25; x50; x44; x46] |}.

Definition secret : string := "dev-secret-change-me".

(** The token [signin] hands Alice at time 1000. *)
Definition alice_token : string :=
  create_token (codec := Reference.codec) secret (Bson.str alice_id)
    "alice@example.com" 1000.

Definition forge : Project.doc :=
  {| Project._id := fresh_id; Project.title := "Forge";
     Project.description := "metal work planning";
     Project.skills_required := [];
     Project.expected_contribution := None; Project.duration := None;
     Project.tags := ["web"; "craft"]; Project.visibility := "public";
     Project.owner_id := Bson.str bob_id; Project.created_at := 250000;
     Project.updated_at := None |}.

Definition world : World :=
  {| users := [alice_doc; bob_doc];
     projects := [garden; vault];
     savedproject := [];
     collaborationrequest := [request];
     files := ∅ |}.

(** The project that [create_project] stores for Alice's [edit] payload. *)
Definition planted : Project.doc :=
  {| Project._id := garden_id; Project.title := "Garden planner 2";
     Project.description := "abc";
     Project.skills_required := [];
     Project.expected_contribution := Some "reviews";
     Project.duration := None;
     Project.tags := ["plants"]; Project.visibility := "public";
     Project.owner_id := Bson.str alice_id; Project.created_at := 200000;
     Project.updated_at := None |}.

(** The store after Alice created the garden project in an empty store. *)
Definition started : World :=
  snd (create_project edit alice garden_id 200500 empty_world).

(** The store after Bob then applied to it. *)
Definition applied : World :=
  snd (apply_to_project (fs := Reference.fs) "uploads" (Bson.str garden_id)
         "hello" "https://bob.example.com" cv bob file_id request_id 800250
         started).

(** A store with a third project, created between the other two. *)
Definition catalog : World :=
  {| users := [alice_doc; bob_doc];
     projects := [garden; vault; forge];
     savedproject := [];
     collaborationrequest := [];
     files := ∅ |}.

End Sample.

(** * Properties *)

(** ** Library facts *)

Lemma oid_eqb_eq (a b : Bson.oid) : Bson.oid_eqb a b = true <-> a = b.
Proof.
  revert b; induction a as [|x a IH]; intros [|y b]; simpl; split;
    try congruence; try discriminate.
  - intros H. apply andb_prop in H as [Hx Hab].
    apply byte_dec_bl in Hx. apply IH in Hab. congruence.
  - intros H. injection H as -> ->.
    rewrite byte_dec_lb by reflexivity. simpl. now apply IH.
Qed.

Lemma oid_eqb_refl (a : Bson.oid) : Bson.oid_eqb a a = true.
Proof. now apply oid_eqb_eq. Qed.

Lemma fromhex_hex_byte (b : byte) (s : string) :
  Bson.fromhex
    (String (Bson.hex_digit (N.div (Byte.to_N b) 16))
       (String (Bson.hex_digit (N.modulo (Byte.to_N b) 16)) s))
  = option_map (cons b) (Bson.fromhex s).
Proof. destruct b; reflexivity. Qed.

Lemma fromhex_hexlify (bs : list byte) : Bson.fromhex (Bson.hexlify bs) = Some bs.
Proof.
  induction bs as [|b bs IH]; [reflexivity|].
  cbn [Bson.hexlify]. rewrite fromhex_hex_byte, IH. reflexivity.
Qed.

Lemma length_hexlify (bs : list byte) :
  String.length (Bson.hexlify bs) = (2 * List.length bs)%nat.
Proof.
  induction bs as [|b bs IH]; [reflexivity|].
  cbn [Bson.hexlify String.length List.length]. rewrite IH. lia.
Qed.

(** [ObjectId(str(o)) == o] for a generated ObjectId. *)
Lemma ObjectId_str (o : Bson.oid) :
  Bson.generated o -> Bson.ObjectId (Bson.str o) = Ok o.
Proof.
  unfold Bson.generated, Bson.ObjectId, Bson.str. intros H.
  rewrite length_hexlify, H, fromhex_hexlify. reflexivity.
Qed.

Lemma str_generated_nonempty (o : Bson.oid) :
  Bson.generated o -> Bson.str o <> "".
Proof.
  unfold Bson.generated, Bson.str. destruct o; [discriminate|].
  intros _. discriminate.
Qed.

Lemma split_no_space (s : string) : has_space s = false -> split " " s = [s].
Proof.
  induction s as [|c s IH]; [reflexivity|]. cbn [has_space split].
  intros H. apply orb_false_elim in H as [Hc Hs].
  rewrite Hc, (IH Hs). reflexivity.
Qed.

Lemma bearer_token_intro (token : string) :
  has_space token = false -> bearer_token ("Bearer " ++ token) token.
Proof.
  intros H. exists "Bearer". split; [|reflexivity].
  change ("Bearer " ++ token)
    with (String "B" (String "e" (String "a" (String "r" (String "e"
            (String "r" (String " " token))))))).
  cbn [split Ascii.eqb Bool.eqb]. rewrite (split_no_space _ H). reflexivity.
Qed.

Section CollectionFacts.
Context {D : Type}.
Implicit Types (f : D -> bool) (g : D -> D) (c : list D).

Lemma find_one_update_one f g c d :
  Mongo.find_one f c = Some d -> f (g d) = true ->
  Mongo.find_one f (Mongo.update_one f g c) = Some (g d).
Proof.
  unfold Mongo.find_one. induction c as [|e c IH]; simpl; [discriminate|].
  destruct (f e) eqn:E; simpl.
  - intros [= ->] Hg. now rewrite Hg.
  - intros H Hg. rewrite E. now apply IH.
Qed.

Lemma update_one_none f g c :
  Mongo.find_one f c = None -> Mongo.update_one f g c = c.
Proof.
  unfold Mongo.find_one. induction c as [|e c IH]; simpl; [reflexivity|].
  destruct (f e); [discriminate|]. intros H. now rewrite IH.
Qed.

Lemma find_one_insert_one f c d :
  Mongo.find_one f c = None -> f d = true ->
  Mongo.find_one f (Mongo.insert_one d c) = Some d.
Proof.
  unfold Mongo.find_one, Mongo.insert_one.
  induction c as [|e c IH]; simpl; intros H Hd.
  - now rewrite Hd.
  - destruct (f e); [discriminate|]. now apply IH.
Qed.

Lemma find_one_some f c d : Mongo.find_one f c = Some d -> In d c /\ f d = true.
Proof. apply List.find_some. Qed.

Lemma map_update_one {K} (k : D -> K) f g c :
  (forall d, k (g d) = k d) ->
  List.map k (Mongo.update_one f g c) = List.map k c.
Proof.
  intros Hk. induction c as [|e c IH]; simpl; [reflexivity|].
  destruct (f e); simpl; [now rewrite Hk | now rewrite IH].
Qed.
End CollectionFacts.

(** Unfolds the plumbing of a handler. *)
Ltac handler :=
  unfold bind, lift, gets, raise, modify, ret; cbn [fst snd rbind].

(** ** Projects: update and delete *)

Section ProjectOwnership.
Variables (w : World) (project_id : string) (o : Bson.oid).
Variables (payload : ProjectIn.t) (user : AuthUser.t) (now : Z).
Hypothesis well_formed : Bson.ObjectId project_id = Ok o.

Lemma update_project_not_found :
  Mongo.find_one (project_by_id o) (projects w) = None ->
  update_project project_id payload user now w
  = (Raise (HTTPException 404 "Project not found"), w).
Proof.
  intros Hf. unfold update_project. handler. rewrite well_formed, Hf.
  reflexivity.
Qed.

Lemma delete_project_not_found :
  Mongo.find_one (project_by_id o) (projects w) = None ->
  delete_project project_id user w
  = (Raise (HTTPException 404 "Project not found"), w).
Proof.
  intros Hf. unfold delete_project. handler. rewrite well_formed, Hf.
  reflexivity.
Qed.

Lemma update_project_forbidden p :
  Mongo.find_one (project_by_id o) (projects w) = Some p ->
  Project.owner_id p <> AuthUser.id user ->
  update_project project_id payload user now w
  = (Raise (HTTPException 403 "Not authorized"), w).
Proof.
  intros Hf Hne. unfold update_project. handler. rewrite well_formed, Hf.
  apply String.eqb_neq in Hne. rewrite Hne. reflexivity.
Qed.

Lemma delete_project_forbidden p :
  Mongo.find_one (project_by_id o) (projects w) = Some p ->
  Project.owner_id p <> AuthUser.id user ->
  delete_project project_id user w
  = (Raise (HTTPException 403 "Not authorized"), w).
Proof.
  intros Hf Hne. unfold delete_project. handler. rewrite well_formed, Hf.
  apply String.eqb_neq in Hne. rewrite Hne. reflexivity.
Qed.

Lemma update_project_owner p :
  Mongo.find_one (project_by_id o) (projects w) = Some p ->
  Project.owner_id p = AuthUser.id user ->
  update_project project_id payload user now w
  = (Ok (project_out (set_project payload now p)),
     set_projects
       (Mongo.update_one (project_by_id o) (set_project payload now)) w).
Proof.
  intros Hf He. unfold update_project. handler. rewrite well_formed, Hf.
  apply String.eqb_eq in He. rewrite He. cbn [negb projects set_projects].
  rewrite (find_one_update_one _ _ _ p Hf); [reflexivity|].
  apply find_one_some in Hf as [_ Hp]. exact Hp.
Qed.

Lemma delete_project_owner p :
  Mongo.find_one (project_by_id o) (projects w) = Some p ->
  Project.owner_id p = AuthUser.id user ->
  delete_project project_id user w
  = (Ok true,
     set_collaborationrequest
       (Mongo.delete_many
          (fun r => String.eqb (CollaborationRequest.project_id r) project_id))
       (set_savedproject
          (Mongo.delete_many
             (fun s => String.eqb (SavedProject.project_id s) project_id))
          (set_projects (Mongo.delete_one (project_by_id o)) w))).
Proof.
  intros Hf He. unfold delete_project. handler. rewrite well_formed, Hf.
  apply String.eqb_eq in He. rewrite He. reflexivity.
Qed.
End ProjectOwnership.

(** C1, as amended. For a project id that is a well-formed ObjectId string,
    [update_project] and [delete_project] raise 404 when no project has that
    id and 403 when the project's [owner_id] differs from the requester's
    id, leaving the whole store as it was; when the requester is the owner
    the update overwrites the project's fields and returns the updated
    project, and the delete removes the project and the saved-project and
    request records that name it. *)
Theorem update_delete_project_ownership :
  forall (w : World) (project_id : string) (o : Bson.oid)
         (payload : ProjectIn.t) (user : AuthUser.t) (now : Z),
    Bson.ObjectId project_id = Ok o ->
    (Mongo.find_one (project_by_id o) (projects w) = None ->
       update_project project_id payload user now w
       = (Raise (HTTPException 404 "Project not found"), w)
       /\ delete_project project_id user w
          = (Raise (HTTPException 404 "Project not found"), w))
    /\ (forall p,
          Mongo.find_one (project_by_id o) (projects w) = Some p ->
          Project.owner_id p <> AuthUser.id user ->
          update_project project_id payload user now w
          = (Raise (HTTPException 403 "Not authorized"), w)
          /\ delete_project project_id user w
             = (Raise (HTTPException 403 "Not authorized"), w))
    /\ (forall p,
          Mongo.find_one (project_by_id o) (projects w) = Some p ->
          Project.owner_id p = AuthUser.id user ->
          update_project project_id payload user now w
          = (Ok (project_out (set_project payload now p)),
             set_projects
               (Mongo.update_one (project_by_id o) (set_project payload now)) w)
          /\ delete_project project_id user w
             = (Ok true,
                set_collaborationrequest
                  (Mongo.delete_many
                     (fun r =>
                        String.eqb (CollaborationRequest.project_id r) project_id))
                  (set_savedproject
                     (Mongo.delete_many
                        (fun s =>
                           String.eqb (SavedProject.project_id s) project_id))
                     (set_projects (Mongo.delete_one (project_by_id o)) w)))).
Proof.
  intros w project_id o payload user now Ho. repeat split.
  - now apply (update_project_not_found w project_id o).
  - now apply (delete_project_not_found w project_id o).
  - now apply (update_project_forbidden w project_id o _ _ _ Ho p).
  - now apply (delete_project_forbidden w project_id o _ Ho p).
  - now apply (update_project_owner w project_id o).
  - now apply (delete_project_owner w project_id o user Ho p).
Qed.

(** The owner edits and deletes the garden project; Bob is refused; an id
    that no project carries is not found. *)
Lemma update_delete_project_ownership_witness :
  Bson.ObjectId (Bson.str Sample.garden_id) = Ok Sample.garden_id
  /\ fst (update_project (Bson.str Sample.garden_id) Sample.edit
            Sample.alice 500 Sample.world)
     = Ok (project_out (set_project Sample.edit 500 Sample.garden))
  /\ projects (snd (delete_project (Bson.str Sample.garden_id) Sample.alice
                      Sample.world))
     = [Sample.vault]
  /\ update_project (Bson.str Sample.garden_id) Sample.edit Sample.bob 500
       Sample.world
     = (Raise (HTTPException 403 "Not authorized"), Sample.world)
  /\ delete_project (Bson.str Sample.fresh_id) Sample.alice Sample.world
     = (Raise (HTTPException 404 "Project not found"), Sample.world).
Proof.
  pose proof (update_delete_project_ownership Sample.world
                (Bson.str Sample.garden_id) Sample.garden_id Sample.edit
                Sample.alice 500 eq_refl) as (_ & _ & Hown).
  pose proof (update_delete_project_ownership Sample.world
                (Bson.str Sample.garden_id) Sample.garden_id Sample.edit
                Sample.bob 500 eq_refl) as (_ & Hforb & _).
  pose proof (update_delete_project_ownership Sample.world
                (Bson.str Sample.fresh_id) Sample.fresh_id Sample.edit
                Sample.alice 500 eq_refl) as (Hnf & _ & _).
  destruct (Hown Sample.garden eq_refl eq_refl) as [Hu Hd].
  destruct (Hforb Sample.garden eq_refl) as [Hfu _]; [discriminate|].
  destruct (Hnf eq_refl) as [_ Hnd].
  split; [reflexivity|]. split; [now rewrite Hu|].
  split; [now rewrite Hd|]. split; [exact Hfu | exact Hnd].
Defined.

(** C1 as stated fails: for a project id that is not an ObjectId string no
    project with that id exists, yet [update_project] and [delete_project]
    raise [InvalidId] and not the 404 of [NotFound]. *)
Lemma update_delete_project_malformed_id :
  Forall (fun p => Bson.str (Project._id p) <> "not-an-id")
    (projects Sample.world)
  /\ update_project "not-an-id" Sample.edit Sample.alice 500 Sample.world
     = (Raise InvalidId, Sample.world)
  /\ delete_project "not-an-id" Sample.alice Sample.world
     = (Raise InvalidId, Sample.world).
Proof.
  split; [|split; reflexivity].
  repeat constructor; discriminate.
Qed.

(** ** The guard *)

Section Guard.
Context {codec : JwsCodec}.
Variables (JWT_SECRET : string) (now : Z) (w : World).

Abbreviation guard := (get_current_user JWT_SECRET).

Lemma guard_missing authorization :
  truthy_opt authorization = false ->
  guard authorization now w
  = Raise (HTTPException 401 "Missing Authorization header").
Proof. intros H. unfold get_current_user. now rewrite H. Qed.

Lemma bearer_token_truthy h token :
  bearer_token h token -> truthy_opt (Some h) = true.
Proof.
  intros (scheme & Hs & _). destruct h; [discriminate Hs | reflexivity].
Qed.

Lemma guard_malformed h :
  h <> "" -> (forall token, ~ bearer_token h token) ->
  guard (Some h) now w = Raise (HTTPException 401 "Invalid or expired token").
Proof.
  intros Hne Hno. unfold get_current_user.
  apply String.eqb_neq in Hne. cbn [truthy_opt]. unfold truthy_str.
  rewrite Hne. cbn [negb unwrap]. unfold get_current_user_try.
  destruct (split " " h) as [|scheme [|token [|x l]]] eqn:E; try reflexivity.
  destruct (String.eqb (lower scheme) "bearer") eqn:B; [|reflexivity].
  exfalso. apply (Hno token). exists scheme. split; [exact E|].
  now apply String.eqb_eq.
Qed.

Section Bearer.
Variables (h token : string).
Hypothesis header : bearer_token h token.

Lemma guard_bearer :
  guard (Some h) now w
  = match
      (let* payload := jwt_decode token JWT_SECRET now in
       if (negb (truthy (sub payload)) || negb (truthy (email payload)))%bool
       then Raise ValueError
       else
         let* o := match sub payload with
                   | Some (JStr s) => Bson.ObjectId s
                   | _ => Raise TypeError
                   end in
         match Mongo.find_one (user_by_id o) (users w) with
         | None => Raise (HTTPException 401 "User not found")
         | Some user =>
             Ok {| AuthUser.id := Bson.str (User._id user);
                   AuthUser.email := User.email user;
                   AuthUser.name := Some (User.name user) |}
         end)
    with
    | Raise JWTError | Raise ValueError =>
        Raise (HTTPException 401 "Invalid or expired token")
    | r => r
    end.
Proof.
  unfold get_current_user. rewrite (bearer_token_truthy _ _ header).
  cbn [negb unwrap]. unfold get_current_user_try.
  destruct header as (scheme & -> & Hs).
  apply String.eqb_eq in Hs. rewrite Hs. reflexivity.
Qed.

Lemma guard_invalid_token e :
  jwt_decode token JWT_SECRET now = Raise e ->
  guard (Some h) now w
  = Raise (HTTPException 401 "Invalid or expired token").
Proof.
  intros Hd. rewrite guard_bearer.
  assert (e = JWTError) as ->.
  { unfold jwt_decode in Hd. destruct (jws_verify JWT_SECRET token);
      [destruct (validate_claims now c)|]; congruence. }
  now rewrite Hd.
Qed.

Section Decoded.
Variable payload : claims.
Hypothesis decoded : jwt_decode token JWT_SECRET now = Ok payload.

Lemma guard_claims_missing :
  truthy (sub payload) = false \/ truthy (email payload) = false ->
  guard (Some h) now w
  = Raise (HTTPException 401 "Invalid or expired token").
Proof.
  intros Hc. rewrite guard_bearer, decoded. cbn [rbind].
  destruct Hc as [-> | ->]; [reflexivity|].
  now rewrite orb_true_r.
Qed.

Lemma decoded_sub_string :
  truthy (sub payload) = true -> exists s, sub payload = Some (JStr s).
Proof.
  unfold jwt_decode in decoded.
  destruct (jws_verify JWT_SECRET token) as [c|]; [|discriminate].
  destruct (validate_claims now c) eqn:V; [|discriminate].
  injection decoded as <-. unfold validate_claims in V.
  destruct (sub c) as [[s|z]|]; simpl; intros Ht; try discriminate.
  - now exists s.
  - now rewrite andb_false_r in V.
Qed.

Section Subject.
Variables (s : string) (o : Bson.oid).
Hypothesis subject : sub payload = Some (JStr s).
Hypothesis subject_truthy : s <> "".
Hypothesis email_truthy : truthy (email payload) = true.
Hypothesis subject_id : Bson.ObjectId s = Ok o.

Lemma guard_identified :
  guard (Some h) now w
  = match Mongo.find_one (user_by_id o) (users w) with
    | None => Raise (HTTPException 401 "User not found")
    | Some user =>
        Ok {| AuthUser.id := Bson.str (User._id user);
              AuthUser.email := User.email user;
              AuthUser.name := Some (User.name user) |}
    end.
Proof.
  rewrite guard_bearer, decoded. cbn [rbind].
  rewrite subject, email_truthy. cbn [truthy]. unfold truthy_str.
  apply String.eqb_neq in subject_truthy. rewrite subject_truthy.
  cbn [negb orb]. rewrite subject_id. cbn [rbind].
  now destruct (Mongo.find_one (user_by_id o) (users w)).
Qed.
End Subject.
End Decoded.
End Bearer.
End Guard.

(** C2, as amended. The guard raises 401 when the header is missing or
    empty, when it is not a scheme and a token separated by its only space
    with the scheme equal to [bearer] in any letter case, when [jwt.decode]
    rejects the token, when the [sub] or [email] claim is absent or empty,
    and when the subject is a well-formed id that no stored user has; when a
    stored user has that id, the guard returns the id, email and name of the
    stored record. *)
Theorem get_current_user_outcomes :
  forall {codec : JwsCodec} (JWT_SECRET : string) (now : Z) (w : World),
    (forall authorization,
        truthy_opt authorization = false ->
        get_current_user JWT_SECRET authorization now w
        = Raise (HTTPException 401 "Missing Authorization header"))
    /\ (forall h,
          h <> "" -> (forall token, ~ bearer_token h token) ->
          get_current_user JWT_SECRET (Some h) now w
          = Raise (HTTPException 401 "Invalid or expired token"))
    /\ (forall h token,
          bearer_token h token ->
          (forall e,
              jwt_decode token JWT_SECRET now = Raise e ->
              get_current_user JWT_SECRET (Some h) now w
              = Raise (HTTPException 401 "Invalid or expired token"))
          /\ (forall payload,
                jwt_decode token JWT_SECRET now = Ok payload ->
                (truthy (sub payload) = false \/ truthy (email payload) = false ->
                 get_current_user JWT_SECRET (Some h) now w
                 = Raise (HTTPException 401 "Invalid or expired token"))
                /\ (forall s o,
                      sub payload = Some (JStr s) -> s <> "" ->
                      truthy (email payload) = true ->
                      Bson.ObjectId s = Ok o ->
                      (Mongo.find_one (user_by_id o) (users w) = None ->
                       get_current_user JWT_SECRET (Some h) now w
                       = Raise (HTTPException 401 "User not found"))
                      /\ (forall user,
                            Mongo.find_one (user_by_id o) (users w) = Some user ->
                            get_current_user JWT_SECRET (Some h) now w
                            = Ok {| AuthUser.id := Bson.str (User._id user);
                                    AuthUser.email := User.email user;
                                    AuthUser.name := Some (User.name user) |})))).
Proof.
  intros codec JWT_SECRET now w. split; [|split].
  - apply guard_missing.
  - apply guard_malformed.
  - intros h token Hb. split.
    + apply (guard_invalid_token _ _ _ _ _ Hb).
    + intros payload Hd. split.
      * apply (guard_claims_missing _ _ _ _ _ Hb _ Hd).
      * intros s o Hs Hne He Ho.
        pose proof (guard_identified _ _ w _ _ Hb _ Hd s o Hs Hne He Ho) as G.
        split.
        -- intros Hn. now rewrite G, Hn.
        -- intros user Hu. now rewrite G, Hu.
Qed.

(** Alice's token, presented at time 2000, resolves to her stored record. *)
Lemma get_current_user_outcomes_witness :
  bearer_token ("Bearer " ++ Sample.alice_token) Sample.alice_token
  /\ get_current_user (codec := Reference.codec) Sample.secret
       (Some ("Bearer " ++ Sample.alice_token)) 2000 Sample.world
     = Ok Sample.alice.
Proof.
  assert (Hb : bearer_token ("Bearer " ++ Sample.alice_token)
                 Sample.alice_token).
  { exists "Bearer". split; vm_compute; reflexivity. }
  split; [exact Hb|].
  destruct (get_current_user_outcomes (codec := Reference.codec)
              Sample.secret 2000 Sample.world) as (_ & _ & H).
  destruct (H _ _ Hb) as (_ & Hp).
  destruct (Hp {| sub := Some (JStr (Bson.str Sample.alice_id));
                  email := Some (JStr "alice@example.com");
                  iat := Some 1000; exp := None; nbf := None |})
    as (_ & Hs); [vm_compute; reflexivity|].
  destruct (Hs (Bson.str Sample.alice_id) Sample.alice_id) as (_ & Hu);
    [reflexivity | discriminate | reflexivity | reflexivity |].
  apply (Hu Sample.alice_doc). reflexivity.
Defined.

(** C2 as stated fails: a header whose scheme is written [bearer] is not of
    the form [Bearer <token>], yet the guard accepts it. *)
Lemma get_current_user_lowercase_scheme :
  ~ bearer_form ("bearer " ++ Sample.alice_token)
  /\ get_current_user (codec := Reference.codec) Sample.secret
       (Some ("bearer " ++ Sample.alice_token)) 2000 Sample.world
     = Ok Sample.alice.
Proof.
  split; [|vm_compute; reflexivity].
  intros [token H]. vm_compute in H. discriminate H.
Qed.

(** A validly signed token whose subject is not an ObjectId string escapes
    the [except] clause of the guard: [InvalidId] is not a [ValueError]. *)
Example get_current_user_malformed_subject :
  get_current_user (codec := Reference.codec) Sample.secret
    (Some ("Bearer " ++
           jwt_encode (H := Reference.codec)
             {| sub := Some (JStr "42"); email := Some (JStr "x@example.com");
                iat := Some 1000; exp := None; nbf := None |}
             Sample.secret))
    2000 Sample.world
  = Raise InvalidId.
Proof. vm_compute. reflexivity. Qed.

(** ** Tokens *)

Section Tokens.
Context {codec : JwsCodec}.
Hypothesis lawful : jws_lawful codec.
Variables (JWT_SECRET user_id email : string) (issued : Z).

Lemma create_token_decodes now :
  jwt_decode (create_token JWT_SECRET user_id email issued) JWT_SECRET now
  = Ok (Build_claims (Some (JStr user_id)) (Some (JStr email)) (Some issued)
          None None).
Proof.
  unfold create_token, jwt_encode, jwt_decode.
  rewrite (proj1 lawful). reflexivity.
Qed.

Lemma create_token_compact :
  has_space (create_token JWT_SECRET user_id email issued) = false.
Proof. unfold create_token, jwt_encode. apply (proj2 lawful). Qed.

Lemma guard_resolves_token now w user :
  email <> "" ->
  Bson.generated (User._id user) ->
  user_id = Bson.str (User._id user) ->
  Mongo.find_one (user_by_id (User._id user)) (users w) = Some user ->
  get_current_user JWT_SECRET
    (Some ("Bearer " ++ create_token JWT_SECRET user_id email issued)) now w
  = Ok {| AuthUser.id := Bson.str (User._id user);
          AuthUser.email := User.email user;
          AuthUser.name := Some (User.name user) |}.
Proof.
  intros He Hg Hid Hf.
  rewrite (guard_identified JWT_SECRET now w _ _
             (bearer_token_intro _ create_token_compact) _
             (create_token_decodes now) user_id (User._id user)).
  - now rewrite Hf.
  - reflexivity.
  - rewrite Hid. now apply str_generated_nonempty.
  - cbn. unfold truthy_str. apply String.eqb_neq in He. now rewrite He.
  - rewrite Hid. now apply ObjectId_str.
Qed.
End Tokens.

(** The reference signing layer is lawful. *)
Section ReferenceCodec.
Import Reference.

Lemma occurs_app c a b : occurs c (a ++ b) = (occurs c a || occurs c b)%bool.
Proof.
  induction a as [|d a IH]; [reflexivity|].
  change (String d a ++ b) with (String d (a ++ b)). cbn [occurs].
  now rewrite IH, orb_assoc.
Qed.

Lemma has_space_occurs s : has_space s = occurs " " s.
Proof. induction s as [|c s IH]; [reflexivity|]. cbn. now rewrite IH. Qed.

Lemma split_cons sep a rest :
  occurs sep a = false ->
  split sep (a ++ String sep rest) = a :: split sep rest.
Proof.
  induction a as [|d a IH]; intros H.
  - change ("" ++ String sep rest) with (String sep rest). cbn [split].
    now rewrite Ascii.eqb_refl.
  - change (String d a ++ String sep rest)
      with (String d (a ++ String sep rest)).
    cbn [occurs] in H. apply orb_false_elim in H as [Hd Ha].
    cbn [split]. rewrite Hd, (IH Ha). reflexivity.
Qed.

Lemma split_last sep a : occurs sep a = false -> split sep a = [a].
Proof.
  induction a as [|d a IH]; [reflexivity|]. cbn [occurs split].
  intros H. apply orb_false_elim in H as [Hd Ha]. now rewrite Hd, (IH Ha).
Qed.

Lemma occurs_hexlify c bs :
  Bson.hex_val c = None -> occurs c (Bson.hexlify bs) = false.
Proof.
  intros Hc. induction bs as [|b bs IH]; [reflexivity|].
  cbn [Bson.hexlify occurs]. rewrite IH, orb_false_r.
  apply orb_false_iff. split; apply Ascii.eqb_neq; intros E;
    rewrite <- E in Hc; destruct b; discriminate Hc.
Qed.

Lemma occurs_ser_json c v : foreign c -> occurs c (ser_json v) = false.
Proof.
  intros (Hh & Hs & Hi & Hm).
  destruct v as [[x|z]|]; cbn [ser_json occurs]; unfold hex;
    rewrite ?occurs_hexlify by exact Hh; rewrite ?orb_false_r;
    apply Ascii.eqb_neq; congruence.
Qed.

Lemma occurs_ser_int c v : foreign c -> occurs c (ser_int v) = false.
Proof.
  intros (Hh & Hs & Hi & Hm).
  destruct v as [z|]; cbn [ser_int occurs]; unfold hex;
    rewrite ?occurs_hexlify by exact Hh; rewrite ?orb_false_r;
    apply Ascii.eqb_neq; congruence.
Qed.

Lemma sign_eq key c :
  sign key c
  = hex key ++ String "."
      (ser_json (sub c) ++ String "."
         (ser_json (email c) ++ String "."
            (ser_int (iat c) ++ String "."
               (ser_int (exp c) ++ String "." (ser_int (nbf c)))))).
Proof. reflexivity. Qed.

Lemma unhex_hex s : unhex (hex s) = Some s.
Proof.
  unfold unhex, hex. rewrite fromhex_hexlify. cbn [option_map].
  now rewrite string_of_list_byte_of_string.
Qed.

Lemma parse_number_dec z : parse_number (hex (dec z)) = Some z.
Proof.
  unfold parse_number. rewrite unhex_hex. unfold undec, dec.
  rewrite NilEmpty.isi. cbn [option_map]. now rewrite DecimalZ.of_to.
Qed.

Lemma parse_ser_json v : parse_json (ser_json v) = Some v.
Proof.
  destruct v as [[x|z]|]; cbn [ser_json parse_json].
  - now rewrite unhex_hex.
  - now rewrite parse_number_dec.
  - reflexivity.
Qed.

Lemma parse_ser_int v : parse_int (ser_int v) = Some v.
Proof.
  destruct v as [z|]; cbn [ser_int parse_int]; [|reflexivity].
  now rewrite parse_number_dec.
Qed.

Lemma reference_codec_lawful : jws_lawful codec.
Proof.
  assert (Hdot : foreign ".") by (repeat split; discriminate).
  assert (Hsp : foreign " ") by (repeat split; discriminate).
  split; intros key c; cbn [jws_sign jws_verify codec].
  - unfold verify. rewrite sign_eq.
    rewrite !split_cons, split_last
      by first [ apply occurs_hexlify; reflexivity
               | now apply occurs_ser_json | now apply occurs_ser_int ].
    rewrite String.eqb_refl, !parse_ser_json, !parse_ser_int.
    now destruct c.
  - rewrite has_space_occurs, sign_eq.
    repeat (rewrite occurs_app; cbn [occurs]).
    unfold hex. rewrite occurs_hexlify by reflexivity.
    rewrite !occurs_ser_json, !occurs_ser_int by exact Hsp. reflexivity.
Qed.
End ReferenceCodec.

(** C6. Over a signing layer that verifies, under the key, every token it
    made and makes tokens without a space, [jwt.decode] returns, at every
    reading of the clock, the subject and the e-mail that [create_token] was
    given, the token carrying no expiry; and the guard resolves the token,
    presented as [Bearer <token>], to the stored record of the user whose id
    it carries, whenever that user is in the store. *)
Theorem create_token_round_trip :
  forall {codec : JwsCodec} (JWT_SECRET user_id mail : string) (issued : Z),
    jws_lawful codec ->
    let token := create_token JWT_SECRET user_id mail issued in
    (forall now,
        exists payload,
          jwt_decode token JWT_SECRET now = Ok payload
          /\ sub payload = Some (JStr user_id)
          /\ email payload = Some (JStr mail)
          /\ exp payload = None)
    /\ (forall now w user,
          mail <> "" ->
          Bson.generated (User._id user) ->
          user_id = Bson.str (User._id user) ->
          Mongo.find_one (user_by_id (User._id user)) (users w) = Some user ->
          get_current_user JWT_SECRET (Some ("Bearer " ++ token)) now w
          = Ok {| AuthUser.id := Bson.str (User._id user);
                  AuthUser.email := User.email user;
                  AuthUser.name := Some (User.name user) |}).
Proof.
  intros codec JWT_SECRET user_id mail issued Hlaw token. split.
  - intros now.
    exists (Build_claims (Some (JStr user_id)) (Some (JStr mail))
              (Some issued) None None).
    split; [|repeat split].
    now apply create_token_decodes.
  - intros now w user. now apply guard_resolves_token.
Qed.

(** Alice's token of time 1000 still resolves to her at time 999999999. *)
Lemma create_token_round_trip_witness :
  jws_lawful Reference.codec
  /\ get_current_user (codec := Reference.codec) Sample.secret
       (Some ("Bearer " ++ Sample.alice_token)) 999999999 Sample.world
     = Ok Sample.alice.
Proof.
  split; [exact reference_codec_lawful|].
  destruct (create_token_round_trip (codec := Reference.codec) Sample.secret
              (Bson.str Sample.alice_id) "alice@example.com" 1000
              reference_codec_lawful)
    as [_ H].
  apply (H 999999999 Sample.world Sample.alice_doc);
    [discriminate | reflexivity | reflexivity | reflexivity].
Defined.

(** ** What each handler leaves alone *)

(** Case analysis on the outcome of a [find_one]. *)
Ltac case_find :=
  match goal with
  | |- context [Mongo.find_one ?f ?c] => destruct (Mongo.find_one f c) eqn:?
  end.

(** Case analysis on every test a handler makes. *)
Ltac crunch :=
  handler;
  repeat match goal with
         | |- context [match ?x with _ => _ end] => destruct x eqn:?
         end;
  cbn; try reflexivity.

Section Frames.
Context {codec : JwsCodec} {crypt : CryptContext}.
Variables (JWT_SECRET UPLOAD_DIR : string).

Lemma find_one_email_none (e : string) (us : list User.doc) :
  Mongo.find_one (fun u => String.eqb (User.email u) e) us = None ->
  ~ In e (List.map User.email us).
Proof.
  intros Hf Hin. apply in_map_iff in Hin as (u & <- & Hu).
  apply (List.find_none _ _ Hf) in Hu. cbn in Hu.
  now rewrite String.eqb_refl in Hu.
Qed.

Lemma find_one_email_some (e : string) (us : list User.doc) :
  In e (List.map User.email us) ->
  exists u, Mongo.find_one (fun u => String.eqb (User.email u) e) us = Some u.
Proof.
  intros Hin.
  destruct (Mongo.find_one (fun u => String.eqb (User.email u) e) us) eqn:E;
    [eauto|].
  now apply find_one_email_none in E.
Qed.

Lemma signup_users payload new_id salt now issued w :
  users (snd (signup JWT_SECRET payload new_id salt now issued w)) = users w
  \/ (~ In (SignUpRequest.email payload) (List.map User.email (users w))
      /\ List.map User.email
           (users (snd (signup JWT_SECRET payload new_id salt now issued w)))
         = (List.map User.email (users w) ++ [SignUpRequest.email payload])%list).
Proof.
  unfold signup. handler.
  destruct (Mongo.find_one _ (users w)) eqn:E; [now left|].
  destruct (hash_password salt (SignUpRequest.password payload)) as [h|e];
    [|now left].
  right. split; [now apply find_one_email_none|].
  cbn. unfold Mongo.insert_one. now rewrite List.map_app.
Qed.

(** [update_me] in one piece. *)
Lemma update_me_eq payload user w :
  update_me payload user w
  = match Bson.ObjectId (AuthUser.id user) with
    | Raise e => (Raise e, w)
    | Ok o =>
        let w' :=
          match ProfileUpdate.name payload with
          | Some n =>
              set_users (Mongo.update_one (user_by_id o) (set_name n)) w
          | None => w
          end in
        match Mongo.find_one (user_by_id o) (users w') with
        | Some u =>
            (Ok {| MeResponse.id := AuthUser.id user;
                   MeResponse.email := Some (User.email u);
                   MeResponse.name := Some (User.name u) |}, w')
        | None => (Raise AttributeError, w')
        end
    end.
Proof.
  unfold update_me. handler.
  destruct (ProfileUpdate.name payload) as [n|];
    destruct (Bson.ObjectId (AuthUser.id user)) as [o|e]; cbn;
    try reflexivity.
  - now case_find.
  - now case_find.
Qed.

Lemma update_me_users_frame payload user w :
  List.map user_frame (users (snd (update_me payload user w)))
  = List.map user_frame (users w).
Proof.
  rewrite update_me_eq.
  destruct (Bson.ObjectId (AuthUser.id user)) as [o|e]; [|reflexivity].
  cbn zeta.
  assert (List.map user_frame
            (users match ProfileUpdate.name payload with
                   | Some n =>
                       set_users
                         (Mongo.update_one (user_by_id o) (set_name n)) w
                   | None => w
                   end)
          = List.map user_frame (users w)) as H.
  { destruct (ProfileUpdate.name payload); [|reflexivity].
    cbn. now apply map_update_one. }
  now case_find.
Qed.

Lemma update_me_others payload user w :
  projects (snd (update_me payload user w)) = projects w
  /\ savedproject (snd (update_me payload user w)) = savedproject w
  /\ collaborationrequest (snd (update_me payload user w))
     = collaborationrequest w
  /\ files (snd (update_me payload user w)) = files w.
Proof.
  rewrite update_me_eq.
  destruct (Bson.ObjectId (AuthUser.id user)) as [o|e]; [|now repeat split].
  cbn zeta.
  destruct (ProfileUpdate.name payload); case_find; now repeat split.
Qed.

Lemma apply_to_project_frame {fs : FileSystem} project_id message
    portfolio_url document user file_id new_id now w :
  let w' :=
    snd (apply_to_project UPLOAD_DIR project_id message portfolio_url document
           user file_id new_id now w) in
  users w' = users w /\ projects w' = projects w
  /\ savedproject w' = savedproject w.
Proof.
  unfold apply_to_project, open_write. handler.
  destruct (Bson.ObjectId project_id) as [o|e]; cbn; [|easy].
  case_find; [|easy].
  destruct (String.eqb (Project.visibility d) "private"); [easy|].
  now destruct (open_wb _ (files w)).
Qed.

Lemma step_emails w w' :
  step JWT_SECRET UPLOAD_DIR w w' ->
  List.map User.email (users w') = List.map User.email (users w)
  \/ exists e, ~ In e (List.map User.email (users w))
               /\ List.map User.email (users w')
                  = (List.map User.email (users w) ++ [e])%list.
Proof.
  intros Hs.
  destruct Hs as [payload new_id salt now issued | payload user new_id now
                 | project_id payload user now | project_id user
                 | project_id user new_id now
                 | fs project_id message portfolio_url document user file_id
                     new_id now
                 | request_id status user | payload user].
  - destruct (signup_users payload new_id salt now issued w) as [-> | [H1 H2]];
      [now left | right; eauto].
  - left. unfold create_project. crunch.
  - left. unfold update_project. crunch.
  - left. unfold delete_project. crunch.
  - left. unfold save_project. crunch.
  - left.
    now rewrite (proj1 (apply_to_project_frame project_id message portfolio_url
                          document user file_id new_id now w)).
  - left. unfold update_status. crunch.
  - left. pose proof (update_me_users_frame payload user w) as H.
    apply (f_equal (List.map (fun t => snd (fst (fst (fst t)))))) in H.
    now rewrite !List.map_map in H.
Qed.

(** No two stored users share an e-mail. *)
Lemma reachable_emails_unique w :
  reachable JWT_SECRET UPLOAD_DIR w -> NoDup (List.map User.email (users w)).
Proof.
  induction 1 as [|w w' _ IH Hs]; [constructor|].
  destruct (step_emails _ _ Hs) as [-> | (e & Hn & ->)]; [exact IH|].
  apply NoDup_app. split; [exact IH|]. split; [|apply NoDup_singleton].
  intros x Hx Hk. apply list_elem_of_In in Hx, Hk.
  destruct Hk as [<- | []]. contradiction.
Qed.
End Frames.

(** ** Signup *)

Section Signup.
Context {codec : JwsCodec} {crypt : CryptContext}.
Variables (JWT_SECRET : string) (payload : SignUpRequest.t).
Variables (new_id : Bson.oid) (salt : string) (now issued : Z) (w : World).

Lemma signup_duplicate :
  In (SignUpRequest.email payload) (List.map User.email (users w)) ->
  signup JWT_SECRET payload new_id salt now issued w
  = (Raise (HTTPException 400 "Email already registered"), w).
Proof.
  intros Hin. apply find_one_email_some in Hin as [u Hu].
  unfold signup. handler. now rewrite Hu.
Qed.

Lemma signup_fresh hashed :
  ~ In (SignUpRequest.email payload) (List.map User.email (users w)) ->
  pwd_hash salt (SignUpRequest.password payload) = Ok hashed ->
  signup JWT_SECRET payload new_id salt now issued w
  = (Ok {| TokenResponse.access_token :=
             create_token JWT_SECRET (Bson.str new_id)
               (SignUpRequest.email payload) issued;
           TokenResponse.token_type := "bearer" |},
     set_users
       (Mongo.insert_one (stored_user (signup_doc payload new_id hashed now)))
       w).
Proof.
  intros Hn Hh. unfold signup, hash_password. handler. rewrite Hh.
  case_find; [|reflexivity].
  exfalso. apply Hn. apply find_one_some in Heqo as [Hin He].
  apply String.eqb_eq in He. rewrite <- He. now apply in_map.
Qed.

(** What the hash raises, [signup] raises, and nothing is stored. *)
Lemma signup_hash_raises e :
  ~ In (SignUpRequest.email payload) (List.map User.email (users w)) ->
  pwd_hash salt (SignUpRequest.password payload) = Raise e ->
  signup JWT_SECRET payload new_id salt now issued w = (Raise e, w).
Proof.
  intros Hn Hh. unfold signup, hash_password. handler. rewrite Hh.
  case_find; [|reflexivity].
  exfalso. apply Hn. apply find_one_some in Heqo as [Hin He].
  apply String.eqb_eq in He. rewrite <- He. now apply in_map.
Qed.

(** The token of a fresh signup resolves to the record just stored. *)
Lemma signup_token_resolves later hashed :
  jws_lawful codec ->
  ~ In (SignUpRequest.email payload) (List.map User.email (users w)) ->
  SignUpRequest.email payload <> "" ->
  Bson.generated new_id ->
  Mongo.find_one (user_by_id new_id) (users w) = None ->
  pwd_hash salt (SignUpRequest.password payload) = Ok hashed ->
  get_current_user JWT_SECRET
    (Some ("Bearer "
           ++ create_token JWT_SECRET (Bson.str new_id)
                (SignUpRequest.email payload) issued)) later
    (snd (signup JWT_SECRET payload new_id salt now issued w))
  = Ok {| AuthUser.id := Bson.str new_id;
          AuthUser.email := SignUpRequest.email payload;
          AuthUser.name := Some (SignUpRequest.name payload) |}.
Proof.
  intros Hlaw Hn He Hg Hf Hh. rewrite (signup_fresh hashed Hn Hh). cbn [snd].
  apply (guard_resolves_token Hlaw JWT_SECRET _ _ issued later _
           (stored_user (signup_doc payload new_id hashed now)));
    try assumption; try reflexivity.
  cbn [users set_users User._id signup_doc stored_user].
  apply find_one_insert_one; [exact Hf|]. apply oid_eqb_refl.
Qed.
End Signup.

(** The reference hash never returns its argument: it is longer. *)
Lemma length_append (a b : string) :
  String.length (a ++ b) = (String.length a + String.length b)%nat.
Proof.
  induction a as [|c a IH]; [reflexivity|].
  change (String c a ++ b) with (String c (a ++ b)). cbn [String.length].
  now rewrite IH.
Qed.

Lemma length_list_byte_of_string (s : string) :
  List.length (list_byte_of_string s) = String.length s.
Proof.
  unfold list_byte_of_string. induction s as [|c s IH]; [reflexivity|].
  cbn [list_ascii_of_string List.map List.length String.length].
  now rewrite IH.
Qed.

Lemma reference_crypt_hides : hash_hides_password Reference.crypt.
Proof.
  intros salt password hashed. cbn [pwd_hash Reference.crypt].
  destruct (occurs "000" password); [discriminate|]. intros [= <-] E.
  apply (f_equal String.length) in E. unfold Reference.hashed in E.
  rewrite !length_append in E. unfold Reference.hex in E.
  rewrite length_hexlify, length_list_byte_of_string in E.
  cbn [String.length] in E. lia.
Qed.

(** C5, as amended. [signup] with the e-mail of a stored user raises 400 and
    leaves the store as it was. With an e-mail no stored user has, it does
    what the hash of the password under the drawn salt does: when the hash
    returns, [signup] appends one record, whose [password_hash] is that hash
    (which, for a hash that never returns its argument, is not the
    password) and whose [created_at] is the clock reading to the
    millisecond, and returns a token for the new id; when the hash raises,
    [signup] raises the same and stores nothing. In every store the service
    can reach no two users share an e-mail, before and after the call. *)
Theorem signup_unique_email :
  forall {codec : JwsCodec} {crypt : CryptContext}
         (JWT_SECRET UPLOAD_DIR : string) (payload : SignUpRequest.t)
         (new_id : Bson.oid) (salt : string) (now issued : Z) (w : World),
    (In (SignUpRequest.email payload) (List.map User.email (users w)) ->
     signup JWT_SECRET payload new_id salt now issued w
     = (Raise (HTTPException 400 "Email already registered"), w))
    /\ (~ In (SignUpRequest.email payload) (List.map User.email (users w)) ->
        (forall hashed,
            pwd_hash salt (SignUpRequest.password payload) = Ok hashed ->
            signup JWT_SECRET payload new_id salt now issued w
            = (Ok {| TokenResponse.access_token :=
                       create_token JWT_SECRET (Bson.str new_id)
                         (SignUpRequest.email payload) issued;
                     TokenResponse.token_type := "bearer" |},
               set_users
                 (Mongo.insert_one
                    {| User._id := new_id;
                       User.name := SignUpRequest.name payload;
                       User.email := SignUpRequest.email payload;
                       User.password_hash := hashed;
                       User.provider := "credentials";
                       User.created_at := Bson.datetime now |}) w)
            /\ (hash_hides_password crypt ->
                hashed <> SignUpRequest.password payload))
        /\ (forall e,
              pwd_hash salt (SignUpRequest.password payload) = Raise e ->
              signup JWT_SECRET payload new_id salt now issued w
              = (Raise e, w)))
    /\ (reachable JWT_SECRET UPLOAD_DIR w ->
        NoDup (List.map User.email (users w))
        /\ NoDup (List.map User.email
                    (users (snd (signup JWT_SECRET payload new_id salt now
                                   issued w))))).
Proof.
  intros. split; [|split].
  - apply signup_duplicate.
  - intros Hn. split.
    + intros hashed Hh. split; [now apply signup_fresh|].
      intros Hlaw. exact (Hlaw _ _ _ Hh).
    + intros e. now apply signup_hash_raises.
  - intros Hr. split; [now apply reachable_emails_unique with (1 := Hr)|].
    apply (reachable_emails_unique JWT_SECRET UPLOAD_DIR).
    apply reachable_step with (1 := Hr). constructor.
Qed.

(** Carol signs up; a second signup with Alice's e-mail is refused. *)
Lemma signup_unique_email_witness :
  signup (codec := Reference.codec) (crypt := Reference.crypt) Sample.secret
    {| SignUpRequest.name := "Alice again";
       SignUpRequest.email := "alice@example.com";
       SignUpRequest.password := "rabbit" |}
    Sample.fresh_id "s1" 600 601 Sample.world
  = (Raise (HTTPException 400 "Email already registered"), Sample.world)
  /\ List.map User.email
       (users (snd (signup (codec := Reference.codec) (crypt := Reference.crypt)
                      Sample.secret
                      {| SignUpRequest.name := "Carol";
                         SignUpRequest.email := "carol@example.com";
                         SignUpRequest.password := "tea" |}
                      Sample.fresh_id "s2" 600 601 Sample.world)))
     = ["alice@example.com"; "bob@example.com"; "carol@example.com"]
  /\ hash_hides_password Reference.crypt
  /\ Reference.hashed "s2" "tea" <> "tea"
  /\ NoDup (List.map User.email (users empty_world)).
Proof.
  destruct (signup_unique_email (codec := Reference.codec)
              (crypt := Reference.crypt) Sample.secret "uploads"
              {| SignUpRequest.name := "Alice again";
                 SignUpRequest.email := "alice@example.com";
                 SignUpRequest.password := "rabbit" |}
              Sample.fresh_id "s1" 600 601 Sample.world) as (Hdup & _ & _).
  destruct (signup_unique_email (codec := Reference.codec)
              (crypt := Reference.crypt) Sample.secret "uploads"
              {| SignUpRequest.name := "Carol";
                 SignUpRequest.email := "carol@example.com";
                 SignUpRequest.password := "tea" |}
              Sample.fresh_id "s2" 600 601 Sample.world) as (_ & Hnew & _).
  destruct (signup_unique_email (codec := Reference.codec)
              (crypt := Reference.crypt) Sample.secret "uploads"
              {| SignUpRequest.name := "Carol";
                 SignUpRequest.email := "carol@example.com";
                 SignUpRequest.password := "tea" |}
              Sample.fresh_id "s2" 600 601 empty_world) as (_ & _ & Hinv).
  destruct Hnew as [Hok _].
  { intros [H | [H | []]]; discriminate H. }
  destruct (Hok (Reference.hashed "s2" "tea") eq_refl) as [Hnew Hhide].
  split; [|split; [|split; [|split]]].
  - apply Hdup. left. reflexivity.
  - rewrite Hnew. reflexivity.
  - exact reference_crypt_hides.
  - exact (Hhide reference_crypt_hides).
  - apply Hinv. apply reachable_empty.
Defined.

(** C5 as stated fails: the e-mail is new, yet [signup] does not succeed
    and persists nothing, the hash refusing a password with a NUL byte. *)
Lemma signup_nul_password :
  ~ In "carol@example.com" (List.map User.email (users Sample.world))
  /\ signup (codec := Reference.codec) (crypt := Reference.crypt)
       Sample.secret
       {| SignUpRequest.name := "Carol";
          SignUpRequest.email := "carol@example.com";
          SignUpRequest.password := String "000" "tea" |}
       Sample.fresh_id "s2" 600 601 Sample.world
     = (Raise ValueError, Sample.world).
Proof.
  split; [|reflexivity].
  intros [H | [H | []]]; discriminate H.
Qed.

(** ** Saved projects *)

Section Saving.
Variables (project_id : string) (user : AuthUser.t).

Lemma find_one_filter {D} (f : D -> bool) (c : list D) :
  Mongo.find_one f c = None <-> List.filter f c = [].
Proof.
  unfold Mongo.find_one. induction c as [|d c IH]; cbn; [tauto|].
  destruct (f d); [split; discriminate | exact IH].
Qed.

Lemma save_project_eq new_id now w :
  save_project project_id user new_id now w
  = (Ok true,
     match Mongo.find_one (saved_by (AuthUser.id user) project_id)
             (savedproject w) with
     | Some _ => w
     | None =>
         set_savedproject
           (Mongo.insert_one
              {| SavedProject._id := new_id;
                 SavedProject.user_id := AuthUser.id user;
                 SavedProject.project_id := project_id;
                 SavedProject.created_at := Bson.datetime now |}) w
     end).
Proof. unfold save_project. handler. now case_find. Qed.

Lemma saved_by_refl (u p : string) (d : SavedProject.doc) :
  SavedProject.user_id d = u -> SavedProject.project_id d = p ->
  saved_by u p d = true.
Proof. intros <- <-. unfold saved_by. now rewrite !String.eqb_refl. Qed.

Lemma saved_by_eq (u p : string) (d : SavedProject.doc) :
  saved_by u p d = true ->
  SavedProject.user_id d = u /\ SavedProject.project_id d = p.
Proof.
  unfold saved_by. intros H. apply andb_prop in H as [H1 H2].
  now apply String.eqb_eq in H1, H2.
Qed.

(** After a call the pair is saved. *)
Lemma save_project_saved new_id now w :
  exists d,
    Mongo.find_one (saved_by (AuthUser.id user) project_id)
      (savedproject (snd (save_project project_id user new_id now w)))
    = Some d.
Proof.
  rewrite save_project_eq. cbn [snd].
  destruct (Mongo.find_one (saved_by (AuthUser.id user) project_id)
              (savedproject w)) eqn:E; [eauto|].
  eexists. cbn [savedproject set_savedproject].
  apply find_one_insert_one; [assumption|]. now apply saved_by_refl.
Qed.

Lemma save_project_again new_id now new_id' now' w :
  save_project project_id user new_id' now'
    (snd (save_project project_id user new_id now w))
  = (Ok true, snd (save_project project_id user new_id now w)).
Proof.
  destruct (save_project_saved new_id now w) as [d Hd].
  rewrite (save_project_eq new_id' now'). now rewrite Hd.
Qed.

(** The count of any pair after a call. *)
Lemma save_project_count new_id now w (u p : string) :
  saved_count u p (snd (save_project project_id user new_id now w))
  = if (Nat.eqb (saved_count (AuthUser.id user) project_id w) 0
        && String.eqb (AuthUser.id user) u && String.eqb project_id p)%bool
    then 1%nat else saved_count u p w.
Proof.
  rewrite save_project_eq. cbn [snd]. unfold saved_count.
  destruct (Mongo.find_one (saved_by (AuthUser.id user) project_id)
              (savedproject w)) eqn:Heqo.
  - assert (List.filter (saved_by (AuthUser.id user) project_id)
              (savedproject w) <> []) as Hne.
    { intros E. apply find_one_filter in E. congruence. }
    destruct (List.filter (saved_by (AuthUser.id user) project_id)
                (savedproject w)); [congruence | reflexivity].
  - apply find_one_filter in Heqo. rewrite Heqo.
    cbn [savedproject set_savedproject List.length Nat.eqb andb].
    unfold Mongo.insert_one. rewrite List.filter_app, List.length_app.
    cbn [List.filter]. unfold saved_by at 2.
    cbn [SavedProject.user_id SavedProject.project_id].
    destruct (String.eqb (AuthUser.id user) u) eqn:Eu;
      destruct (String.eqb project_id p) eqn:Ep; cbn [andb List.length]; try lia.
    apply String.eqb_eq in Eu, Ep. subst u p. rewrite Heqo. reflexivity.
Qed.
End Saving.

Section SavedInvariant.
Context {codec : JwsCodec} {crypt : CryptContext}.
Variables (JWT_SECRET UPLOAD_DIR : string).

Lemma filter_filter_length {D} (f g : D -> bool) (c : list D) :
  (List.length (List.filter f (List.filter g c))
   <= List.length (List.filter f c))%nat.
Proof.
  induction c as [|d c IH]; cbn; [lia|].
  destruct (g d), (f d) eqn:E; cbn; rewrite ?E; cbn; lia.
Qed.

Lemma delete_project_saved project_id user w (u p : string) :
  (saved_count u p (snd (delete_project project_id user w))
   <= saved_count u p w)%nat.
Proof.
  unfold saved_count, delete_project. crunch; try lia.
  unfold Mongo.delete_many. apply filter_filter_length.
Qed.

Lemma step_saved_count w w' (u p : string) :
  step JWT_SECRET UPLOAD_DIR w w' ->
  (saved_count u p w <= 1)%nat -> (saved_count u p w' <= 1)%nat.
Proof.
  intros Hs.
  destruct Hs as [payload new_id salt now issued | payload user new_id now
                 | project_id payload user now | project_id user
                 | project_id user new_id now
                 | fs project_id message portfolio_url document user file_id
                     new_id now
                 | request_id status user | payload user]; intros H.
  - unfold saved_count, signup in *. revert H. crunch; trivial.
  - unfold saved_count, create_project in *. revert H. crunch; trivial.
  - unfold saved_count, update_project in *. revert H. crunch; trivial.
  - pose proof (delete_project_saved project_id user w u p). lia.
  - rewrite save_project_count. now destruct (_ && _)%bool.
  - unfold saved_count.
    destruct (apply_to_project_frame UPLOAD_DIR project_id message
                portfolio_url document user file_id new_id now w)
      as (_ & _ & ->).
    exact H.
  - unfold saved_count, update_status in *. revert H. crunch; trivial.
  - unfold saved_count in *.
    now destruct (update_me_others payload user w) as (_ & -> & _).
Qed.

(** No pair of user and project is saved twice. *)
Lemma reachable_saved_once w (u p : string) :
  reachable JWT_SECRET UPLOAD_DIR w -> (saved_count u p w <= 1)%nat.
Proof.
  induction 1 as [|w w' _ IH Hs]; [cbn; lia|].
  now apply (step_saved_count w w').
Qed.
End SavedInvariant.

(** C8. Two calls of [save_project] in sequence both report success, the
    second leaves the store as the first left it, neither looks at the
    projects, and, in every store the service can reach, exactly one record
    with that user and project id is left. *)
Theorem save_project_idempotent :
  forall {codec : JwsCodec} {crypt : CryptContext}
         (JWT_SECRET UPLOAD_DIR : string) (project_id : string)
         (user : AuthUser.t) (id1 id2 : Bson.oid) (now1 now2 : Z) (w : World),
    let first := save_project project_id user id1 now1 w in
    let second := save_project project_id user id2 now2 (snd first) in
    fst first = Ok true
    /\ fst second = Ok true
    /\ snd second = snd first
    /\ (forall ps,
          fst (save_project project_id user id1 now1
                 (set_projects (fun _ => ps) w)) = Ok true
          /\ savedproject
               (snd (save_project project_id user id1 now1
                       (set_projects (fun _ => ps) w)))
             = savedproject (snd first))
    /\ (reachable JWT_SECRET UPLOAD_DIR w ->
        saved_count (AuthUser.id user) project_id (snd second) = 1%nat).
Proof.
  intros codec crypt JWT_SECRET UPLOAD_DIR project_id user id1 id2 now1 now2 w
    first second.
  assert (Hsecond : second = (Ok true, snd first))
    by apply save_project_again.
  split; [unfold first; now rewrite save_project_eq|].
  split; [now rewrite Hsecond|]. split; [now rewrite Hsecond|]. split.
  - intros ps. unfold first. rewrite !save_project_eq.
    cbn [fst snd savedproject set_projects]. split; [reflexivity|].
    now destruct (Mongo.find_one (saved_by (AuthUser.id user) project_id)
                    (savedproject w)).
  - intros Hr. rewrite Hsecond. cbn [snd]. unfold first.
    rewrite save_project_count, !String.eqb_refl, !andb_true_r.
    pose proof (reachable_saved_once JWT_SECRET UPLOAD_DIR w
                  (AuthUser.id user) project_id Hr).
    destruct (saved_count (AuthUser.id user) project_id w) as [|[|n]];
      cbn; [reflexivity | reflexivity | lia].
Qed.

(** Alice saves a project id that no project has, twice. *)
Lemma save_project_idempotent_witness :
  savedproject
    (snd (save_project "no-such-project" Sample.alice Sample.file_id 701250
            (snd (save_project "no-such-project" Sample.alice Sample.fresh_id
                    700250 empty_world))))
  = [{| SavedProject._id := Sample.fresh_id;
        SavedProject.user_id := Bson.str Sample.alice_id;
        SavedProject.project_id := "no-such-project";
        SavedProject.created_at := 700000 |}]
  /\ saved_count (Bson.str Sample.alice_id) "no-such-project"
       (snd (save_project "no-such-project" Sample.alice Sample.file_id 701250
               (snd (save_project "no-such-project" Sample.alice
                       Sample.fresh_id 700250 empty_world))))
     = 1%nat.
Proof.
  destruct (save_project_idempotent (codec := Reference.codec)
              (crypt := Reference.crypt) Sample.secret "uploads"
              "no-such-project" Sample.alice Sample.fresh_id Sample.file_id
              700250 701250 empty_world) as (_ & _ & Hsame & _ & Hone).
  split.
  - cbv zeta in Hsame. rewrite Hsame. reflexivity.
  - apply Hone. apply reachable_empty.
Defined.

(** ** Applications *)

Section Applying.
Context {fs : FileSystem}.
Variables (UPLOAD_DIR project_id message portfolio_url : string).
Variables (document : UploadFile.t) (user : AuthUser.t).
Variables (file_id new_id o : Bson.oid) (now : Z) (w : World).
Hypothesis well_formed : Bson.ObjectId project_id = Ok o.

Lemma apply_to_project_eq :
  apply_to_project UPLOAD_DIR project_id message portfolio_url document user
    file_id new_id now w
  = match Mongo.find_one (project_by_id o) (projects w) with
    | None => (Raise (HTTPException 404 "Project not found"), w)
    | Some project =>
        if String.eqb (Project.visibility project) "private"
        then (Raise (HTTPException 404 "Project not found"), w)
        else
          let path :=
            path_join UPLOAD_DIR
              (Bson.str file_id ++ "_" ++ UploadFile.filename document) in
          match open_wb path (files w) with
          | Some e => (Raise (open_raises e), w)
          | None =>
              (Ok true,
               set_collaborationrequest
                 (Mongo.insert_one
                    {| CollaborationRequest._id := new_id;
                       CollaborationRequest.project_id := project_id;
                       CollaborationRequest.applicant_id := AuthUser.id user;
                       CollaborationRequest.message := message;
                       CollaborationRequest.portfolio_url := portfolio_url;
                       CollaborationRequest.document_path := path;
                       CollaborationRequest.status := "pending";
                       CollaborationRequest.created_at := Bson.datetime now |})
                 (write_file path (UploadFile.content document) w))
          end
    end.
Proof.
  unfold apply_to_project, open_write. handler. rewrite well_formed. cbn.
  case_find; [|reflexivity].
  destruct (String.eqb (Project.visibility d) "private"); [reflexivity|].
  now destruct (open_wb _ (files w)).
Qed.
End Applying.

Lemma open_raises_not_http (e : open_error) (c : Z) (d : string) :
  open_raises e <> HTTPException c d.
Proof. now destruct e. Qed.

(** C3, as amended. For a project id that is a well-formed ObjectId string,
    [apply_to_project] raises 404 exactly when no project has that id or the
    project's visibility is [private], and then leaves the store as it was.
    Otherwise it opens the file named by a fresh ObjectId, an underscore and
    the uploaded file's name, under the upload directory: when the file
    cannot be opened, it raises what [open] raised, writes nothing and
    creates no request; when the file is opened, it writes the uploaded
    bytes to it and appends exactly one request with status [pending] that
    names the project, the applicant, the message, the portfolio URL and the
    path of that file, its [created_at] being the clock reading to the
    millisecond. *)
Theorem apply_to_project_outcomes :
  forall {fs : FileSystem}
         (UPLOAD_DIR project_id message portfolio_url : string)
         (document : UploadFile.t) (user : AuthUser.t)
         (file_id new_id o : Bson.oid) (now : Z) (w : World),
    Bson.ObjectId project_id = Ok o ->
    let found := Mongo.find_one (project_by_id o) (projects w) in
    let outcome :=
      apply_to_project UPLOAD_DIR project_id message portfolio_url document
        user file_id new_id now w in
    let path :=
      path_join UPLOAD_DIR
        (Bson.str file_id ++ "_" ++ UploadFile.filename document) in
    (fst outcome = Raise (HTTPException 404 "Project not found")
     <-> found = None
         \/ exists p, found = Some p /\ Project.visibility p = "private")
    /\ (fst outcome = Raise (HTTPException 404 "Project not found") ->
        snd outcome = w)
    /\ (forall p,
          found = Some p -> Project.visibility p <> "private" ->
          (forall e,
              open_wb path (files w) = Some e ->
              outcome = (Raise (open_raises e), w))
          /\ (open_wb path (files w) = None ->
              fst outcome = Ok true
              /\ files (snd outcome)
                 = <[path := UploadFile.content document]> (files w)
              /\ files (snd outcome) !! path
                 = Some (UploadFile.content document)
              /\ collaborationrequest (snd outcome)
                 = (collaborationrequest w
                    ++ [{| CollaborationRequest._id := new_id;
                           CollaborationRequest.project_id := project_id;
                           CollaborationRequest.applicant_id := AuthUser.id user;
                           CollaborationRequest.message := message;
                           CollaborationRequest.portfolio_url := portfolio_url;
                           CollaborationRequest.document_path := path;
                           CollaborationRequest.status := "pending";
                           CollaborationRequest.created_at :=
                             Bson.datetime now |}])%list
              /\ users (snd outcome) = users w
              /\ projects (snd outcome) = projects w
              /\ savedproject (snd outcome) = savedproject w)).
Proof.
  intros fs UPLOAD_DIR project_id message portfolio_url document user file_id
    new_id o now w Ho found outcome path.
  unfold outcome. rewrite (apply_to_project_eq _ _ _ _ _ _ _ _ o _ _ Ho).
  fold found. destruct found as [p|] eqn:Ef.
  - destruct (String.eqb (Project.visibility p) "private") eqn:Ev.
    + apply String.eqb_eq in Ev. split; [|split].
      * split; [intros _; right; eauto | reflexivity].
      * reflexivity.
      * intros p' [= <-] Hne. contradiction.
    + apply String.eqb_neq in Ev. cbv zeta. fold path.
      destruct (open_wb path (files w)) as [e|] eqn:Eo; split; [|split| |split].
      * split; [intros [= H]; now apply open_raises_not_http in H|].
        intros [H | (p' & [= <-] & H)]; [discriminate | contradiction].
      * reflexivity.
      * intros p' _ _. split; [now intros e' [= <-] | discriminate].
      * split; [discriminate|].
        intros [H | (p' & [= <-] & H)]; [discriminate | contradiction].
      * discriminate.
      * intros p' _ _. split; [discriminate|]. intros _.
        cbn. repeat split. apply lookup_insert_eq.
  - split; [|split].
    + split; [now left | reflexivity].
    + reflexivity.
    + discriminate.
Qed.

(** Bob applies to the public garden project and to the private vault. *)
Lemma apply_to_project_outcomes_witness :
  collaborationrequest
    (snd (apply_to_project (fs := Reference.fs) "uploads"
            (Bson.str Sample.garden_id) "hello" "https://bob.example.com"
            Sample.cv Sample.bob Sample.file_id Sample.fresh_id 800250
            Sample.world))
  = [Sample.request;
     {| CollaborationRequest._id := Sample.fresh_id;
        CollaborationRequest.project_id := Bson.str Sample.garden_id;
        CollaborationRequest.applicant_id := Bson.str Sample.bob_id;
        CollaborationRequest.message := "hello";
        CollaborationRequest.portfolio_url := "https://bob.example.com";
        CollaborationRequest.document_path :=
          "uploads/654f1d0000000000000000f2_cv.pdf";
        CollaborationRequest.status := "pending";
        CollaborationRequest.created_at := 800000 |}]
  /\ files
       (snd (apply_to_project (fs := Reference.fs) "uploads"
               (Bson.str Sample.garden_id) "hello" "https://bob.example.com"
               Sample.cv Sample.bob Sample.file_id Sample.fresh_id 800250
               Sample.world))
       !! "uploads/654f1d0000000000000000f2_cv.pdf"
     = Some [x25; x50; x44; x46]
  /\ fst (apply_to_project (fs := Reference.fs) "uploads"
            (Bson.str Sample.vault_id) "hello" "https://bob.example.com"
            Sample.cv Sample.bob Sample.file_id Sample.fresh_id 800250
            Sample.world)
     = Raise (HTTPException 404 "Project not found").
Proof.
  destruct (apply_to_project_outcomes (fs := Reference.fs) "uploads"
              (Bson.str Sample.garden_id)
              "hello" "https://bob.example.com" Sample.cv Sample.bob
              Sample.file_id Sample.fresh_id Sample.garden_id 800250
              Sample.world eq_refl) as (_ & _ & Hpub).
  destruct (Hpub Sample.garden eq_refl) as (_ & Hopen); [discriminate|].
  destruct (Hopen eq_refl) as (_ & _ & Hfile & Hreq & _).
  destruct (apply_to_project_outcomes (fs := Reference.fs) "uploads"
              (Bson.str Sample.vault_id)
              "hello" "https://bob.example.com" Sample.cv Sample.bob
              Sample.file_id Sample.fresh_id Sample.vault_id 800250
              Sample.world eq_refl) as ([_ Hpriv] & _ & _).
  split; [exact Hreq|]. split; [exact Hfile|].
  apply Hpriv. right. exists Sample.vault. split; reflexivity.
Defined.

(** C3 as stated fails: for a project id that is not an ObjectId string the
    project does not exist, yet [apply_to_project] raises [InvalidId] and not
    the 404 of [NotFound]. *)
Lemma apply_to_project_malformed_id :
  Forall (fun p => Bson.str (Project._id p) <> "garden")
    (projects Sample.world)
  /\ apply_to_project (fs := Reference.fs) "uploads" "garden" "hello"
       "https://bob.example.com" Sample.cv Sample.bob Sample.file_id
       Sample.fresh_id 800250 Sample.world
     = (Raise InvalidId, Sample.world).
Proof.
  split; [|reflexivity]. repeat constructor; discriminate.
Qed.

(** The project is public, yet the uploaded file's name has a [/], no
    directory of that name is under the upload directory, [open] raises and
    neither a file nor a request is left. *)
Example apply_to_project_unopened :
  apply_to_project (fs := Reference.fs) "uploads" (Bson.str Sample.garden_id)
    "hello" "https://bob.example.com"
    {| UploadFile.filename := "2024/cv.pdf";
       UploadFile.content := UploadFile.content Sample.cv |}
    Sample.bob Sample.file_id Sample.fresh_id 800250 Sample.world
  = (Raise (OSError FileNotFoundError), Sample.world).
Proof. reflexivity. Qed.

(** ** Status of a request *)

Lemma valid_status_In (status : string) :
  List.existsb (String.eqb status) valid_statuses = true
  <-> In status valid_statuses.
Proof.
  rewrite List.existsb_exists. split.
  - intros (x & Hx & He). apply String.eqb_eq in He. now subst.
  - intros H. exists status. split; [exact H | apply String.eqb_refl].
Qed.

(** C4. For a request whose parent project belongs to the requester,
    [update_status] with a status outside [pending], [accepted], [rejected]
    raises 400 and leaves the store as it was; with a status among the three
    it succeeds and the stored request then carries exactly that status,
    whatever status it carried before. *)
Theorem update_status_outcomes :
  forall (request_id status : string) (user : AuthUser.t) (w : World)
         (rid o : Bson.oid) (r : CollaborationRequest.doc) (p : Project.doc),
    Bson.ObjectId request_id = Ok rid ->
    Mongo.find_one (request_by_id rid) (collaborationrequest w) = Some r ->
    Bson.ObjectId (CollaborationRequest.project_id r) = Ok o ->
    Mongo.find_one (project_by_id o) (projects w) = Some p ->
    Project.owner_id p = AuthUser.id user ->
    (~ In status valid_statuses ->
     update_status request_id status user w
     = (Raise (HTTPException 400 "Invalid status"), w))
    /\ (In status valid_statuses ->
        update_status request_id status user w
        = (Ok true,
           set_collaborationrequest
             (Mongo.update_one (request_by_id rid) (set_status status)) w)
        /\ Mongo.find_one (request_by_id rid)
             (collaborationrequest
                (snd (update_status request_id status user w)))
           = Some (set_status status r)
        /\ CollaborationRequest.status (set_status status r) = status).
Proof.
  intros request_id status user w rid o r p Hrid Hr Ho Hp Hown.
  assert (E : update_status request_id status user w
              = if negb (List.existsb (String.eqb status) valid_statuses)
                then (Raise (HTTPException 400 "Invalid status"), w)
                else (Ok true,
                      set_collaborationrequest
                        (Mongo.update_one (request_by_id rid)
                           (set_status status)) w)).
  { unfold update_status. handler. rewrite Hrid, Hr. cbn. rewrite Ho, Hp. cbn.
    apply String.eqb_eq in Hown. rewrite Hown. cbn [negb].
    match goal with |- (if ?b then _ else _) _ = _ => now destruct b end. }
  rewrite E. split.
  - intros Hn. destruct (List.existsb _ _) eqn:Ex; [|reflexivity].
    now apply valid_status_In in Ex.
  - intros Hin. apply valid_status_In in Hin. rewrite Hin. cbn [negb].
    split; [reflexivity|]. split; [|reflexivity].
    cbn [snd collaborationrequest set_collaborationrequest].
    apply find_one_update_one; [exact Hr|].
    now apply find_one_some in Hr.
Qed.

(** Alice puts an accepted request back to pending, and may not archive it. *)
Lemma update_status_outcomes_witness :
  CollaborationRequest.status Sample.request = "accepted"
  /\ collaborationrequest
       (snd (update_status (Bson.str Sample.request_id) "pending" Sample.alice
               Sample.world))
     = [set_status "pending" Sample.request]
  /\ update_status (Bson.str Sample.request_id) "archived" Sample.alice
       Sample.world
     = (Raise (HTTPException 400 "Invalid status"), Sample.world).
Proof.
  destruct (update_status_outcomes (Bson.str Sample.request_id) "pending"
              Sample.alice Sample.world Sample.request_id Sample.garden_id
              Sample.request Sample.garden eq_refl eq_refl eq_refl eq_refl
              eq_refl) as [_ Hok].
  destruct (update_status_outcomes (Bson.str Sample.request_id) "archived"
              Sample.alice Sample.world Sample.request_id Sample.garden_id
              Sample.request Sample.garden eq_refl eq_refl eq_refl eq_refl
              eq_refl) as [Hbad _].
  split; [reflexivity|]. split.
  - destruct Hok as [-> _]; [cbn; tauto | reflexivity].
  - apply Hbad. cbn. intros [H | [H | [H | []]]]; discriminate H.
Defined.

(** ** The saved list *)

Lemma ObjectId_raises (s : string) (e : exn) :
  Bson.ObjectId s = Raise e -> e = InvalidId.
Proof.
  unfold Bson.ObjectId.
  destruct (Nat.eqb (String.length s) 24); [destruct (Bson.fromhex s)|];
    congruence.
Qed.

Lemma ObjectIds_raises (l : list string) :
  (exists s, In s l /\ Bson.ObjectId s = Raise InvalidId) ->
  ObjectIds l = Raise InvalidId.
Proof.
  induction l as [|x l IH]; intros (s & Hin & Hs); [destruct Hin|].
  cbn [ObjectIds].
  destruct (Bson.ObjectId x) as [ox|e] eqn:Ex.
  - destruct Hin as [-> | Hin]; [congruence|].
    cbn [rbind]. rewrite IH by eauto. reflexivity.
  - cbn [rbind]. now rewrite (ObjectId_raises _ _ Ex).
Qed.

Lemma ObjectIds_ok (l : list string) :
  (forall s, In s l -> exists o, Bson.ObjectId s = Ok o) ->
  exists os, ObjectIds l = Ok os
             /\ forall o, In o os <-> exists s, In s l /\ Bson.ObjectId s = Ok o.
Proof.
  induction l as [|x l IH]; intros H.
  - exists []. split; [reflexivity|]. intros o. split; [intros []|].
    now intros (s & [] & _).
  - destruct (H x (or_introl eq_refl)) as [ox Hx].
    destruct IH as (os & Hos & Hin); [intros s Hs; apply H; now right|].
    exists (ox :: os). cbn [ObjectIds]. rewrite Hx, Hos. split; [reflexivity|].
    intros o. cbn [In]. rewrite Hin. split.
    + intros [<- | (s & Hs & Ho)]; [exists x; auto | exists s; auto].
    + intros (s & [<- | Hs] & Ho); [left; congruence | right; eauto].
Qed.

(** When every id the user saved is well formed, the saved list is the
    stored projects whose id was saved; an id that no project has adds
    nothing. *)
Lemma my_saved_well_formed (user : AuthUser.t) (w : World) :
  (forall s,
      In s (savedproject w) -> SavedProject.user_id s = AuthUser.id user ->
      exists o, Bson.ObjectId (SavedProject.project_id s) = Ok o) ->
  exists items,
    my_saved user w = Ok items
    /\ forall item,
         In item items
         <-> exists p s,
               In p (projects w) /\ item = project_out p
               /\ In s (savedproject w)
               /\ SavedProject.user_id s = AuthUser.id user
               /\ Bson.ObjectId (SavedProject.project_id s)
                  = Ok (Project._id p).
Proof.
  intros Hwf. unfold my_saved.
  set (saved := Mongo.find _ (savedproject w)).
  destruct (ObjectIds_ok (List.map SavedProject.project_id saved))
    as (os & Hos & Hin).
  { intros s Hs. apply in_map_iff in Hs as (d & <- & Hd).
    apply filter_In in Hd as [Hd Hu]. apply String.eqb_eq in Hu. eauto. }
  rewrite Hos. cbn [rbind]. eexists. split; [reflexivity|].
  intros item. rewrite in_map_iff. split.
  - intros (p & <- & Hp). apply filter_In in Hp as [Hp Hex].
    apply List.existsb_exists in Hex as (o & Ho & Heq).
    apply oid_eqb_eq in Heq. subst o.
    apply Hin in Ho as (s & Hs & Hparse).
    apply in_map_iff in Hs as (d & <- & Hd).
    apply filter_In in Hd as [Hd Hu]. apply String.eqb_eq in Hu.
    exists p, d. auto.
  - intros (p & d & Hp & -> & Hd & Hu & Hparse). exists p.
    split; [reflexivity|]. apply filter_In. split; [exact Hp|].
    apply List.existsb_exists. exists (Project._id p).
    split; [|apply oid_eqb_refl].
    apply Hin. exists (SavedProject.project_id d). split; [|exact Hparse].
    apply in_map. apply filter_In. split; [exact Hd|].
    now apply String.eqb_eq.
Qed.

(** C9, on the code. [save_project] accepts a project id that is not an
    ObjectId string, and from then on [my_saved] raises [InvalidId] for that
    user: the record is not dropped. *)
Theorem my_saved_raises_after_malformed_save :
  forall (project_id : string) (user : AuthUser.t) (new_id : Bson.oid)
         (now : Z) (w : World),
    Bson.ObjectId project_id = Raise InvalidId ->
    fst (save_project project_id user new_id now w) = Ok true
    /\ my_saved user (snd (save_project project_id user new_id now w))
       = Raise InvalidId.
Proof.
  intros project_id user new_id now w Hbad.
  split; [now rewrite save_project_eq|].
  destruct (save_project_saved project_id user new_id now w) as [d Hd].
  apply find_one_some in Hd as [Hin Hby].
  apply saved_by_eq in Hby as [Hu Hp].
  unfold my_saved. rewrite ObjectIds_raises; [reflexivity|].
  exists project_id. split; [|exact Hbad].
  apply in_map_iff. exists d. split; [exact Hp|].
  apply filter_In. split; [exact Hin|]. now apply String.eqb_eq.
Qed.

(** Alice saves [not-an-id]; her saved list then fails. *)
Lemma my_saved_raises_after_malformed_save_witness :
  my_saved Sample.alice Sample.world = Ok []
  /\ fst (save_project "not-an-id" Sample.alice Sample.fresh_id 700
            Sample.world) = Ok true
  /\ my_saved Sample.alice
       (snd (save_project "not-an-id" Sample.alice Sample.fresh_id 700
               Sample.world))
     = Raise InvalidId.
Proof.
  split; [reflexivity|].
  apply (my_saved_raises_after_malformed_save "not-an-id" Sample.alice
           Sample.fresh_id 700 Sample.world).
  reflexivity.
Defined.

(** ** Profile *)

(** C10. Every call of [update_me] leaves the id, email, password hash,
    provider and creation date of every stored user, and every other
    collection, as they were; a payload without a name changes nothing; and
    for an authenticated user the name of the user's record becomes the
    payload's name, when it has one, and the response carries the email and
    name of the record as stored after the call. *)
Theorem update_me_changes_name_only :
  forall (payload : ProfileUpdate.t) (user : AuthUser.t) (w : World),
    let outcome := update_me payload user w in
    List.map user_frame (users (snd outcome)) = List.map user_frame (users w)
    /\ projects (snd outcome) = projects w
    /\ savedproject (snd outcome) = savedproject w
    /\ collaborationrequest (snd outcome) = collaborationrequest w
    /\ files (snd outcome) = files w
    /\ (ProfileUpdate.name payload = None -> snd outcome = w)
    /\ (forall o u,
          Bson.ObjectId (AuthUser.id user) = Ok o ->
          Mongo.find_one (user_by_id o) (users w) = Some u ->
          let u' :=
            match ProfileUpdate.name payload with
            | Some n => set_name n u
            | None => u
            end in
          users (snd outcome)
          = match ProfileUpdate.name payload with
            | Some n => Mongo.update_one (user_by_id o) (set_name n) (users w)
            | None => users w
            end
          /\ Mongo.find_one (user_by_id o) (users (snd outcome)) = Some u'
          /\ fst outcome
             = Ok {| MeResponse.id := AuthUser.id user;
                     MeResponse.email := Some (User.email u');
                     MeResponse.name := Some (User.name u') |}
          /\ user_frame u' = user_frame u).
Proof.
  intros payload user w outcome.
  pose proof (update_me_users_frame payload user w) as Hframe.
  destruct (update_me_others payload user w) as (Hp & Hs & Hc & Hf).
  repeat (split; [assumption|]). split.
  - intros Hnone. unfold outcome. rewrite update_me_eq, Hnone.
    destruct (Bson.ObjectId (AuthUser.id user)); [|reflexivity].
    cbn zeta. now case_find.
  - intros o u Ho Hu u'. unfold outcome. rewrite update_me_eq, Ho. cbn zeta.
    assert (Hfind :
      Mongo.find_one (user_by_id o)
        (users match ProfileUpdate.name payload with
               | Some n =>
                   set_users (Mongo.update_one (user_by_id o) (set_name n)) w
               | None => w
               end) = Some u').
    { unfold u'. destruct (ProfileUpdate.name payload) as [n|]; [|exact Hu].
      cbn [users set_users]. apply find_one_update_one; [exact Hu|].
      now apply find_one_some in Hu. }
    rewrite Hfind. cbn [fst snd]. rewrite Hfind.
    repeat split; unfold u'; now destruct (ProfileUpdate.name payload).
Qed.

(** Alice renames herself; an empty payload changes nothing. *)
Lemma update_me_changes_name_only_witness :
  update_me {| ProfileUpdate.name := Some "Alice L." |} Sample.alice
    Sample.world
  = (Ok {| MeResponse.id := Bson.str Sample.alice_id;
           MeResponse.email := Some "alice@example.com";
           MeResponse.name := Some "Alice L." |},
     set_users (fun _ => [set_name "Alice L." Sample.alice_doc; Sample.bob_doc])
       Sample.world)
  /\ snd (update_me {| ProfileUpdate.name := None |} Sample.alice Sample.world)
     = Sample.world.
Proof.
  destruct (update_me_changes_name_only
              {| ProfileUpdate.name := Some "Alice L." |} Sample.alice
              Sample.world) as (_ & _ & _ & _ & _ & _ & Hset).
  destruct (Hset Sample.alice_id Sample.alice_doc eq_refl eq_refl)
    as (Hu & _ & Hr & _).
  destruct (update_me_changes_name_only {| ProfileUpdate.name := None |}
              Sample.alice Sample.world) as (_ & _ & _ & _ & _ & Hnone & _).
  split; [|now apply Hnone].
  apply injective_projections; [exact Hr|].
  reflexivity.
Defined.

(** ** Listing projects *)

Section Sorting.
Context {D : Type}.
Variable key : D -> Z.

Abbreviation desc := (newest_first key).

Lemma insert_desc_In (d x : D) (c : list D) :
  In x (Mongo.insert_desc key d c) <-> x = d \/ In x c.
Proof.
  induction c as [|e c IH]; cbn; [intuition congruence|].
  destruct (Z.ltb (key d) (key e)); cbn; rewrite ?IH; intuition congruence.
Qed.

Lemma sort_desc_In (x : D) (c : list D) :
  In x (Mongo.sort_desc key c) <-> In x c.
Proof.
  induction c as [|d c IH]; cbn; [tauto|].
  rewrite insert_desc_In, IH. intuition congruence.
Qed.

Lemma insert_desc_sorted (d : D) (c : list D) :
  Sorted desc c -> Sorted desc (Mongo.insert_desc key d c).
Proof.
  induction c as [|e c IH]; cbn; intros Hs; [repeat constructor|].
  destruct (Z.ltb (key d) (key e)) eqn:E.
  - apply Z.ltb_lt in E. inversion Hs as [|? ? Hc Hh]; subst.
    constructor; [now apply IH|].
    destruct c as [|f c]; cbn.
    + constructor. unfold newest_first. lia.
    + destruct (Z.ltb (key d) (key f)); constructor.
      * now inversion Hh.
      * unfold newest_first. lia.
  - apply Z.ltb_ge in E. constructor; [exact Hs|]. now constructor.
Qed.

Lemma sort_desc_sorted (c : list D) : Sorted desc (Mongo.sort_desc key c).
Proof.
  induction c as [|d c IH]; cbn; [constructor | now apply insert_desc_sorted].
Qed.
End Sorting.

Lemma Sorted_map {A B} (R : A -> A -> Prop) (S : B -> B -> Prop) (f : A -> B)
    (l : list A) :
  (forall a b, R a b -> S (f a) (f b)) -> Sorted R l -> Sorted S (List.map f l).
Proof.
  intros HRS. induction 1 as [|a l Hs IH Hh]; cbn; constructor; [exact IH|].
  destruct Hh; cbn; constructor. now apply HRS.
Qed.

Section Listing.
Context {regex : RegexEngine}.
Variables (q tag : option string).

Lemma truthy_opt_Some (o : option string) (s : string) :
  o = Some s -> s <> "" -> truthy_opt o = true /\ unwrap o = s.
Proof.
  intros -> Hne. cbn. unfold truthy_str. apply String.eqb_neq in Hne.
  now rewrite Hne.
Qed.

Lemma existsb_eqb_In (t : string) (l : list string) :
  List.existsb (String.eqb t) l = true -> In t l.
Proof.
  intros H. apply List.existsb_exists in H as (x & Hx & He).
  apply String.eqb_eq in He. now subst.
Qed.

Lemma list_projects_query_sound (query : Project.doc -> bool) (p : Project.doc) :
  list_projects_query q tag = Ok query -> query p = true ->
  Project.visibility p = "public"
  /\ (forall pattern,
        q = Some pattern -> pattern <> "" ->
        exists m,
          regex_compile pattern "i" = Some m
          /\ (m (Project.title p) = true \/ m (Project.description p) = true
              \/ exists t, In t (Project.tags p) /\ m t = true))
  /\ (forall t, tag = Some t -> t <> "" -> In t (Project.tags p)).
Proof.
  unfold list_projects_query. intros Hq Hp.
  assert (Hshape : exists q_cond,
    (if truthy_opt q then
       match regex_compile (unwrap q) "i" with
       | Some m =>
           Ok (fun p : Project.doc =>
                 (m (Project.title p) || m (Project.description p)
                  || List.existsb m (Project.tags p))%bool)
       | None => Raise OperationFailure
       end
     else Ok (fun _ => true)) = Ok q_cond
    /\ (String.eqb (Project.visibility p) "public" && q_cond p
        && (if truthy_opt tag
            then fun p : Project.doc =>
                   List.existsb (String.eqb (unwrap tag)) (Project.tags p)
            else fun _ => true) p)%bool = true).
  { destruct (if truthy_opt q then _ else _) as [q_cond|e];
      [|discriminate Hq].
    exists q_cond. split; [reflexivity|]. cbn [rbind] in Hq.
    injection Hq as <-. exact Hp. }
  destruct Hshape as (q_cond & Hc & Hall).
  apply andb_prop in Hall as [Hall Htag].
  apply andb_prop in Hall as [Hvis Hqc].
  split; [now apply String.eqb_eq|]. split.
  - intros pattern Hpat Hne.
    destruct (truthy_opt_Some q pattern Hpat Hne) as [Ht Hu].
    rewrite Ht, Hu in Hc.
    destruct (regex_compile pattern "i") as [m|]; [|discriminate Hc].
    injection Hc as <-. exists m. split; [reflexivity|].
    apply orb_prop in Hqc as [Hqc | Hqc]; [apply orb_prop in Hqc; tauto|].
    right. right. apply List.existsb_exists in Hqc as (t & Ht' & Hm). eauto.
  - intros t Htg Hne.
    destruct (truthy_opt_Some tag t Htg Hne) as [Ht Hu].
    rewrite Ht, Hu in Htag. now apply existsb_eqb_In.
Qed.

Lemma list_projects_total (w : World) :
  (truthy_opt q = true -> exists m, regex_compile (unwrap q) "i" = Some m) ->
  exists items, list_projects q tag w = Ok items.
Proof.
  intros H. unfold list_projects, list_projects_query.
  destruct (truthy_opt q); [|cbn; eauto].
  destruct (H eq_refl) as [m ->]. cbn. eauto.
Qed.

Lemma list_projects_items (w : World) (items : list ProjectOut.t) :
  list_projects q tag w = Ok items ->
  exists query,
    list_projects_query q tag = Ok query
    /\ items
       = List.map project_out
           (Mongo.sort_desc Project.created_at
              (Mongo.find query (projects w))).
Proof.
  unfold list_projects.
  destruct (list_projects_query q tag) as [query|e]; [|discriminate].
  cbn [rbind]. intros [= <-]. eauto.
Qed.
Lemma list_projects_query_literal (query : Project.doc -> bool)
    (p : Project.doc) (pattern : string) :
  regex_literal_law regex ->
  list_projects_query q tag = Ok query -> query p = true ->
  q = Some pattern -> pattern <> "" -> literal pattern = true ->
  ascii_fields p = true ->
  contains_ci pattern (Project.title p) = true
  \/ contains_ci pattern (Project.description p) = true
  \/ exists t, In t (Project.tags p) /\ contains_ci pattern t = true.
Proof.
  intros Hlaw Hq Hp Hpat Hne Hlit Hascii.
  destruct (list_projects_query_sound query p Hq Hp) as (_ & Hm & _).
  destruct (Hm pattern Hpat Hne) as (m & Hc & Hmatch).
  destruct (Hlaw pattern Hlit) as (m' & Hc' & Hci).
  rewrite Hc in Hc'. injection Hc' as <-.
  unfold ascii_fields in Hascii.
  apply andb_prop in Hascii as [Hascii Htags].
  apply andb_prop in Hascii as [Htitle Hdesc].
  destruct Hmatch as [H | [H | (t & Hin & H)]].
  - left. now rewrite <- (Hci _ Htitle).
  - right. left. now rewrite <- (Hci _ Hdesc).
  - right. right. exists t. split; [exact Hin|].
    rewrite <- Hci; [exact H|].
    now apply (proj1 (List.forallb_forall _ _) Htags).
Qed.

Lemma list_projects_literal_total (w : World) (pattern : string) :
  regex_literal_law regex -> q = Some pattern -> literal pattern = true ->
  exists items, list_projects q tag w = Ok items.
Proof.
  intros Hlaw Hq Hlit. apply list_projects_total. intros _.
  destruct (Hlaw pattern Hlit) as (m & Hc & _). rewrite Hq. cbn [unwrap].
  eauto.
Qed.
End Listing.

(** The reference engine searches a literal pattern as a case-insensitive
    substring. *)
Lemma literal_no_meta (pattern : string) :
  List.existsb regex_meta (list_ascii_of_string pattern) = false ->
  List.existsb Reference.is_meta (list_ascii_of_string pattern) = false
  /\ occurs "." pattern = false.
Proof.
  induction pattern as [|c pattern IH]; [now split|].
  cbn [list_ascii_of_string List.existsb occurs]. intros H.
  apply orb_false_elim in H as [Hc Hrest].
  destruct (IH Hrest) as [-> ->]. unfold Reference.is_meta. rewrite Hc.
  split; [reflexivity|]. rewrite orb_false_r. apply Ascii.eqb_neq.
  intros ->. discriminate Hc.
Qed.

Lemma reference_regex_literal : regex_literal_law Reference.regex.
Proof.
  intros pattern Hlit. unfold literal in Hlit.
  apply andb_prop in Hlit as [_ Hmeta]. apply negb_true_iff in Hmeta.
  destruct (literal_no_meta pattern Hmeta) as [H1 H2].
  exists (contains_ci pattern). split; [|reflexivity].
  unfold regex_compile, Reference.regex. now rewrite H1, H2.
Qed.

(** C7, as amended. [list_projects] returns only stored projects whose
    visibility is [public]; when [q] is given and not empty, only projects
    whose title, description or some tag is matched by [q] read as a regular
    expression with the option [i]; when [tag] is given and not empty, only
    projects whose tags contain it; both conditions at once when both are
    given; newest [created_at] first. It returns whenever [q] is a regular
    expression or is not given. Over an engine that searches a literal
    pattern as a case-insensitive substring, and for a [q] of ASCII
    characters none of which is a metacharacter, it returns, and every
    project returned whose title, description and tags are ASCII contains
    [q], in any letter case, in its title, its description or one of its
    tags. *)
Theorem list_projects_sound :
  forall {regex : RegexEngine} (q tag : option string) (w : World),
    ((truthy_opt q = true -> exists m, regex_compile (unwrap q) "i" = Some m) ->
     exists items, list_projects q tag w = Ok items)
    /\ (forall items,
          list_projects q tag w = Ok items ->
          Sorted (newest_first ProjectOut.created_at) items
          /\ forall item,
               In item items ->
               exists p,
                 In p (projects w) /\ item = project_out p
                 /\ Project.visibility p = "public"
                 /\ (forall pattern,
                       q = Some pattern -> pattern <> "" ->
                       exists m,
                         regex_compile pattern "i" = Some m
                         /\ (m (Project.title p) = true
                             \/ m (Project.description p) = true
                             \/ exists t, In t (Project.tags p) /\ m t = true))
                 /\ (forall t,
                       tag = Some t -> t <> "" -> In t (Project.tags p)))
    /\ (regex_literal_law regex ->
        forall pattern,
          q = Some pattern -> pattern <> "" -> literal pattern = true ->
          exists items,
            list_projects q tag w = Ok items
            /\ forall item,
                 In item items ->
                 exists p,
                   In p (projects w) /\ item = project_out p
                   /\ (ascii_fields p = true ->
                       contains_ci pattern (Project.title p) = true
                       \/ contains_ci pattern (Project.description p) = true
                       \/ exists t,
                            In t (Project.tags p)
                            /\ contains_ci pattern t = true)).
Proof.
  intros regex q tag w. split; [apply list_projects_total|]. split.
  - intros items Hl.
    destruct (list_projects_items q tag w items Hl) as (query & Hq & ->).
    split.
    + apply Sorted_map with (R := newest_first Project.created_at);
        [intros a b H; exact H | apply sort_desc_sorted].
    + intros item Hin. apply in_map_iff in Hin as (p & <- & Hp).
      apply sort_desc_In in Hp. apply filter_In in Hp as [Hp Hquery].
      exists p. split; [exact Hp|]. split; [reflexivity|].
      now apply (list_projects_query_sound q tag query).
  - intros Hlaw pattern Hpat Hne Hlit.
    destruct (list_projects_literal_total q tag w pattern Hlaw Hpat Hlit)
      as [items Hl].
    exists items. split; [exact Hl|].
    destruct (list_projects_items q tag w items Hl) as (query & Hq & ->).
    intros item Hin. apply in_map_iff in Hin as (p & <- & Hp).
    apply sort_desc_In in Hp. apply filter_In in Hp as [Hp Hquery].
    exists p. split; [exact Hp|]. split; [reflexivity|].
    now apply (list_projects_query_literal q tag query).
Qed.

(** The public projects tagged [web] that match [PLAN], newest first; each
    has [plan] in its title. *)
Lemma list_projects_sound_witness :
  list_projects (regex := Reference.regex) (Some "PLAN") (Some "web")
    Sample.catalog
  = Ok [project_out Sample.forge; project_out Sample.garden]
  /\ Sorted (newest_first ProjectOut.created_at)
       [project_out Sample.forge; project_out Sample.garden]
  /\ regex_literal_law Reference.regex
  /\ exists items,
       list_projects (regex := Reference.regex) (Some "PLAN") (Some "web")
         Sample.catalog = Ok items
       /\ forall item,
            In item items ->
            exists p,
              In p (projects Sample.catalog) /\ item = project_out p
              /\ (ascii_fields p = true ->
                  contains_ci "PLAN" (Project.title p) = true
                  \/ contains_ci "PLAN" (Project.description p) = true
                  \/ exists t,
                       In t (Project.tags p) /\ contains_ci "PLAN" t = true).
Proof.
  destruct (list_projects_sound (regex := Reference.regex) (Some "PLAN")
              (Some "web") Sample.catalog) as (_ & H & Hlit).
  split; [reflexivity|]. split.
  - apply (H [project_out Sample.forge; project_out Sample.garden]).
    reflexivity.
  - split; [exact reference_regex_literal|].
    apply (Hlit reference_regex_literal "PLAN");
      [reflexivity | discriminate | reflexivity].
Defined.

(** C7 as stated fails: with [q = "."] the garden project is listed, though
    neither its title, nor its description, nor any of its tags contains a
    dot. *)
Lemma list_projects_regex_dot :
  list_projects (regex := Reference.regex) (Some ".") None Sample.world
  = Ok [project_out Sample.garden]
  /\ contains_ci "." (Project.title Sample.garden) = false
  /\ contains_ci "." (Project.description Sample.garden) = false
  /\ List.existsb (contains_ci ".") (Project.tags Sample.garden) = false.
Proof. repeat split. Qed.

(** * Further properties *)

(** ** What a call does to the store *)

Section Effects.
Context {codec : JwsCodec} {crypt : CryptContext}.
Variables (JWT_SECRET UPLOAD_DIR : string).

Lemma update_project_effect project_id payload user now w :
  snd (update_project project_id payload user now w) = w
  \/ exists o p,
       Bson.ObjectId project_id = Ok o
       /\ Mongo.find_one (project_by_id o) (projects w) = Some p
       /\ Project.owner_id p = AuthUser.id user
       /\ snd (update_project project_id payload user now w)
          = set_projects
              (Mongo.update_one (project_by_id o) (set_project payload now)) w.
Proof.
  destruct (Bson.ObjectId project_id) as [o|e] eqn:Eo.
  - destruct (Mongo.find_one (project_by_id o) (projects w)) as [p|] eqn:Ef.
    + destruct (String.eqb_spec (Project.owner_id p) (AuthUser.id user))
        as [He|Hne].
      * right. exists o, p. repeat split; try assumption.
        now rewrite (update_project_owner w project_id o payload user now Eo p).
      * left.
        now rewrite (update_project_forbidden w project_id o payload user now
                       Eo p).
    + left. now rewrite (update_project_not_found w project_id o).
  - left. unfold update_project. handler. now rewrite Eo.
Qed.

Lemma delete_project_effect project_id user w :
  snd (delete_project project_id user w) = w
  \/ exists o p,
       Bson.ObjectId project_id = Ok o
       /\ Mongo.find_one (project_by_id o) (projects w) = Some p
       /\ Project.owner_id p = AuthUser.id user
       /\ delete_project project_id user w
          = (Ok true,
             set_collaborationrequest
               (Mongo.delete_many
                  (fun r =>
                     String.eqb (CollaborationRequest.project_id r) project_id))
               (set_savedproject
                  (Mongo.delete_many
                     (fun s =>
                        String.eqb (SavedProject.project_id s) project_id))
                  (set_projects (Mongo.delete_one (project_by_id o)) w))).
Proof.
  destruct (Bson.ObjectId project_id) as [o|e] eqn:Eo.
  - destruct (Mongo.find_one (project_by_id o) (projects w)) as [p|] eqn:Ef.
    + destruct (String.eqb_spec (Project.owner_id p) (AuthUser.id user))
        as [He|Hne].
      * right. exists o, p. repeat split; try assumption.
        now apply (delete_project_owner w project_id o user Eo p).
      * left. now rewrite (delete_project_forbidden w project_id o user Eo p).
    + left. now rewrite (delete_project_not_found w project_id o).
  - left. unfold delete_project. handler. now rewrite Eo.
Qed.

Lemma apply_to_project_effect {fs : FileSystem} project_id message
    portfolio_url document user file_id new_id now w :
  let path :=
    path_join UPLOAD_DIR
      (Bson.str file_id ++ "_" ++ UploadFile.filename document) in
  snd (apply_to_project UPLOAD_DIR project_id message portfolio_url document
         user file_id new_id now w) = w
  \/ snd (apply_to_project UPLOAD_DIR project_id message portfolio_url
            document user file_id new_id now w)
     = set_collaborationrequest
         (Mongo.insert_one
            {| CollaborationRequest._id := new_id;
               CollaborationRequest.project_id := project_id;
               CollaborationRequest.applicant_id := AuthUser.id user;
               CollaborationRequest.message := message;
               CollaborationRequest.portfolio_url := portfolio_url;
               CollaborationRequest.document_path := path;
               CollaborationRequest.status := "pending";
               CollaborationRequest.created_at := Bson.datetime now |})
         (write_file path (UploadFile.content document) w).
Proof.
  intros path.
  destruct (Bson.ObjectId project_id) as [o|e] eqn:Eo.
  - rewrite (apply_to_project_eq _ _ _ _ _ _ _ _ o _ _ Eo).
    case_find; [|now left].
    destruct (String.eqb (Project.visibility d) "private"); [now left|].
    cbv zeta. fold path.
    destruct (open_wb path (files w)); [now left | now right].
  - left. unfold apply_to_project. handler. now rewrite Eo.
Qed.

Lemma update_status_effect request_id status user w :
  snd (update_status request_id status user w) = w
  \/ exists rid,
       In status valid_statuses
       /\ update_status request_id status user w
          = (Ok true,
             set_collaborationrequest
               (Mongo.update_one (request_by_id rid) (set_status status)) w).
Proof.
  unfold update_status. handler.
  destruct (Bson.ObjectId request_id) as [rid|e]; [|now left].
  cbn -[List.existsb]. case_find; [|now left].
  destruct (Bson.ObjectId (CollaborationRequest.project_id d)) as [o|e];
    [|now left].
  cbn -[List.existsb]. case_find; [|now left].
  destruct (negb (String.eqb (Project.owner_id d0) (AuthUser.id user)));
    [now left|].
  destruct (List.existsb (String.eqb status) valid_statuses) eqn:Ev;
    cbn [negb]; [|now left].
  right. exists rid. split; [now apply valid_status_In | reflexivity].
Qed.

Lemma create_project_eq payload user new_id now w :
  create_project payload user new_id now w
  = (Ok (project_out
           {| Project._id := new_id;
              Project.title := ProjectIn.title payload;
              Project.description := ProjectIn.description payload;
              Project.skills_required := ProjectIn.skills_required payload;
              Project.expected_contribution :=
                ProjectIn.expected_contribution payload;
              Project.duration := ProjectIn.duration payload;
              Project.tags := ProjectIn.tags payload;
              Project.visibility := ProjectIn.visibility payload;
              Project.owner_id := AuthUser.id user;
              Project.created_at := now;
              Project.updated_at := None |}),
     set_projects
       (Mongo.insert_one
          {| Project._id := new_id;
             Project.title := ProjectIn.title payload;
             Project.description := ProjectIn.description payload;
             Project.skills_required := ProjectIn.skills_required payload;
             Project.expected_contribution :=
               ProjectIn.expected_contribution payload;
             Project.duration := ProjectIn.duration payload;
             Project.tags := ProjectIn.tags payload;
             Project.visibility := ProjectIn.visibility payload;
             Project.owner_id := AuthUser.id user;
             Project.created_at := Bson.datetime now;
             Project.updated_at := None |}) w).
Proof. reflexivity. Qed.

Lemma signup_effect payload new_id salt now issued w :
  snd (signup JWT_SECRET payload new_id salt now issued w) = w
  \/ exists hashed,
       snd (signup JWT_SECRET payload new_id salt now issued w)
       = set_users
           (Mongo.insert_one
              (stored_user (signup_doc payload new_id hashed now))) w.
Proof.
  unfold signup. handler. case_find; [now left|].
  destruct (hash_password salt (SignUpRequest.password payload)) as [h|e];
    [right; now exists h | now left].
Qed.

Lemma update_me_effect payload user w :
  snd (update_me payload user w) = w
  \/ exists o n,
       snd (update_me payload user w)
       = set_users (Mongo.update_one (user_by_id o) (set_name n)) w.
Proof.
  rewrite update_me_eq.
  destruct (Bson.ObjectId (AuthUser.id user)) as [o|e]; [|now left].
  cbn zeta. destruct (ProfileUpdate.name payload) as [n|].
  - right. exists o, n. now case_find.
  - left. now case_find.
Qed.
End Effects.

(** ** Fields that never change *)

(** X1. Whatever its arguments and outcome, [update_project] leaves the id,
    owner and creation date of every stored project, and every other
    collection, as they were: a project cannot change hands. *)
Theorem update_project_keeps_owner :
  forall (project_id : string) (payload : ProjectIn.t) (user : AuthUser.t)
         (now : Z) (w : World),
    let w' := snd (update_project project_id payload user now w) in
    List.map project_frame (projects w') = List.map project_frame (projects w)
    /\ users w' = users w
    /\ savedproject w' = savedproject w
    /\ collaborationrequest w' = collaborationrequest w
    /\ files w' = files w.
Proof.
  intros project_id payload user now w w'. unfold w'.
  destruct (update_project_effect project_id payload user now w)
    as [-> | (o & p & _ & _ & _ & ->)]; [now repeat split|].
  cbn. repeat split. now apply map_update_one.
Qed.

(** X2. Whatever its arguments and outcome, [update_status] changes nothing
    of a stored request but its status, adds or removes no request, and
    leaves every other collection as it was. *)
Theorem update_status_changes_status_only :
  forall (request_id status : string) (user : AuthUser.t) (w : World),
    let w' := snd (update_status request_id status user w) in
    List.map request_frame (collaborationrequest w')
    = List.map request_frame (collaborationrequest w)
    /\ users w' = users w
    /\ projects w' = projects w
    /\ savedproject w' = savedproject w
    /\ files w' = files w.
Proof.
  intros request_id status user w w'. unfold w'.
  destruct (update_status_effect request_id status user w)
    as [-> | (rid & _ & ->)]; [now repeat split|].
  cbn. repeat split. now apply map_update_one.
Qed.

(** ** Invariants of the requests *)

Section RequestInvariants.
Context {codec : JwsCodec} {crypt : CryptContext}.
Variables (JWT_SECRET UPLOAD_DIR : string).

Lemma Forall_update_one {D} (P : D -> Prop) (f : D -> bool) (g : D -> D)
    (c : list D) :
  (forall d, P d -> P (g d)) -> Forall P c -> Forall P (Mongo.update_one f g c).
Proof.
  intros Hg. induction 1 as [|d c Hd Hc IH]; cbn; [constructor|].
  destruct (f d); constructor; auto.
Qed.

Lemma Forall_delete_many {D} (P : D -> Prop) (f : D -> bool) (c : list D) :
  Forall P c -> Forall P (Mongo.delete_many f c).
Proof.
  unfold Mongo.delete_many. induction 1 as [|d c Hd Hc IH]; cbn; [constructor|].
  destruct (f d); cbn; [exact IH | now constructor].
Qed.

Lemma append_nonempty (a b : string) : b <> "" -> (a ++ b)%string <> "".
Proof.
  intros Hb. destruct a; [exact Hb|]. discriminate.
Qed.

Lemma path_join_nonempty (a b : string) : b <> "" -> path_join a b <> "".
Proof.
  intros Hb. unfold path_join.
  destruct (starts_with_slash b); [exact Hb|].
  destruct (String.eqb a "" || ends_with_slash a)%bool.
  - now apply append_nonempty.
  - apply append_nonempty. discriminate.
Qed.

Lemma upload_path_nonempty (file_id : Bson.oid) (filename : string) :
  path_join UPLOAD_DIR (Bson.str file_id ++ "_" ++ filename) <> "".
Proof. apply path_join_nonempty, append_nonempty. discriminate. Qed.

(** The four ways a call touches the requests and the files. *)
Lemma step_requests w w' :
  step JWT_SECRET UPLOAD_DIR w w' ->
  (collaborationrequest w' = collaborationrequest w /\ files w' = files w)
  \/ (exists rid s,
        In s valid_statuses
        /\ collaborationrequest w'
           = Mongo.update_one (request_by_id rid) (set_status s)
               (collaborationrequest w)
        /\ files w' = files w)
  \/ (exists f,
        collaborationrequest w' = Mongo.delete_many f (collaborationrequest w)
        /\ files w' = files w)
  \/ (exists r content,
        CollaborationRequest.status r = "pending"
        /\ CollaborationRequest.document_path r <> ""
        /\ collaborationrequest w'
           = Mongo.insert_one r (collaborationrequest w)
        /\ files w' = <[CollaborationRequest.document_path r := content]> (files w)).
Proof.
  intros Hs.
  destruct Hs as [payload new_id salt now issued | payload user new_id now
                 | project_id payload user now | project_id user
                 | project_id user new_id now
                 | fs project_id message portfolio_url document user file_id
                     new_id now
                 | request_id status user | payload user].
  - left. now destruct (signup_effect JWT_SECRET payload new_id salt now issued w)
      as [-> | [h ->]].
  - left. now rewrite create_project_eq.
  - left. now destruct (update_project_effect project_id payload user now w)
      as [-> | (o & p & _ & _ & _ & ->)].
  - destruct (delete_project_effect project_id user w)
      as [-> | (o & p & _ & _ & _ & ->)]; [now left|].
    right. right. left. eexists. split; reflexivity.
  - left. rewrite save_project_eq. cbn [snd]. now case_find.
  - destruct (apply_to_project_effect UPLOAD_DIR project_id message
                portfolio_url document user file_id new_id now w)
      as [-> | ->]; [now left|].
    right. right. right. eexists. exists (UploadFile.content document).
    split; [|split; [|split]]; [| |reflexivity|reflexivity];
      [reflexivity | apply upload_path_nonempty].
  - destruct (update_status_effect request_id status user w)
      as [-> | (rid & Hin & ->)]; [now left|].
    right. left. exists rid, status. now repeat split.
  - left. now destruct (update_me_others payload user w) as (_ & _ & -> & ->).
Qed.

Lemma reachable_statuses w :
  reachable JWT_SECRET UPLOAD_DIR w ->
  Forall (fun r => In (CollaborationRequest.status r) valid_statuses)
    (collaborationrequest w).
Proof.
  induction 1 as [|w w' _ IH Hs]; [constructor|].
  destruct (step_requests w w' Hs)
    as [[-> _] | [(rid & s & Hin & -> & _) | [(f & -> & _)
       | (r & content & Hst & _ & -> & _)]]].
  - exact IH.
  - apply Forall_update_one; [|exact IH]. intros d _. exact Hin.
  - now apply Forall_delete_many.
  - apply Forall_app. split; [exact IH|]. repeat constructor.
    rewrite Hst. cbn. tauto.
Qed.

Lemma reachable_documents w :
  reachable JWT_SECRET UPLOAD_DIR w ->
  Forall (fun r =>
            CollaborationRequest.document_path r <> ""
            /\ is_Some (files w !! CollaborationRequest.document_path r))
    (collaborationrequest w).
Proof.
  induction 1 as [|w w' _ IH Hs]; [constructor|].
  destruct (step_requests w w' Hs)
    as [[-> ->] | [(rid & s & Hin & -> & ->) | [(f & -> & ->)
       | (r & content & Hst & Hne & -> & ->)]]].
  - exact IH.
  - apply Forall_update_one; [|exact IH]. intros d Hd. exact Hd.
  - now apply Forall_delete_many.
  - apply Forall_app. split.
    + eapply Forall_impl; [exact IH|]. intros d [Hd1 Hd2]. split; [exact Hd1|].
      rewrite lookup_insert. case_decide; [eauto | exact Hd2].
    + repeat constructor; [exact Hne|]. rewrite lookup_insert_eq. eauto.
Qed.
End RequestInvariants.

(** X3. In every store the service can reach, the status of every stored
    request is one of [pending], [accepted] and [rejected]. *)
Theorem request_status_always_valid :
  forall {codec : JwsCodec} {crypt : CryptContext}
         (JWT_SECRET UPLOAD_DIR : string) (w : World)
         (r : CollaborationRequest.doc),
    reachable JWT_SECRET UPLOAD_DIR w ->
    In r (collaborationrequest w) ->
    In (CollaborationRequest.status r) valid_statuses.
Proof.
  intros codec crypt JWT_SECRET UPLOAD_DIR w r Hr Hin.
  pose proof (reachable_statuses JWT_SECRET UPLOAD_DIR w Hr) as H.
  rewrite List.Forall_forall in H. now apply H.
Qed.

Lemma sample_applied_reachable :
  reachable (codec := Reference.codec) (crypt := Reference.crypt)
    Sample.secret "uploads" Sample.applied.
Proof.
  eapply reachable_step; [eapply reachable_step; [apply reachable_empty|]|].
  - apply (step_create_project Sample.secret "uploads" empty_world Sample.edit
             Sample.alice Sample.garden_id 200500).
  - apply (step_apply_to_project Sample.secret "uploads" Sample.started
             Reference.fs (Bson.str Sample.garden_id) "hello"
             "https://bob.example.com" Sample.cv Sample.bob Sample.file_id
             Sample.request_id 800250).
Defined.

(** Bob's application, once stored, is pending. *)
Lemma request_status_always_valid_witness :
  exists r,
    collaborationrequest Sample.applied = [r]
    /\ In (CollaborationRequest.status r) valid_statuses.
Proof.
  eexists. split; [reflexivity|].
  apply (request_status_always_valid (codec := Reference.codec)
           (crypt := Reference.crypt) Sample.secret "uploads" Sample.applied).
  - exact sample_applied_reachable.
  - left. reflexivity.
Defined.

(** ** Downloading a document *)

Section Download.
Variables (request_id : string) (user : AuthUser.t) (w : World).
Variables (rid o : Bson.oid) (r : CollaborationRequest.doc) (p : Project.doc).
Hypothesis request_oid : Bson.ObjectId request_id = Ok rid.
Hypothesis request_found :
  Mongo.find_one (request_by_id rid) (collaborationrequest w) = Some r.
Hypothesis project_oid :
  Bson.ObjectId (CollaborationRequest.project_id r) = Ok o.
Hypothesis project_found :
  Mongo.find_one (project_by_id o) (projects w) = Some p.

Lemma download_document_eq :
  download_document request_id user w
  = if negb (String.eqb (Project.owner_id p) (AuthUser.id user))
    then Raise (HTTPException 403 "Not authorized")
    else
      if (negb (truthy_str (CollaborationRequest.document_path r))
          || negb (path_exists (CollaborationRequest.document_path r) w))%bool
      then Raise (HTTPException 404 "File not found")
      else
        Ok {| FileResponse.path := CollaborationRequest.document_path r;
              FileResponse.filename :=
                basename (CollaborationRequest.document_path r) |}.
Proof.
  unfold download_document.
  rewrite request_oid. cbn [rbind]. rewrite request_found, project_oid.
  cbn [rbind]. now rewrite project_found.
Qed.

Lemma download_document_forbidden :
  Project.owner_id p <> AuthUser.id user ->
  download_document request_id user w
  = Raise (HTTPException 403 "Not authorized").
Proof.
  intros Hne. rewrite download_document_eq.
  apply String.eqb_neq in Hne. now rewrite Hne.
Qed.

Lemma download_document_stored content :
  Project.owner_id p = AuthUser.id user ->
  CollaborationRequest.document_path r <> "" ->
  files w !! CollaborationRequest.document_path r = Some content ->
  exists response,
    download_document request_id user w = Ok response
    /\ FileResponse.path response = CollaborationRequest.document_path r
    /\ FileResponse.filename response
       = basename (CollaborationRequest.document_path r)
    /\ file_body response w = Some content.
Proof.
  intros He Hne Hf. rewrite download_document_eq.
  apply String.eqb_eq in He. rewrite He. cbn [negb].
  unfold truthy_str, path_exists. apply String.eqb_neq in Hne.
  rewrite Hne, Hf. cbn [negb orb]. eexists. split; [reflexivity|].
  now repeat split.
Qed.
End Download.

(** X4. In every store the service can reach, the owner of a request's
    parent project can download the request's document: the file named by
    the request is in the upload store and the response streams it; anyone
    else is refused with 403. *)
Theorem download_document_owner_succeeds :
  forall {codec : JwsCodec} {crypt : CryptContext}
         (JWT_SECRET UPLOAD_DIR request_id : string) (user : AuthUser.t)
         (w : World) (rid o : Bson.oid) (r : CollaborationRequest.doc)
         (p : Project.doc),
    reachable JWT_SECRET UPLOAD_DIR w ->
    Bson.ObjectId request_id = Ok rid ->
    Mongo.find_one (request_by_id rid) (collaborationrequest w) = Some r ->
    Bson.ObjectId (CollaborationRequest.project_id r) = Ok o ->
    Mongo.find_one (project_by_id o) (projects w) = Some p ->
    (Project.owner_id p = AuthUser.id user ->
     exists response content,
       download_document request_id user w = Ok response
       /\ FileResponse.path response = CollaborationRequest.document_path r
       /\ files w !! CollaborationRequest.document_path r = Some content
       /\ file_body response w = Some content)
    /\ (Project.owner_id p <> AuthUser.id user ->
        download_document request_id user w
        = Raise (HTTPException 403 "Not authorized")).
Proof.
  intros codec crypt JWT_SECRET UPLOAD_DIR request_id user w rid o r p Hr Hrid
    Hfr Ho Hfp.
  split; [|now apply (download_document_forbidden request_id user w rid o r p)].
  intros Hown.
  pose proof (reachable_documents JWT_SECRET UPLOAD_DIR w Hr) as H.
  rewrite List.Forall_forall in H.
  destruct (H r) as [Hne [content Hc]]; [now apply find_one_some in Hfr|].
  destruct (download_document_stored request_id user w rid o r p Hrid Hfr Ho
              Hfp content Hown Hne Hc) as (response & Hd & Hp & _ & Hb).
  exists response, content. now repeat split.
Qed.

(** Alice downloads the document of Bob's application; Bob may not. *)
Lemma download_document_owner_succeeds_witness :
  (exists response,
      download_document (Bson.str Sample.request_id) Sample.alice
        Sample.applied = Ok response
      /\ file_body response Sample.applied = Some [x25; x50; x44; x46])
  /\ download_document (Bson.str Sample.request_id) Sample.bob Sample.applied
     = Raise (HTTPException 403 "Not authorized").
Proof.
  destruct (download_document_owner_succeeds (codec := Reference.codec)
              (crypt := Reference.crypt) Sample.secret "uploads"
              (Bson.str Sample.request_id) Sample.alice Sample.applied
              Sample.request_id Sample.garden_id
              {| CollaborationRequest._id := Sample.request_id;
                 CollaborationRequest.project_id := Bson.str Sample.garden_id;
                 CollaborationRequest.applicant_id := Bson.str Sample.bob_id;
                 CollaborationRequest.message := "hello";
                 CollaborationRequest.portfolio_url := "https://bob.example.com";
                 CollaborationRequest.document_path :=
                   "uploads/654f1d0000000000000000f2_cv.pdf";
                 CollaborationRequest.status := "pending";
                 CollaborationRequest.created_at := 800000 |}
              Sample.planted
              sample_applied_reachable eq_refl eq_refl eq_refl)
    as [Hown _].
  2: {
    destruct (Hown eq_refl) as (response & content & Hd & _ & Hc & Hb).
    split.
    - exists response. split; [exact Hd|]. rewrite Hb, <- Hc. reflexivity.
    - reflexivity. }
  reflexivity.
Defined.

(** ** Names of uploaded files *)

Lemma append_cons (c : ascii) (a b : string) :
  (String c a ++ b)%string = String c (a ++ b).
Proof. reflexivity. Qed.

Lemma append_inj_l (a b c : string) : (a ++ b)%string = (a ++ c)%string -> b = c.
Proof.
  induction a as [|x a IH]; [trivial|]. rewrite !append_cons.
  intros [= H]. now apply IH.
Qed.

Lemma append_prefix_inj (x y u v : string) :
  String.length x = String.length y ->
  (x ++ u)%string = (y ++ v)%string -> x = y.
Proof.
  revert y. induction x as [|c x IH]; intros [|d y]; try discriminate.
  - reflexivity.
  - cbn [String.length]. rewrite !append_cons. intros [= Hl] [= -> H].
    f_equal. now apply IH.
Qed.

Lemma hexlify_inj (a b : list byte) : Bson.hexlify a = Bson.hexlify b -> a = b.
Proof.
  intros H. apply (f_equal Bson.fromhex) in H.
  rewrite !fromhex_hexlify in H. congruence.
Qed.

Lemma has_slash_hex_byte (b : byte) (s : string) :
  has_slash
    (String (Bson.hex_digit (N.div (Byte.to_N b) 16))
       (String (Bson.hex_digit (N.modulo (Byte.to_N b) 16)) s))
  = has_slash s.
Proof. destruct b; reflexivity. Qed.

Lemma has_slash_app (a b : string) :
  has_slash (a ++ b) = (has_slash a || has_slash b)%bool.
Proof.
  induction a as [|c a IH]; [reflexivity|]. rewrite append_cons.
  cbn [has_slash]. rewrite IH. now rewrite orb_assoc.
Qed.

Lemma has_slash_hexlify (bs : list byte) : has_slash (Bson.hexlify bs) = false.
Proof.
  induction bs as [|b bs IH]; [reflexivity|].
  cbn [Bson.hexlify]. now rewrite has_slash_hex_byte.
Qed.

Lemma starts_with_slash_has (s : string) :
  has_slash s = false -> starts_with_slash s = false.
Proof.
  destruct s as [|c s]; [reflexivity|]. cbn. intros H.
  now apply orb_false_elim in H as [H _].
Qed.

Lemma safe_name_no_slash (file_id : Bson.oid) (filename : string) :
  has_slash (Bson.str file_id ++ "_" ++ filename) = has_slash filename.
Proof.
  unfold Bson.str. rewrite has_slash_app, has_slash_hexlify. reflexivity.
Qed.

Lemma safe_name_relative (file_id : Bson.oid) (filename : string) :
  starts_with_slash (Bson.str file_id ++ "_" ++ filename) = false.
Proof.
  unfold Bson.str. destruct file_id as [|b bs]; [reflexivity|].
  cbn [Bson.hexlify]. rewrite append_cons. cbn [starts_with_slash].
  destruct b; reflexivity.
Qed.

Lemma basename_no_slash (s : string) : has_slash s = false -> basename s = s.
Proof.
  destruct s as [|c s]; [reflexivity|]. cbn [has_slash basename].
  intros H. apply orb_false_elim in H as [Hc Hs]. now rewrite Hs, Hc.
Qed.

Lemma basename_app_slash (a b : string) :
  has_slash b = false -> basename (a ++ "/" ++ b) = b.
Proof.
  intros Hb. induction a as [|c a IH].
  - change ("" ++ "/" ++ b)%string with (String "/" b).
    cbn [basename]. now rewrite Hb.
  - rewrite append_cons. cbn [basename].
    rewrite has_slash_app. change ("/" ++ b)%string with (String "/" b).
    cbn [has_slash Ascii.eqb Bool.eqb]. rewrite orb_true_r. exact IH.
Qed.

Lemma ends_with_slash_split (a : string) :
  ends_with_slash a = true -> exists a', a = (a' ++ "/")%string.
Proof.
  induction a as [|c a IH]; [discriminate|]. cbn [ends_with_slash].
  destruct a as [|d a].
  - intros H. apply Ascii.eqb_eq in H. subst c. now exists "".
  - intros H. destruct (IH H) as [a' Ha']. exists (String c a').
    rewrite append_cons. now rewrite <- Ha'.
Qed.

Lemma append_assoc (a b c : string) :
  ((a ++ b) ++ c)%string = (a ++ (b ++ c))%string.
Proof.
  induction a as [|x a IH]; [reflexivity|]. rewrite !append_cons. now rewrite IH.
Qed.

(** The name under which [FileResponse] offers an uploaded file. *)
Lemma basename_path_join (a b : string) :
  has_slash b = false -> basename (path_join a b) = b.
Proof.
  intros Hb. unfold path_join. rewrite (starts_with_slash_has _ Hb).
  destruct (String.eqb_spec a "") as [-> | Hne]; cbn [orb].
  - now apply basename_no_slash.
  - destruct (ends_with_slash a) eqn:E.
    + destruct (ends_with_slash_split a E) as [a' ->].
      rewrite append_assoc. now apply basename_app_slash.
    + now apply basename_app_slash.
Qed.

(** X5. Two uploads whose file names are drawn from different generated
    ObjectIds are stored under different paths, whatever the uploaded file
    names and the upload directory. *)
Theorem upload_paths_distinct :
  forall (UPLOAD_DIR filename1 filename2 : string) (id1 id2 : Bson.oid),
    Bson.generated id1 -> Bson.generated id2 -> id1 <> id2 ->
    path_join UPLOAD_DIR (Bson.str id1 ++ "_" ++ filename1)
    <> path_join UPLOAD_DIR (Bson.str id2 ++ "_" ++ filename2).
Proof.
  intros UPLOAD_DIR filename1 filename2 id1 id2 Hg1 Hg2 Hne Heq.
  apply Hne. unfold path_join in Heq. rewrite !safe_name_relative in Heq.
  assert (Hsafe : (Bson.str id1 ++ "_" ++ filename1)%string
                  = (Bson.str id2 ++ "_" ++ filename2)%string).
  { destruct (String.eqb UPLOAD_DIR "" || ends_with_slash UPLOAD_DIR)%bool.
    - now apply append_inj_l in Heq.
    - apply append_inj_l in Heq. now injection Heq. }
  apply append_prefix_inj in Hsafe.
  - now apply hexlify_inj.
  - unfold Bson.str. rewrite !length_hexlify.
    unfold Bson.generated in Hg1, Hg2. now rewrite Hg1, Hg2.
Qed.

Lemma upload_paths_distinct_witness :
  path_join "uploads" (Bson.str Sample.file_id ++ "_" ++ "cv.pdf")
  <> path_join "uploads" (Bson.str Sample.fresh_id ++ "_" ++ "cv.pdf").
Proof.
  apply (upload_paths_distinct "uploads" "cv.pdf" "cv.pdf" Sample.file_id
           Sample.fresh_id); [reflexivity | reflexivity | discriminate].
Defined.

(** ** From an application to its review *)

Section Applied.
Context {fs : FileSystem}.
Variables (UPLOAD_DIR project_id message portfolio_url : string).
Variables (document : UploadFile.t) (applicant : AuthUser.t).
Variables (file_id new_id o : Bson.oid) (now : Z) (w : World) (p : Project.doc).
Hypothesis well_formed : Bson.ObjectId project_id = Ok o.
Hypothesis found : Mongo.find_one (project_by_id o) (projects w) = Some p.
Hypothesis visible : Project.visibility p <> "private".

Let path : string :=
  path_join UPLOAD_DIR (Bson.str file_id ++ "_" ++ UploadFile.filename document).

Let rec : CollaborationRequest.doc :=
  {| CollaborationRequest._id := new_id;
     CollaborationRequest.project_id := project_id;
     CollaborationRequest.applicant_id := AuthUser.id applicant;
     CollaborationRequest.message := message;
     CollaborationRequest.portfolio_url := portfolio_url;
     CollaborationRequest.document_path := path;
     CollaborationRequest.status := "pending";
     CollaborationRequest.created_at := Bson.datetime now |}.

Hypothesis opened : open_wb path (files w) = None.

Lemma apply_to_project_success :
  apply_to_project UPLOAD_DIR project_id message portfolio_url document
    applicant file_id new_id now w
  = (Ok true,
     set_collaborationrequest (Mongo.insert_one rec)
       (write_file path (UploadFile.content document) w)).
Proof.
  rewrite (apply_to_project_eq _ _ _ _ _ _ _ _ o _ _ well_formed), found.
  apply String.eqb_neq in visible. rewrite visible. cbv zeta. fold path.
  now rewrite opened.
Qed.

Lemma applied_download (owner : AuthUser.t) :
  Project.owner_id p = AuthUser.id owner ->
  Bson.generated new_id ->
  Mongo.find_one (request_by_id new_id) (collaborationrequest w) = None ->
  exists response,
    download_document (Bson.str new_id) owner
      (snd (apply_to_project UPLOAD_DIR project_id message portfolio_url
              document applicant file_id new_id now w))
    = Ok response
    /\ FileResponse.path response = path
    /\ FileResponse.filename response = basename path
    /\ file_body response
         (snd (apply_to_project UPLOAD_DIR project_id message portfolio_url
                 document applicant file_id new_id now w))
       = Some (UploadFile.content document).
Proof.
  intros Hown Hgen Hfresh. rewrite apply_to_project_success. cbn [snd].
  apply (download_document_stored (Bson.str new_id) owner _ new_id o rec p).
  - now apply ObjectId_str.
  - cbn [collaborationrequest set_collaborationrequest write_file].
    apply find_one_insert_one; [exact Hfresh | apply oid_eqb_refl].
  - exact well_formed.
  - exact found.
  - exact Hown.
  - apply upload_path_nonempty.
  - cbn [files set_collaborationrequest write_file
           CollaborationRequest.document_path rec].
    apply lookup_insert_eq.
Qed.
End Applied.

(** X6. After an application to a project that is not private, and whose
    file could be opened, the project's owner downloads, under the id of the
    new request, exactly the bytes that were uploaded; when the uploaded file
    name has no slash the download is offered under the name made of the
    fresh ObjectId, an underscore and the uploaded name. *)
Theorem apply_then_download :
  forall {fs : FileSystem}
         (UPLOAD_DIR project_id message portfolio_url : string)
         (document : UploadFile.t) (applicant owner : AuthUser.t)
         (file_id new_id o : Bson.oid) (now : Z) (w : World) (p : Project.doc),
    Bson.ObjectId project_id = Ok o ->
    Mongo.find_one (project_by_id o) (projects w) = Some p ->
    Project.visibility p <> "private" ->
    open_wb
      (path_join UPLOAD_DIR
         (Bson.str file_id ++ "_" ++ UploadFile.filename document))
      (files w) = None ->
    Project.owner_id p = AuthUser.id owner ->
    Bson.generated new_id ->
    Mongo.find_one (request_by_id new_id) (collaborationrequest w) = None ->
    let w' :=
      snd (apply_to_project UPLOAD_DIR project_id message portfolio_url
             document applicant file_id new_id now w) in
    exists response,
      download_document (Bson.str new_id) owner w' = Ok response
      /\ file_body response w' = Some (UploadFile.content document)
      /\ (has_slash (UploadFile.filename document) = false ->
          FileResponse.filename response
          = (Bson.str file_id ++ "_" ++ UploadFile.filename document)%string).
Proof.
  intros fs UPLOAD_DIR project_id message portfolio_url document applicant
    owner file_id new_id o now w p Ho Hf Hv Hopen Hown Hg Hfresh w'.
  destruct (applied_download UPLOAD_DIR project_id message portfolio_url
              document applicant file_id new_id o now w p Ho Hf Hv Hopen owner
              Hown Hg Hfresh) as (response & Hd & Hp & Hn & Hb).
  exists response. split; [exact Hd|]. split; [exact Hb|].
  intros Hs. rewrite Hn. apply basename_path_join.
  now rewrite safe_name_no_slash.
Qed.

(** Alice downloads what Bob uploaded, under the stored name. *)
Lemma apply_then_download_witness :
  exists response,
    download_document (Bson.str Sample.request_id) Sample.alice Sample.applied
    = Ok response
    /\ file_body response Sample.applied = Some [x25; x50; x44; x46]
    /\ FileResponse.filename response = "654f1d0000000000000000f2_cv.pdf".
Proof.
  destruct (apply_then_download (fs := Reference.fs) "uploads"
              (Bson.str Sample.garden_id) "hello"
              "https://bob.example.com" Sample.cv Sample.bob Sample.alice
              Sample.file_id Sample.request_id Sample.garden_id 800250
              Sample.started Sample.planted eq_refl eq_refl)
    as (response & Hd & Hb & Hn);
    [discriminate | reflexivity | reflexivity | reflexivity | reflexivity |].
  exists response. split; [exact Hd|]. split; [exact Hb|].
  now apply Hn.
Defined.

(** X7. A later application whose file name is drawn from another generated
    ObjectId does not overwrite the document of an earlier one: when both
    files could be opened, each document is, after both applications, in the
    upload store under its own path. *)
Theorem second_upload_keeps_first :
  forall {fs : FileSystem} (UPLOAD_DIR : string)
         (project_id1 message1 portfolio_url1 : string) (document1 : UploadFile.t)
         (applicant1 : AuthUser.t) (file_id1 new_id1 o1 : Bson.oid) (now1 : Z)
         (project_id2 message2 portfolio_url2 : string) (document2 : UploadFile.t)
         (applicant2 : AuthUser.t) (file_id2 new_id2 o2 : Bson.oid) (now2 : Z)
         (w : World) (p1 p2 : Project.doc),
    let path1 :=
      path_join UPLOAD_DIR
        (Bson.str file_id1 ++ "_" ++ UploadFile.filename document1) in
    let path2 :=
      path_join UPLOAD_DIR
        (Bson.str file_id2 ++ "_" ++ UploadFile.filename document2) in
    Bson.ObjectId project_id1 = Ok o1 ->
    Mongo.find_one (project_by_id o1) (projects w) = Some p1 ->
    Project.visibility p1 <> "private" ->
    open_wb path1 (files w) = None ->
    Bson.ObjectId project_id2 = Ok o2 ->
    Mongo.find_one (project_by_id o2) (projects w) = Some p2 ->
    Project.visibility p2 <> "private" ->
    open_wb path2 (<[path1 := UploadFile.content document1]> (files w))
    = None ->
    Bson.generated file_id1 -> Bson.generated file_id2 ->
    file_id1 <> file_id2 ->
    let w1 :=
      snd (apply_to_project UPLOAD_DIR project_id1 message1 portfolio_url1
             document1 applicant1 file_id1 new_id1 now1 w) in
    let w2 :=
      snd (apply_to_project UPLOAD_DIR project_id2 message2 portfolio_url2
             document2 applicant2 file_id2 new_id2 now2 w1) in
    files w2 !! path1 = Some (UploadFile.content document1)
    /\ files w2 !! path2 = Some (UploadFile.content document2)
    /\ List.length (collaborationrequest w2)
       = S (S (List.length (collaborationrequest w))).
Proof.
  intros fs UPLOAD_DIR project_id1 message1 portfolio_url1 document1 applicant1
    file_id1 new_id1 o1 now1 project_id2 message2 portfolio_url2 document2
    applicant2 file_id2 new_id2 o2 now2 w p1 p2 path1 path2 Ho1 Hf1 Hv1 Hopen1
    Ho2 Hf2 Hv2 Hopen2 Hg1 Hg2 Hne w1 w2.
  unfold w2, w1.
  rewrite (apply_to_project_success UPLOAD_DIR project_id1 message1
             portfolio_url1 document1 applicant1 file_id1 new_id1 o1 now1 w p1
             Ho1 Hf1 Hv1 Hopen1).
  cbn [snd].
  rewrite (apply_to_project_success UPLOAD_DIR project_id2 message2
             portfolio_url2 document2 applicant2 file_id2 new_id2 o2 now2 _ p2
             Ho2); [|exact Hf2|exact Hv2|exact Hopen2].
  cbn [snd files collaborationrequest set_collaborationrequest write_file].
  split; [|split].
  - rewrite lookup_insert_ne; [apply lookup_insert_eq|].
    apply not_eq_sym. now apply upload_paths_distinct.
  - apply lookup_insert_eq.
  - unfold Mongo.insert_one. rewrite !List.length_app. cbn. lia.
Qed.

(** Bob applies twice to the same project with the same file name. *)
Lemma second_upload_keeps_first_witness :
  files
    (snd (apply_to_project (fs := Reference.fs) "uploads"
            (Bson.str Sample.garden_id) "again" "https://bob.example.com"
            {| UploadFile.filename := "cv.pdf"; UploadFile.content := [x00] |}
            Sample.bob Sample.fresh_id Sample.vault_id 900250 Sample.applied))
    !! "uploads/654f1d0000000000000000f2_cv.pdf"
  = Some [x25; x50; x44; x46].
Proof.
  destruct (second_upload_keeps_first (fs := Reference.fs) "uploads"
              (Bson.str Sample.garden_id) "hello" "https://bob.example.com"
              Sample.cv Sample.bob Sample.file_id Sample.request_id
              Sample.garden_id 800250
              (Bson.str Sample.garden_id) "again" "https://bob.example.com"
              {| UploadFile.filename := "cv.pdf"; UploadFile.content := [x00] |}
              Sample.bob Sample.fresh_id Sample.vault_id Sample.garden_id
              900250
              Sample.started Sample.planted Sample.planted eq_refl eq_refl)
    as (H1 & _ & _);
    [discriminate | reflexivity | reflexivity | reflexivity | discriminate
    | reflexivity | reflexivity | reflexivity | discriminate |].
  exact H1.
Defined.

(** ** Reviewing the requests of a project *)

Section Requests.
Variables (project_id : string) (user : AuthUser.t) (w : World) (o : Bson.oid).
Hypothesis well_formed : Bson.ObjectId project_id = Ok o.

Lemma list_requests_eq :
  list_requests project_id user w
  = match Mongo.find_one (project_by_id o) (projects w) with
    | None => Raise (HTTPException 404 "Project not found")
    | Some p =>
        if negb (String.eqb (Project.owner_id p) (AuthUser.id user))
        then Raise (HTTPException 403 "Not authorized")
        else
          Ok (List.map request_out
                (Mongo.sort_desc CollaborationRequest.created_at
                   (Mongo.find
                      (fun r =>
                         String.eqb (CollaborationRequest.project_id r)
                           project_id)
                      (collaborationrequest w))))
    end.
Proof. unfold list_requests. now rewrite well_formed. Qed.

Lemma list_requests_items (p : Project.doc) :
  Mongo.find_one (project_by_id o) (projects w) = Some p ->
  Project.owner_id p = AuthUser.id user ->
  exists items,
    list_requests project_id user w = Ok items
    /\ Sorted (newest_first RequestOut.created_at) items
    /\ forall item,
         In item items
         <-> exists r,
               In r (collaborationrequest w)
               /\ CollaborationRequest.project_id r = project_id
               /\ item = request_out r.
Proof.
  intros Hf Hown. rewrite list_requests_eq, Hf.
  apply String.eqb_eq in Hown. rewrite Hown. cbn [negb].
  eexists. split; [reflexivity|]. split.
  - apply Sorted_map with (R := newest_first CollaborationRequest.created_at);
      [intros a b H; exact H | apply sort_desc_sorted].
  - intros item. rewrite in_map_iff. split.
    + intros (r & <- & Hr). apply sort_desc_In in Hr.
      apply filter_In in Hr as [Hr He]. apply String.eqb_eq in He. eauto.
    + intros (r & Hr & He & ->). exists r. split; [reflexivity|].
      apply sort_desc_In. apply filter_In. split; [exact Hr|].
      now apply String.eqb_eq.
Qed.
End Requests.

(** X8. For a well-formed project id, [list_requests] raises 404 when no
    project has the id and 403 when the requester is not its owner; for the
    owner it returns exactly the stored requests whose [project_id] is the
    given string, newest first. *)
Theorem list_requests_owner_only :
  forall (project_id : string) (user : AuthUser.t) (w : World) (o : Bson.oid),
    Bson.ObjectId project_id = Ok o ->
    (Mongo.find_one (project_by_id o) (projects w) = None ->
     list_requests project_id user w
     = Raise (HTTPException 404 "Project not found"))
    /\ (forall p,
          Mongo.find_one (project_by_id o) (projects w) = Some p ->
          Project.owner_id p <> AuthUser.id user ->
          list_requests project_id user w
          = Raise (HTTPException 403 "Not authorized"))
    /\ (forall p,
          Mongo.find_one (project_by_id o) (projects w) = Some p ->
          Project.owner_id p = AuthUser.id user ->
          exists items,
            list_requests project_id user w = Ok items
            /\ Sorted (newest_first RequestOut.created_at) items
            /\ forall item,
                 In item items
                 <-> exists r,
                       In r (collaborationrequest w)
                       /\ CollaborationRequest.project_id r = project_id
                       /\ item = request_out r).
Proof.
  intros project_id user w o Ho. split; [|split].
  - intros Hf. now rewrite (list_requests_eq project_id user w o Ho), Hf.
  - intros p Hf Hne. rewrite (list_requests_eq project_id user w o Ho), Hf.
    apply String.eqb_neq in Hne. now rewrite Hne.
  - intros p. now apply list_requests_items.
Qed.

(** Alice sees the request for her garden project; Bob is refused. *)
Lemma list_requests_owner_only_witness :
  list_requests (Bson.str Sample.garden_id) Sample.alice Sample.world
  = Ok [request_out Sample.request]
  /\ list_requests (Bson.str Sample.garden_id) Sample.bob Sample.world
     = Raise (HTTPException 403 "Not authorized").
Proof.
  destruct (list_requests_owner_only (Bson.str Sample.garden_id) Sample.bob
              Sample.world Sample.garden_id eq_refl) as (_ & Hforb & _).
  destruct (list_requests_owner_only (Bson.str Sample.garden_id) Sample.alice
              Sample.world Sample.garden_id eq_refl) as (_ & _ & Hown).
  destruct (Hown Sample.garden eq_refl eq_refl) as (items & Hl & _).
  split; [rewrite Hl; now injection Hl|].
  apply (Hforb Sample.garden); [reflexivity | discriminate].
Defined.



(** ** Who the guard lets in *)

Section GuardSuccess.
Context {codec : JwsCodec}.
Variables (JWT_SECRET : string) (now : Z) (w : World).

Lemma guard_ok_inv (authorization : option string) (user : AuthUser.t) :
  get_current_user JWT_SECRET authorization now w = Ok user ->
  exists h token payload s o u,
    authorization = Some h
    /\ bearer_token h token
    /\ jwt_decode token JWT_SECRET now = Ok payload
    /\ sub payload = Some (JStr s) /\ s <> ""
    /\ truthy (email payload) = true
    /\ Bson.ObjectId s = Ok o
    /\ Mongo.find_one (user_by_id o) (users w) = Some u
    /\ user = {| AuthUser.id := Bson.str (User._id u);
                 AuthUser.email := User.email u;
                 AuthUser.name := Some (User.name u) |}.
Proof.
  unfold get_current_user.
  destruct (truthy_opt authorization) eqn:Et; [|discriminate].
  destruct authorization as [h|]; [|discriminate]. cbn [negb unwrap].
  unfold get_current_user_try.
  destruct (split " " h) as [|scheme [|token [|x l]]] eqn:Es; try discriminate.
  destruct (String.eqb (lower scheme) "bearer") eqn:Eb; [|discriminate].
  cbn [negb].
  destruct (jwt_decode token JWT_SECRET now) as [payload|e] eqn:Ed;
    [|destruct e; discriminate].
  cbn [rbind].
  destruct (truthy (sub payload)) eqn:Esub; [|discriminate].
  destruct (truthy (email payload)) eqn:Eem; [|discriminate].
  cbn [negb orb].
  destruct (sub payload) as [[s|z]|] eqn:Ep; try discriminate.
  destruct (Bson.ObjectId s) as [o|e] eqn:Eo; [|destruct e; discriminate].
  cbn [rbind]. case_find; [|discriminate].
  intros [= <-]. exists h, token, payload, s, o, d.
  repeat split; try assumption; try reflexivity.
  - exists scheme. split; [exact Es | now apply String.eqb_eq].
  - intros ->. discriminate Esub.
Qed.

Lemma split_length (s : string) :
  List.length (split " " s) = S (count_spaces s).
Proof.
  induction s as [|c s IH]; [reflexivity|]. cbn [split count_spaces].
  destruct (Ascii.eqb c " ").
  - cbn [List.length]. now rewrite IH.
  - destruct (split " " s) as [|x l]; [discriminate IH|].
    cbn [List.length] in *. lia.
Qed.
End GuardSuccess.

(** X10. When the guard lets a request in, the identity it returns is that
    of a user stored at that moment: its id, email and name are read from a
    record of the [users] collection, the first one that carries its id. *)
Theorem get_current_user_identity_from_store :
  forall {codec : JwsCodec} (JWT_SECRET : string)
         (authorization : option string) (now : Z) (w : World)
         (user : AuthUser.t),
    get_current_user JWT_SECRET authorization now w = Ok user ->
    exists u,
      In u (users w)
      /\ AuthUser.id user = Bson.str (User._id u)
      /\ AuthUser.email user = User.email u
      /\ AuthUser.name user = Some (User.name u)
      /\ Mongo.find_one (user_by_id (User._id u)) (users w) = Some u.
Proof.
  intros codec JWT_SECRET authorization now w user H.
  apply guard_ok_inv in H
    as (h & token & payload & s & o & u & _ & _ & _ & _ & _ & _ & _ & Hf & ->).
  exists u. pose proof Hf as Hu. apply find_one_some in Hu as [Hin Hid].
  apply oid_eqb_eq in Hid. rewrite Hid. now repeat split.
Qed.

Lemma get_current_user_identity_from_store_witness :
  exists u,
    In u (users Sample.world)
    /\ AuthUser.id Sample.alice = Bson.str (User._id u)
    /\ AuthUser.email Sample.alice = User.email u.
Proof.
  destruct (get_current_user_identity_from_store (codec := Reference.codec)
              Sample.secret (Some ("Bearer " ++ Sample.alice_token)) 2000
              Sample.world Sample.alice) as (u & Hin & Hid & He & _);
    [vm_compute; reflexivity|].
  exists u. now repeat split.
Defined.

(** X11. A header that does not contain exactly one space is refused with
    401, whatever it holds. *)
Theorem get_current_user_one_space :
  forall {codec : JwsCodec} (JWT_SECRET h : string) (now : Z) (w : World),
    count_spaces h <> 1%nat ->
    exists detail,
      get_current_user JWT_SECRET (Some h) now w
      = Raise (HTTPException 401 detail).
Proof.
  intros codec JWT_SECRET h now w Hc.
  destruct (String.eqb_spec h "") as [-> | Hne].
  - eexists. reflexivity.
  - eexists. apply guard_malformed; [exact Hne|].
    intros token (scheme & Hs & _). apply Hc.
    pose proof (split_length h) as Hl. rewrite Hs in Hl.
    cbn in Hl. congruence.
Qed.

(** Two spaces between the scheme and a valid token. *)
Lemma get_current_user_one_space_witness :
  exists detail,
    get_current_user (codec := Reference.codec) Sample.secret
      (Some ("Bearer  " ++ Sample.alice_token)) 2000 Sample.world
    = Raise (HTTPException 401 detail).
Proof.
  apply (get_current_user_one_space (codec := Reference.codec)).
  vm_compute. discriminate.
Defined.

(** X12. An authenticated user whose stored id is a generated ObjectId can
    always update the profile: [update_me] succeeds, and the guard, asked
    again with the same header, returns the same id and email with the new
    name (the old one when the payload has none), which is also what
    [update_me] answers. *)
Theorem update_me_then_guard :
  forall {codec : JwsCodec} (JWT_SECRET : string)
         (authorization : option string) (now : Z) (w : World)
         (user : AuthUser.t) (payload : ProfileUpdate.t),
    get_current_user JWT_SECRET authorization now w = Ok user ->
    Forall (fun u => Bson.generated (User._id u)) (users w) ->
    let user' :=
      {| AuthUser.id := AuthUser.id user;
         AuthUser.email := AuthUser.email user;
         AuthUser.name :=
           match ProfileUpdate.name payload with
           | Some n => Some n
           | None => AuthUser.name user
           end |} in
    fst (update_me payload user w) = Ok (me user')
    /\ get_current_user JWT_SECRET authorization now
         (snd (update_me payload user w))
       = Ok user'.
Proof.
  intros codec JWT_SECRET authorization now w user payload H Hgen user'.
  apply guard_ok_inv in H
    as (h & token & claims & s & o & u & -> & Hb & Hd & Hs & Hne & He & Ho
        & Hf & ->).
  pose proof Hf as Hu. apply find_one_some in Hu as [Hin Hid].
  apply oid_eqb_eq in Hid.
  rewrite List.Forall_forall in Hgen. pose proof (Hgen u Hin) as Hg.
  assert (Hoid : Bson.ObjectId (Bson.str (User._id u)) = Ok o)
    by (rewrite <- Hid; now apply ObjectId_str).
  rewrite update_me_eq. cbn [AuthUser.id]. rewrite Hoid. cbn zeta.
  set (w' := match ProfileUpdate.name payload with
             | Some n =>
                 set_users (Mongo.update_one (user_by_id o) (set_name n)) w
             | None => w
             end).
  set (u' := match ProfileUpdate.name payload with
             | Some n => set_name n u
             | None => u
             end).
  assert (Hf' : Mongo.find_one (user_by_id o) (users w') = Some u').
  { unfold w', u'. destruct (ProfileUpdate.name payload) as [n|]; [|exact Hf].
    cbn [users set_users]. apply find_one_update_one; [exact Hf|].
    now apply find_one_some in Hf. }
  rewrite Hf'. cbn [fst snd].
  rewrite (guard_identified JWT_SECRET now w' h token Hb claims Hd s o Hs Hne
             He Ho), Hf'.
  unfold user', u', me.
  destruct (ProfileUpdate.name payload); split; reflexivity.
Qed.

(** Alice renames herself and asks who she is. *)
Lemma update_me_then_guard_witness :
  get_current_user (codec := Reference.codec) Sample.secret
    (Some ("Bearer " ++ Sample.alice_token)) 2000
    (snd (update_me {| ProfileUpdate.name := Some "Alice L." |} Sample.alice
            Sample.world))
  = Ok {| AuthUser.id := Bson.str Sample.alice_id;
          AuthUser.email := "alice@example.com";
          AuthUser.name := Some "Alice L." |}.
Proof.
  destruct (update_me_then_guard (codec := Reference.codec) Sample.secret
              (Some ("Bearer " ++ Sample.alice_token)) 2000 Sample.world
              Sample.alice {| ProfileUpdate.name := Some "Alice L." |})
    as [_ H]; [vm_compute; reflexivity | | exact H].
  repeat constructor.
Defined.

(** ** The life of a project *)

Section ProjectLife.
Context {D : Type}.
Variables (key : D -> Bson.oid) (o : Bson.oid).

Let by_key (d : D) : bool := Bson.oid_eqb (key d) o.

Lemma delete_one_length (c : list D) (d : D) :
  Mongo.find_one by_key c = Some d ->
  S (List.length (Mongo.delete_one by_key c)) = List.length c.
Proof.
  unfold Mongo.find_one. induction c as [|e c IH]; cbn; [discriminate|].
  destruct (by_key e); [reflexivity|]. intros H. cbn. now rewrite IH.
Qed.

Lemma delete_one_gone (c : list D) :
  NoDup (List.map key c) ->
  Mongo.find_one by_key (Mongo.delete_one by_key c) = None.
Proof.
  unfold Mongo.find_one. induction c as [|e c IH]; cbn; [reflexivity|].
  intros Hn. apply NoDup_cons in Hn as [Hnot Hn].
  destruct (by_key e) eqn:E.
  - apply oid_eqb_eq in E.
    destruct (List.find by_key c) as [d|] eqn:Ef; [|reflexivity].
    apply List.find_some in Ef as [Hin Hd]. apply oid_eqb_eq in Hd.
    exfalso. apply Hnot. apply list_elem_of_In. rewrite E, <- Hd.
    now apply in_map.
  - cbn. rewrite E. now apply IH.
Qed.
End ProjectLife.

(** X13. When its owner deletes a project, every saved-project and request
    record whose [project_id] is the given string is removed and every other
    one is kept; one project record is removed and, project ids being
    unique, no project has the id afterwards; the users and the uploaded
    files, those of the removed requests included, are left as they were. *)
Theorem delete_project_cascade :
  forall (project_id : string) (user : AuthUser.t) (w : World) (o : Bson.oid)
         (p : Project.doc),
    Bson.ObjectId project_id = Ok o ->
    Mongo.find_one (project_by_id o) (projects w) = Some p ->
    Project.owner_id p = AuthUser.id user ->
    let w' := snd (delete_project project_id user w) in
    (forall s,
        In s (savedproject w')
        <-> In s (savedproject w) /\ SavedProject.project_id s <> project_id)
    /\ (forall r,
          In r (collaborationrequest w')
          <-> In r (collaborationrequest w)
              /\ CollaborationRequest.project_id r <> project_id)
    /\ S (List.length (projects w')) = List.length (projects w)
    /\ (NoDup (List.map Project._id (projects w)) ->
        Mongo.find_one (project_by_id o) (projects w') = None)
    /\ users w' = users w
    /\ files w' = files w.
Proof.
  intros project_id user w o p Ho Hf Hown w'. unfold w'.
  rewrite (delete_project_owner w project_id o user Ho p Hf Hown).
  cbn [snd savedproject collaborationrequest projects users files
         set_collaborationrequest set_savedproject set_projects].
  unfold Mongo.delete_many. split; [|split; [|split; [|split]]].
  - intros s. rewrite filter_In, negb_true_iff, String.eqb_neq. tauto.
  - intros r. rewrite filter_In, negb_true_iff, String.eqb_neq. tauto.
  - now apply (delete_one_length Project._id o (projects w) p).
  - apply (delete_one_gone Project._id o).
  - split; reflexivity.
Qed.

(** Alice deletes the garden project of the sample store. *)
Lemma delete_project_cascade_witness :
  collaborationrequest
    (snd (delete_project (Bson.str Sample.garden_id) Sample.alice Sample.world))
  = []
  /\ Mongo.find_one (project_by_id Sample.garden_id)
       (projects
          (snd (delete_project (Bson.str Sample.garden_id) Sample.alice
                  Sample.world)))
     = None.
Proof.
  destruct (delete_project_cascade (Bson.str Sample.garden_id) Sample.alice
              Sample.world Sample.garden_id Sample.garden eq_refl eq_refl
              eq_refl) as (_ & _ & _ & Hgone & _).
  split; [reflexivity|]. apply Hgone.
  repeat constructor; rewrite ?list_elem_of_In; cbn; intuition discriminate.
Defined.

(** X14. [create_project] answers with the creator as owner and the clock
    reading as creation date; [get_project], under the string of the fresh
    generated id, returns the same project with the creation date as the
    store holds it, to the millisecond; the creator can update and delete
    it; any user with another id is refused with 403 and leaves the store as
    it was. *)
Theorem create_project_then_get :
  forall (payload payload' : ProjectIn.t) (user other : AuthUser.t)
         (new_id : Bson.oid) (now now' : Z) (w : World),
    Bson.generated new_id ->
    Mongo.find_one (project_by_id new_id) (projects w) = None ->
    let created := create_project payload user new_id now w in
    let project_id := Bson.str new_id in
    (exists out,
        fst created = Ok out
        /\ ProjectOut.id out = project_id
        /\ ProjectOut.owner_id out = AuthUser.id user
        /\ ProjectOut.created_at out = now
        /\ get_project project_id (snd created)
           = Ok {| ProjectOut.id := ProjectOut.id out;
                   ProjectOut.owner_id := ProjectOut.owner_id out;
                   ProjectOut.created_at := Bson.datetime now;
                   ProjectOut.title := ProjectOut.title out;
                   ProjectOut.description := ProjectOut.description out;
                   ProjectOut.skills_required := ProjectOut.skills_required out;
                   ProjectOut.expected_contribution :=
                     ProjectOut.expected_contribution out;
                   ProjectOut.duration := ProjectOut.duration out;
                   ProjectOut.tags := ProjectOut.tags out;
                   ProjectOut.visibility := ProjectOut.visibility out |})
    /\ (exists out',
          fst (update_project project_id payload' user now' (snd created))
          = Ok out'
          /\ ProjectOut.owner_id out' = AuthUser.id user
          /\ ProjectOut.created_at out' = Bson.datetime now
          /\ ProjectOut.title out' = ProjectIn.title payload')
    /\ fst (delete_project project_id user (snd created)) = Ok true
    /\ (AuthUser.id other <> AuthUser.id user ->
        update_project project_id payload' other now' (snd created)
        = (Raise (HTTPException 403 "Not authorized"), snd created)
        /\ delete_project project_id other (snd created)
           = (Raise (HTTPException 403 "Not authorized"), snd created)).
Proof.
  intros payload payload' user other new_id now now' w Hg Hfresh created
    project_id.
  unfold created, project_id. rewrite create_project_eq. cbn [fst snd].
  set (doc := {| Project._id := new_id;
                 Project.title := ProjectIn.title payload;
                 Project.description := ProjectIn.description payload;
                 Project.skills_required := ProjectIn.skills_required payload;
                 Project.expected_contribution :=
                   ProjectIn.expected_contribution payload;
                 Project.duration := ProjectIn.duration payload;
                 Project.tags := ProjectIn.tags payload;
                 Project.visibility := ProjectIn.visibility payload;
                 Project.owner_id := AuthUser.id user;
                 Project.created_at := Bson.datetime now;
                 Project.updated_at := None |}).
  set (w1 := set_projects (Mongo.insert_one doc) w).
  assert (Ho : Bson.ObjectId (Bson.str new_id) = Ok new_id)
    by now apply ObjectId_str.
  assert (Hf : Mongo.find_one (project_by_id new_id) (projects w1) = Some doc).
  { unfold w1. cbn [projects set_projects].
    apply find_one_insert_one; [exact Hfresh | apply oid_eqb_refl]. }
  split; [|split; [|split]].
  - eexists. split; [reflexivity|]. repeat split.
    unfold get_project. rewrite Ho. cbn [rbind]. now rewrite Hf.
  - eexists.
    rewrite (update_project_owner w1 _ new_id payload' user now' Ho doc Hf
               eq_refl).
    split; [reflexivity|]. now repeat split.
  - now rewrite (delete_project_owner w1 _ new_id user Ho doc Hf eq_refl).
  - intros Hne. split.
    + apply (update_project_forbidden w1 _ new_id payload' other now' Ho doc Hf).
      cbn. congruence.
    + apply (delete_project_forbidden w1 _ new_id other Ho doc Hf).
      cbn. congruence.
Qed.

(** Bob creates a project in the sample store a quarter of a millisecond
    after a whole one: the answer has the reading, the store the whole
    millisecond. *)
Lemma create_project_then_get_witness :
  (exists out,
      fst (create_project Sample.edit Sample.bob Sample.fresh_id 900250
             Sample.world) = Ok out
      /\ ProjectOut.created_at out = 900250)
  /\ (exists out,
        get_project (Bson.str Sample.fresh_id)
          (snd (create_project Sample.edit Sample.bob Sample.fresh_id 900250
                  Sample.world)) = Ok out
        /\ ProjectOut.created_at out = 900000)
  /\ fst (delete_project (Bson.str Sample.fresh_id) Sample.alice
            (snd (create_project Sample.edit Sample.bob Sample.fresh_id 900250
                    Sample.world)))
     = Raise (HTTPException 403 "Not authorized").
Proof.
  destruct (create_project_then_get Sample.edit Sample.edit Sample.bob
              Sample.alice Sample.fresh_id 900250 901000 Sample.world eq_refl
              eq_refl)
    as ((out & Hc & _ & _ & Hat & Hget) & _ & _ & Hother).
  split; [|split].
  - exists out. split; [exact Hc | exact Hat].
  - eexists. split; [exact Hget | reflexivity].
  - destruct Hother as [_ Hd]; [discriminate|]. now rewrite Hd.
Defined.

(** ** What the listing shows and hides *)

Section ListingComplete.
Context {regex : RegexEngine}.
Variables (q tag : option string).

Lemma truthy_opt_true (x : option string) :
  truthy_opt x = true -> exists s, x = Some s /\ s <> "" /\ unwrap x = s.
Proof.
  destruct x as [s|]; [|discriminate]. cbn. unfold truthy_str.
  intros H. apply negb_true_iff, String.eqb_neq in H. eauto.
Qed.

Lemma list_projects_query_complete (query : Project.doc -> bool)
    (p : Project.doc) :
  list_projects_query q tag = Ok query ->
  Project.visibility p = "public" ->
  (forall pattern m,
      q = Some pattern -> pattern <> "" ->
      regex_compile pattern "i" = Some m ->
      m (Project.title p) = true \/ m (Project.description p) = true
      \/ exists t, In t (Project.tags p) /\ m t = true) ->
  (forall t, tag = Some t -> t <> "" -> In t (Project.tags p)) ->
  query p = true.
Proof.
  unfold list_projects_query. intros Hq Hvis Hpat Htag.
  assert (Ht : (if truthy_opt tag
                then fun p : Project.doc =>
                       List.existsb (String.eqb (unwrap tag)) (Project.tags p)
                else fun _ => true) p = true).
  { destruct (truthy_opt tag) eqn:Et; [|reflexivity].
    destruct (truthy_opt_true tag Et) as (t & Hs & Hne & ->).
    apply List.existsb_exists. exists t.
    split; [now apply Htag | apply String.eqb_refl]. }
  apply String.eqb_eq in Hvis.
  destruct (truthy_opt q) eqn:Eq.
  - destruct (truthy_opt_true q Eq) as (pattern & Hs & Hne & Hu).
    rewrite Hu in Hq.
    destruct (regex_compile pattern "i") as [m|] eqn:Em; [|discriminate Hq].
    cbn [rbind] in Hq. injection Hq as <-. rewrite Hvis, Ht.
    cbn [andb]. rewrite andb_true_r.
    destruct (Hpat pattern m Hs Hne Em) as [-> | [-> | (t & Hin & Hm)]].
    + reflexivity.
    + now rewrite orb_true_r.
    + apply orb_true_iff. right. apply List.existsb_exists. eauto.
  - cbn [rbind] in Hq. injection Hq as <-. now rewrite Hvis, Ht.
Qed.
End ListingComplete.

(** X15. [list_projects] leaves out no match: every stored project that is
    public, is matched by [q] when [q] is given and not empty, and carries
    [tag] when [tag] is given and not empty, is in the list. *)
Theorem list_projects_complete :
  forall {regex : RegexEngine} (q tag : option string) (w : World)
         (items : list ProjectOut.t) (p : Project.doc),
    list_projects q tag w = Ok items ->
    In p (projects w) ->
    Project.visibility p = "public" ->
    (forall pattern m,
        q = Some pattern -> pattern <> "" ->
        regex_compile pattern "i" = Some m ->
        m (Project.title p) = true \/ m (Project.description p) = true
        \/ exists t, In t (Project.tags p) /\ m t = true) ->
    (forall t, tag = Some t -> t <> "" -> In t (Project.tags p)) ->
    In (project_out p) items.
Proof.
  intros regex q tag w items p Hl Hin Hvis Hpat Htag.
  destruct (list_projects_items q tag w items Hl) as (query & Hq & ->).
  apply in_map. apply sort_desc_In. apply filter_In. split; [exact Hin|].
  now apply (list_projects_query_complete q tag).
Qed.

(** An empty tag is no filter: the public forge project is listed. *)
Lemma list_projects_complete_witness :
  exists items,
    list_projects (regex := Reference.regex) None (Some "") Sample.catalog
    = Ok items
    /\ In (project_out Sample.forge) items.
Proof.
  eexists. split; [reflexivity|].
  apply (list_projects_complete (regex := Reference.regex) None (Some "")
           Sample.catalog _ Sample.forge).
  - reflexivity.
  - right. right. left. reflexivity.
  - reflexivity.
  - discriminate.
  - intros t [= <-] H. now contradiction H.
Defined.

(** X16. [get_project] returns a stored project whatever its visibility,
    while no call of [list_projects] returns a project that is not public:
    a private project can be read by whoever knows its id and is listed to
    nobody. *)
Theorem get_project_ignores_visibility :
  forall {regex : RegexEngine} (project_id : string) (o : Bson.oid)
         (p : Project.doc) (w : World),
    Bson.ObjectId project_id = Ok o ->
    Mongo.find_one (project_by_id o) (projects w) = Some p ->
    get_project project_id w = Ok (project_out p)
    /\ (Project.visibility p <> "public" ->
        forall q tag items,
          list_projects q tag w = Ok items -> ~ In (project_out p) items).
Proof.
  intros regex project_id o p w Ho Hf. split.
  - unfold get_project. rewrite Ho. cbn [rbind]. now rewrite Hf.
  - intros Hvis q tag items Hl Hin.
    destruct (list_projects_items q tag w items Hl) as (query & Hq & ->).
    apply in_map_iff in Hin as (p' & He & Hp').
    apply sort_desc_In in Hp'. apply filter_In in Hp' as [_ Hquery].
    destruct (list_projects_query_sound q tag query p' Hq Hquery) as [Hpub _].
    apply Hvis. apply (f_equal ProjectOut.visibility) in He. cbn in He.
    congruence.
Qed.

(** The private vault is read by id and never listed. *)
Lemma get_project_ignores_visibility_witness :
  get_project (Bson.str Sample.vault_id) Sample.catalog
  = Ok (project_out Sample.vault)
  /\ ~ In (project_out Sample.vault)
         [project_out Sample.forge; project_out Sample.garden].
Proof.
  destruct (get_project_ignores_visibility (regex := Reference.regex)
              (Bson.str Sample.vault_id) Sample.vault_id Sample.vault
              Sample.catalog eq_refl eq_refl) as [Hget Hlist].
  split; [exact Hget|].
  apply (Hlist ltac:(discriminate) None None). reflexivity.
Defined.

(** ** Signing in *)

Section SignIn.
Context {codec : JwsCodec} {crypt : CryptContext}.
Variables (JWT_SECRET : string).

Lemma find_one_email_insert (e : string) (us : list User.doc) (d : User.doc) :
  ~ In e (List.map User.email us) -> User.email d = e ->
  Mongo.find_one (fun u => String.eqb (User.email u) e) (Mongo.insert_one d us)
  = Some d.
Proof.
  intros Hn He. apply find_one_insert_one.
  - destruct (Mongo.find_one (fun u => String.eqb (User.email u) e) us) eqn:E;
      [|reflexivity].
    exfalso. apply Hn. apply find_one_some in E as [Hin Hu].
    apply String.eqb_eq in Hu. rewrite <- Hu. now apply in_map.
  - rewrite He. apply String.eqb_refl.
Qed.

End SignIn.

(** X17. After a signup with an e-mail no stored user has, and whose hash
    returned, [signin] with that e-mail does what the hash library does with
    the password and the stored hash: it returns a token for the id of the
    new user when the library verifies the password, raises 401 when the
    library rejects it, and raises what the library raises; a rejected
    password and an e-mail that nobody registered raise the same 401 with
    the same message. *)
Theorem signup_then_signin :
  forall {codec : JwsCodec} {crypt : CryptContext} (JWT_SECRET : string)
         (payload : SignUpRequest.t) (new_id : Bson.oid) (salt : string)
         (now issued later : Z) (password unknown hashed : string) (w : World),
    ~ In (SignUpRequest.email payload) (List.map User.email (users w)) ->
    pwd_hash salt (SignUpRequest.password payload) = Ok hashed ->
    let w' := snd (signup JWT_SECRET payload new_id salt now issued w) in
    let attempt :=
      signin JWT_SECRET
        {| SignInRequest.email := SignUpRequest.email payload;
           SignInRequest.password := password |} later w' in
    (pwd_verify password hashed = Ok true ->
     attempt
     = Ok {| TokenResponse.access_token :=
               create_token JWT_SECRET (Bson.str new_id)
                 (SignUpRequest.email payload) later;
             TokenResponse.token_type := "bearer" |})
    /\ (pwd_verify password hashed = Ok false ->
        attempt = Raise (HTTPException 401 "Invalid credentials"))
    /\ (forall e, pwd_verify password hashed = Raise e -> attempt = Raise e)
    /\ (~ In unknown (List.map User.email (users w')) ->
        signin JWT_SECRET
          {| SignInRequest.email := unknown;
             SignInRequest.password := password |} later w'
        = Raise (HTTPException 401 "Invalid credentials")).
Proof.
  intros codec crypt JWT_SECRET payload new_id salt now issued later password
    unknown hashed w Hn Hh w' attempt.
  assert (Hf : Mongo.find_one
                 (fun u => String.eqb (User.email u) (SignUpRequest.email payload))
                 (users w')
               = Some (stored_user (signup_doc payload new_id hashed now))).
  { unfold w'.
    rewrite (signup_fresh JWT_SECRET payload new_id salt now issued w hashed Hn
               Hh).
    cbn [snd users set_users]. now apply find_one_email_insert. }
  unfold attempt, signin.
  cbn [SignInRequest.email SignInRequest.password]. rewrite Hf.
  cbn [User.password_hash User._id User.email signup_doc stored_user].
  unfold verify_password. split; [|split; [|split]].
  - now intros ->.
  - now intros ->.
  - now intros e ->.
  - intros Hu.
    destruct (Mongo.find_one (fun u => String.eqb (User.email u) unknown)
                (users w')) as [u|] eqn:E; [|reflexivity].
    exfalso. apply Hu. apply find_one_some in E as [Hin He].
    apply String.eqb_eq in He. rewrite <- He. now apply in_map.
Qed.

(** Carol signs up and signs in; a wrong password is refused. *)
Lemma signup_then_signin_witness :
  signin (codec := Reference.codec) (crypt := Reference.crypt)
    Sample.secret
    {| SignInRequest.email := "carol@example.com";
       SignInRequest.password := "tea" |} 700
    (snd (signup (codec := Reference.codec) (crypt := Reference.crypt)
            Sample.secret
            {| SignUpRequest.name := "Carol";
               SignUpRequest.email := "carol@example.com";
               SignUpRequest.password := "tea" |}
            Sample.fresh_id "s2" 600 601 Sample.world))
  = Ok {| TokenResponse.access_token :=
            create_token (codec := Reference.codec) Sample.secret
              (Bson.str Sample.fresh_id) "carol@example.com" 700;
          TokenResponse.token_type := "bearer" |}
  /\ signin (codec := Reference.codec) (crypt := Reference.crypt)
       Sample.secret
       {| SignInRequest.email := "carol@example.com";
          SignInRequest.password := "coffee" |} 700
       (snd (signup (codec := Reference.codec) (crypt := Reference.crypt)
               Sample.secret
               {| SignUpRequest.name := "Carol";
                  SignUpRequest.email := "carol@example.com";
                  SignUpRequest.password := "tea" |}
               Sample.fresh_id "s2" 600 601 Sample.world))
     = Raise (HTTPException 401 "Invalid credentials").
Proof.
  assert (Hn : ~ In "carol@example.com"
                 (List.map User.email (users Sample.world))).
  { intros [H | [H | []]]; discriminate H. }
  destruct (signup_then_signin (codec := Reference.codec)
              (crypt := Reference.crypt) Sample.secret
              {| SignUpRequest.name := "Carol";
                 SignUpRequest.email := "carol@example.com";
                 SignUpRequest.password := "tea" |}
              Sample.fresh_id "s2" 600 601 700 "tea" "dave@example.com"
              (Reference.hashed "s2" "tea") Sample.world Hn eq_refl)
    as (Hok & _ & _).
  destruct (signup_then_signin (codec := Reference.codec)
              (crypt := Reference.crypt) Sample.secret
              {| SignUpRequest.name := "Carol";
                 SignUpRequest.email := "carol@example.com";
                 SignUpRequest.password := "tea" |}
              Sample.fresh_id "s2" 600 601 700 "coffee" "dave@example.com"
              (Reference.hashed "s2" "tea") Sample.world Hn eq_refl)
    as (_ & Hbad & _).
  split.
  - apply Hok. reflexivity.
  - apply Hbad. reflexivity.
Defined.



(** ** Saving, then listing *)

(** X19. When the ids a user saved before are well formed, saving the id of
    a stored project puts that project in the user's saved list. *)
Theorem save_then_my_saved :
  forall (project_id : string) (user : AuthUser.t) (new_id o : Bson.oid)
         (now : Z) (w : World) (p : Project.doc),
    Bson.ObjectId project_id = Ok o ->
    Mongo.find_one (project_by_id o) (projects w) = Some p ->
    (forall s,
        In s (savedproject w) -> SavedProject.user_id s = AuthUser.id user ->
        exists o', Bson.ObjectId (SavedProject.project_id s) = Ok o') ->
    exists items,
      my_saved user (snd (save_project project_id user new_id now w)) = Ok items
      /\ In (project_out p) items.
Proof.
  intros project_id user new_id o now w p Ho Hf Hwf.
  destruct (save_project_saved project_id user new_id now w) as [d Hd].
  apply find_one_some in Hd as [Hin Hby].
  apply saved_by_eq in Hby as [Hu Hp].
  destruct (my_saved_well_formed user
              (snd (save_project project_id user new_id now w)))
    as (items & Hm & Hitems).
  { rewrite save_project_eq. cbn [snd].
    destruct (Mongo.find_one (saved_by (AuthUser.id user) project_id)
                (savedproject w)); [exact Hwf|].
    cbn [savedproject set_savedproject]. unfold Mongo.insert_one.
    intros s Hs Hsu. apply in_app_or in Hs as [Hs | [<- | []]]; [eauto|].
    cbn. eauto. }
  exists items. split; [exact Hm|]. apply Hitems. exists p, d.
  assert (Hpw : projects (snd (save_project project_id user new_id now w))
                = projects w).
  { rewrite save_project_eq. cbn [snd]. now case_find. }
  rewrite Hpw. pose proof Hf as Hf'. apply find_one_some in Hf' as [Hpin Hpid].
  apply oid_eqb_eq in Hpid.
  repeat split; try assumption. now rewrite Hp, Hpid.
Qed.

(** Bob saves the garden project and finds it in his list. *)
Lemma save_then_my_saved_witness :
  my_saved Sample.bob
    (snd (save_project (Bson.str Sample.garden_id) Sample.bob Sample.fresh_id
            700 Sample.world))
  = Ok [project_out Sample.garden].
Proof.
  destruct (save_then_my_saved (Bson.str Sample.garden_id) Sample.bob
              Sample.fresh_id Sample.garden_id 700 Sample.world Sample.garden
              eq_refl eq_refl) as (items & Hm & _).
  - intros s [].
  - rewrite Hm. now injection Hm.
Defined.

(** X20. Over a signing layer that verifies, under the key, every token it
    made and makes tokens without a space, the token that [signin] returns
    for a verified password is accepted by the guard, at any later reading
    of the clock, as long as the user is stored: presented as
    [Bearer <token>], it resolves to the stored record of the user who
    signed in. *)
Theorem signin_token_resolves :
  forall {codec : JwsCodec} {crypt : CryptContext} (JWT_SECRET : string)
         (payload : SignInRequest.t) (issued later : Z) (w : World)
         (u : User.doc),
    jws_lawful codec ->
    Mongo.find_one
      (fun x => String.eqb (User.email x) (SignInRequest.email payload))
      (users w) = Some u ->
    pwd_verify (SignInRequest.password payload) (User.password_hash u)
    = Ok true ->
    User.email u <> "" ->
    Bson.generated (User._id u) ->
    Mongo.find_one (user_by_id (User._id u)) (users w) = Some u ->
    exists token,
      signin JWT_SECRET payload issued w
      = Ok {| TokenResponse.access_token := token;
              TokenResponse.token_type := "bearer" |}
      /\ get_current_user JWT_SECRET (Some ("Bearer " ++ token)) later w
         = Ok {| AuthUser.id := Bson.str (User._id u);
                 AuthUser.email := User.email u;
                 AuthUser.name := Some (User.name u) |}.
Proof.
  intros codec crypt JWT_SECRET payload issued later w u Hlaw Hf Hv He Hg Hid.
  exists (create_token JWT_SECRET (Bson.str (User._id u)) (User.email u)
            issued).
  split.
  - unfold signin. rewrite Hf. unfold verify_password. now rewrite Hv.
  - now apply (guard_resolves_token Hlaw JWT_SECRET _ _ issued later w u).
Qed.

(** Alice signs in at time 1000 and is recognised at time 5000. *)
Lemma signin_token_resolves_witness :
  exists token,
    signin (codec := Reference.codec) (crypt := Reference.crypt) Sample.secret
      {| SignInRequest.email := "alice@example.com";
         SignInRequest.password := "wonderland" |} 1000 Sample.world
    = Ok {| TokenResponse.access_token := token;
            TokenResponse.token_type := "bearer" |}
    /\ get_current_user (codec := Reference.codec) Sample.secret
         (Some ("Bearer " ++ token)) 5000 Sample.world
       = Ok Sample.alice.
Proof.
  apply (signin_token_resolves (codec := Reference.codec)
           (crypt := Reference.crypt) Sample.secret
           {| SignInRequest.email := "alice@example.com";
              SignInRequest.password := "wonderland" |} 1000 5000
           Sample.world Sample.alice_doc reference_codec_lawful);
    try reflexivity; try discriminate.
Defined.
